(** * Recipe manager: the validator and the persistence layer of Finalproject.py

    A shallow embedding of [Validator] and [Database] (Finalproject.py,
    lines 56-863) and of the statements [RecipeApp.delete_user] sends to the
    database (lines 1893-1928), followed by theorems about them: the
    validator, the category and credential stores, views, soft deletion,
    creation and update of recipes, and what every sequence of operations
    keeps.  The callers of [Database] in the windows are embedded as
    functions of the contents of their widgets, with the message box shown
    or the window opened as result: [save_recipe] (lines 1290-1332),
    [save_changes] (2148-2190), [view_recipe_window] (2216-2222),
    [LoginDialog.login] (2446-2472) and [RegisterDialog.register]
    (2526-2566).

    Modelling choices.
    - A Python [str] is a [string] whose characters are the code points
      U+0000..U+00FF: the [ascii] of number [n] stands for the code point
      [n].  [len] is [String.length]; [str.isspace] and [str.isalnum] are
      the tables of CPython restricted to that range.
    - A table is the list of its rows in insertion order.  The keys, the
      foreign keys, the defaults and the AUTO_INCREMENT counters are those
      of [Database._create_tables]; the engine is InnoDB, which enforces
      the foreign keys.  A statement is modelled for values that fit
      their columns: what the server does with a value that does not fit
      (it refuses the statement, or stores the value cut) depends on its
      sql_mode, which the program does not set.  No validator bounds the
      instructions by the size of [instructions TEXT] (65,535 bytes; the
      validator counts characters), the name of a category or the name of
      the author of a recipe by VARCHAR(255): the theorems about a value
      stored in these columns assume [fits_text] and [fits_varchar].
    - Every statement goes through [execute_safe], which commits it and
      turns an error of the server into [DatabaseError].  A statement that
      fails writes nothing; nothing is ever rolled back.
    - The arguments have the types the callers in the program pass: ints
      for ids and for prep_time, lists of ints for category_ids, lists of
      pairs of strings for ingredients, 'user' or 'admin' for a role.
    - [=] on a string column compares under the collation of the column
      (utf8mb4_unicode_ci).  The comparison is a parameter, [sql_eq].
    - [hashlib.sha256(..).hexdigest()] is a parameter, [sha256].
    - CURRENT_TIMESTAMP is the argument [now] of each operation.
    - [int(s)] and [str(n)] are the decimal conversions of the Standard
      Library, with the sign, the underscores between digits and the limit
      on the number of digits of CPython.
    - Logging is left out. *)

From Stdlib Require Import ZArith List String Ascii Bool Lia.

From Stdlib Require Import DecimalString DecimalPos DecimalZ.
Import ListNotations.

Local Open Scope string_scope.
Local Open Scope Z_scope.
Local Open Scope list_scope.

(** ** Python strings *)

Module Py.

(** [c.isspace()] for a code point below 256. *)
Definition isspace (c : ascii) : bool :=
  let n := N_of_ascii c in
  ((9 <=? n) && (n <=? 13) || (28 <=? n) && (n <=? 32)
   || (n =? 133) || (n =? 160))%N.

Definition isdigit_ascii (c : ascii) : bool :=
  let n := N_of_ascii c in ((48 <=? n) && (n <=? 57))%N.

Definition isupper_ascii (c : ascii) : bool :=
  let n := N_of_ascii c in ((65 <=? n) && (n <=? 90))%N.

Definition islower_ascii (c : ascii) : bool :=
  let n := N_of_ascii c in ((97 <=? n) && (n <=? 122))%N.

(** The class [A-Za-z0-9]. *)
Definition isalnum_ascii (c : ascii) : bool :=
  isdigit_ascii c || isupper_ascii c || islower_ascii c.

(** The code points of U+0080..U+00FF that [str.isalnum] accepts:
    the letters (categories Lu, Ll, Lo), the superscript digits and the
    vulgar fractions. *)
Definition isalnum_latin1 (c : ascii) : bool :=
  let n := N_of_ascii c in
  ((n =? 170) || (n =? 178) || (n =? 179) || (n =? 181) || (n =? 185)
   || (n =? 186) || (188 <=? n) && (n <=? 190)
   || (192 <=? n) && (n <=? 214) || (216 <=? n) && (n <=? 246)
   || (248 <=? n) && (n <=? 255))%N.

(** [c.isalnum()] for a code point below 256. *)
Definition isalnum (c : ascii) : bool :=
  isalnum_ascii c || isalnum_latin1 c.

Fixpoint lstrip (s : string) : string :=
  match s with
  | EmptyString => EmptyString
  | String c s' => if isspace c then lstrip s' else s
  end.

Fixpoint rstrip (s : string) : string :=
  match s with
  | EmptyString => EmptyString
  | String c s' =>
      match rstrip s' with
      | EmptyString => if isspace c then EmptyString else String c EmptyString
      | t => String c t
      end
  end.

(** [s.strip()] *)
Definition strip (s : string) : string := rstrip (lstrip s).

(** [len(s)] *)
Definition len (s : string) : Z := Z.of_nat (String.length s).

(** [not s] for a string: the empty string is falsy. *)
Definition falsy (s : string) : bool :=
  match s with EmptyString => true | _ => false end.

(** [all(p(c) for c in s)] *)
Fixpoint all (p : ascii -> bool) (s : string) : bool :=
  match s with
  | EmptyString => true
  | String c s' => p c && all p s'
  end.

(** The digits of [s] when [s] is a run of decimal digits with single
    underscores between digits, as [int] accepts them; [after_digit] tells
    whether the character before was a digit. *)
Fixpoint digits_of (s : string) (after_digit : bool) : option string :=
  match s with
  | EmptyString => if after_digit then Some EmptyString else None
  | String c s' =>
      if isdigit_ascii c then option_map (String c) (digits_of s' true)
      else if Ascii.eqb c "_" && after_digit then digits_of s' false
      else None
  end.

(** [int(s)] for a string [s] that [str.strip] leaves unchanged: an
    optional sign, then the digits; [None] stands for ValueError.
    [max_str_digits] is [sys.get_int_max_str_digits()]: a string of more
    digits is refused; 0 is no limit, as in the interpreters that have no
    such limit. *)
Definition int_of_str (max_str_digits : Z) (s : string) : option Z :=
  let signed :=
    match s with
    | String c r =>
        if Ascii.eqb c "-" then (true, r)
        else if Ascii.eqb c "+" then (false, r)
        else (false, s)
    | EmptyString => (false, s)
    end in
  match digits_of (snd signed) false with
  | Some ds =>
      if (0 <? max_str_digits) && (max_str_digits <? len ds) then None
      else
        match NilEmpty.uint_of_string ds with
        | Some u => Some (if fst signed then - Z.of_uint u else Z.of_uint u)
        | None => None
        end
  | None => None
  end.

(** [str(t)] for an int [t] whose decimal is within the limit on digits. *)
Definition str_of_int (t : Z) : string := NilZero.string_of_int (Z.to_int t).

End Py.

(** ** Exceptions and results *)

(** What the server rejected ([mysql.connector.Error]). *)
Inductive mysql_error : Type :=
| DuplicateEntry
| ForeignKeyFails.

(** The exception classes of the program.  [execute_safe] wraps a server
    error into [DatabaseError]; [register_user] raises
    [DatabaseError("Username already exists")] itself. *)
Inductive exn : Type :=
| ValidationError (msg : string)
| DatabaseError (msg : string)
| DatabaseOperationFailed (e : mysql_error).

Definition is_DatabaseError (e : exn) : bool :=
  match e with
  | ValidationError _ => false
  | DatabaseError _ | DatabaseOperationFailed _ => true
  end.

Definition is_ValidationError (e : exn) : bool :=
  match e with
  | ValidationError _ => true
  | _ => false
  end.

Inductive res (A : Type) : Type :=
| Ok (a : A)
| Raise (e : exn).
Arguments Ok {A} a.
Arguments Raise {A} e.

(** ** Validator *)

Module Validator.

Definition username_char (c : ascii) : bool :=
  Py.isalnum c || Ascii.eqb c "_" || Ascii.eqb c "-".

Definition validate_username (username : string) : res string :=
  if Py.falsy username || Py.falsy (Py.strip username) then
    Raise (ValidationError "Username cannot be empty")
  else
    let username := Py.strip username in
    if Py.len username <? 3 then
      Raise (ValidationError "Username must be at least 3 characters long")
    else if Py.len username >? 50 then
      Raise (ValidationError "Username cannot exceed 50 characters")
    else if negb (Py.all username_char username) then
      Raise (ValidationError
        "Username can only contain letters, numbers, underscores, and hyphens")
    else Ok username.

Definition validate_password (password : string) : res string :=
  if Py.falsy password then
    Raise (ValidationError "Password cannot be empty")
  else if Py.len password <? 6 then
    Raise (ValidationError "Password must be at least 6 characters long")
  else if Py.len password >? 100 then
    Raise (ValidationError "Password cannot exceed 100 characters")
  else Ok password.

Definition validate_recipe_title (title : string) : res string :=
  if Py.falsy title || Py.falsy (Py.strip title) then
    Raise (ValidationError "Recipe title cannot be empty")
  else
    let title := Py.strip title in
    if Py.len title >? 200 then
      Raise (ValidationError "Recipe title cannot exceed 200 characters")
    else Ok title.

Definition validate_instructions (instructions : string) : res string :=
  if Py.falsy instructions || Py.falsy (Py.strip instructions) then
    Raise (ValidationError "Instructions cannot be empty")
  else
    let instructions := Py.strip instructions in
    if Py.len instructions >? 65535 then
      Raise (ValidationError
        "Instructions are too long (maximum 65,535 characters)")
    else Ok instructions.

(** [validate_prep_time(str(t))] for a Python int [t] other than 0, the
    only way [Database] calls it: [str(t)] is not blank and
    [int(str(t).strip())] is [t], so what is left is the range check. *)
Definition validate_prep_time_of_int (t : Z) : res Z :=
  if t <=? 0 then
    Raise (ValidationError "Preparation time must be a positive number")
  else if t >? 1440 then
    Raise (ValidationError
      "Preparation time cannot exceed 24 hours (1440 minutes)")
  else Ok t.

Definition validate_ingredient (ingredient quantity : string)
  : res (string * string) :=
  let ingredient :=
    if Py.falsy ingredient then EmptyString else Py.strip ingredient in
  let quantity :=
    if Py.falsy quantity then EmptyString else Py.strip quantity in
  if Py.falsy ingredient then
    Raise (ValidationError "Ingredient name cannot be empty")
  else if Py.len ingredient >? 100 then
    Raise (ValidationError
      "Ingredient name is too long (maximum 100 characters)")
  else if Py.len quantity >? 50 then
    Raise (ValidationError
      "Quantity description is too long (maximum 50 characters)")
  else Ok (ingredient, quantity).

(** [validate_prep_time(prep_time)] for a string. *)
Definition validate_prep_time (max_str_digits : Z) (prep_time : string)
  : res Z :=
  if Py.falsy prep_time || Py.falsy (Py.strip prep_time) then
    Raise (ValidationError "Preparation time cannot be empty")
  else
    match Py.int_of_str max_str_digits (Py.strip prep_time) with
    | Some time =>
        if time <=? 0 then
          Raise (ValidationError "Preparation time must be a positive number")
        else if time >? 1440 then
          Raise (ValidationError
            "Preparation time cannot exceed 24 hours (1440 minutes)")
        else Ok time
    | None =>
        Raise (ValidationError "Preparation time must be a valid number")
    end.

End Validator.

(** ** The tables *)

Inductive role : Type := RoleUser | RoleAdmin.
Inductive status : Type := Active | Deleted.
Inductive event_type : Type := EvView | EvEdit | EvDelete | EvCreate.

Definition status_eqb (a b : status) : bool :=
  match a, b with
  | Active, Active | Deleted, Deleted => true
  | _, _ => false
  end.

Record user_row : Type := mk_user {
  u_id : Z;
  u_username : string;
  u_password_hash : string;
  u_role : role;
  u_created_at : Z;
  u_last_login : option Z;
  u_recipe_count : Z }.

Record recipe_row : Type := mk_recipe {
  r_id : Z;
  r_title : string;
  r_instructions : string;
  r_views : Z;
  r_prep_time : Z;
  r_created_by : string;
  r_created_at : Z;
  r_updated_at : option Z;
  r_status : status }.

Record category_row : Type := mk_category {
  c_id : Z;
  c_name : string;
  c_recipe_count : Z }.

Record recipe_category_row : Type := mk_link {
  rc_recipe_id : Z;
  rc_category_id : Z }.

(** The [id] columns of the next three tables are never read by the
    program and are left out. *)
Record ingredient_row : Type := mk_ingredient {
  i_recipe_id : Z;
  i_ingredient : string;
  i_quantity : string }.

Record event_row : Type := mk_event {
  e_recipe_id : option Z;
  e_username : string;
  e_type : event_type;
  e_time : Z }.

Record view_row : Type := mk_view {
  v_username : string;
  v_recipe_id : Z;
  v_view_count : Z;
  v_last_viewed : Z }.

(** The database: seven tables and the AUTO_INCREMENT counters of the
    three tables whose ids the program reads. *)
Record db : Type := mk_db {
  users : list user_row;
  recipes : list recipe_row;
  categories : list category_row;
  recipe_categories : list recipe_category_row;
  recipe_ingredients : list ingredient_row;
  recipe_events : list event_row;
  user_recipe_views : list view_row;
  next_user_id : positive;
  next_recipe_id : positive;
  next_category_id : positive }.

(** The state after [_create_tables] on a new server. *)
Definition empty_db : db :=
  mk_db [] [] [] [] [] [] [] 1%positive 1%positive 1%positive.

Definition set_users (st : db) (l : list user_row) : db :=
  mk_db l (recipes st) (categories st) (recipe_categories st)
    (recipe_ingredients st) (recipe_events st) (user_recipe_views st)
    (next_user_id st) (next_recipe_id st) (next_category_id st).

Definition set_recipes (st : db) (l : list recipe_row) : db :=
  mk_db (users st) l (categories st) (recipe_categories st)
    (recipe_ingredients st) (recipe_events st) (user_recipe_views st)
    (next_user_id st) (next_recipe_id st) (next_category_id st).

Definition set_categories (st : db) (l : list category_row) : db :=
  mk_db (users st) (recipes st) l (recipe_categories st)
    (recipe_ingredients st) (recipe_events st) (user_recipe_views st)
    (next_user_id st) (next_recipe_id st) (next_category_id st).

Definition set_recipe_categories (st : db) (l : list recipe_category_row)
  : db :=
  mk_db (users st) (recipes st) (categories st) l
    (recipe_ingredients st) (recipe_events st) (user_recipe_views st)
    (next_user_id st) (next_recipe_id st) (next_category_id st).

Definition set_recipe_ingredients (st : db) (l : list ingredient_row) : db :=
  mk_db (users st) (recipes st) (categories st) (recipe_categories st)
    l (recipe_events st) (user_recipe_views st)
    (next_user_id st) (next_recipe_id st) (next_category_id st).

Definition set_recipe_events (st : db) (l : list event_row) : db :=
  mk_db (users st) (recipes st) (categories st) (recipe_categories st)
    (recipe_ingredients st) l (user_recipe_views st)
    (next_user_id st) (next_recipe_id st) (next_category_id st).

Definition set_user_recipe_views (st : db) (l : list view_row) : db :=
  mk_db (users st) (recipes st) (categories st) (recipe_categories st)
    (recipe_ingredients st) (recipe_events st) l
    (next_user_id st) (next_recipe_id st) (next_category_id st).

(** ** The sizes of the columns *)

(** The number of bytes of [s] in utf8mb4: one for a code point below
    U+0080 and two for the others of U+0000..U+00FF. *)
Fixpoint utf8_len (s : string) : Z :=
  match s with
  | EmptyString => 0
  | String c s' => (if (N_of_ascii c <? 128)%N then 1 else 2) + utf8_len s'
  end.

(** [s] fits a TEXT column: at most 65,535 bytes. *)
Definition fits_text (s : string) : bool := utf8_len s <=? 65535.

(** [s] fits a VARCHAR(255) column: at most 255 characters. *)
Definition fits_varchar (s : string) : bool := Py.len s <=? 255.

(** ** Statements that run against the database and may raise *)

Definition M (A : Type) : Type := db -> res A * db.

Definition ret {A} (a : A) : M A := fun st => (Ok a, st).

Definition raise {A} (e : exn) : M A := fun st => (Raise e, st).

Definition bind {A B} (c : M A) (k : A -> M B) : M B :=
  fun st =>
    match c st with
    | (Ok a, st') => k a st'
    | (Raise e, st') => (Raise e, st')
    end.

(** [try: c except Exception as e: h(e)].  What [c] wrote before it raised
    stays written: every statement is committed on its own and nothing is
    ever rolled back. *)
Definition try_except {A} (c : M A) (h : exn -> M A) : M A :=
  fun st =>
    match c st with
    | (Ok a, st') => (Ok a, st')
    | (Raise e, st') => h e st'
    end.

Definition lift {A} (r : res A) : M A := fun st => (r, st).

Declare Scope db_scope.
Delimit Scope db_scope with db.
Notation "x <- c ;; k" := (bind c (fun x => k))
  (at level 61, c at next level, right associativity) : db_scope.
Notation "c ;;; k" := (bind c (fun _ => k))
  (at level 61, right associativity) : db_scope.

(** [for x in l: f(x)] *)
Fixpoint for_each {A} (f : A -> M unit) (l : list A) : M unit :=
  match l with
  | [] => ret tt
  | x :: l' => bind (f x) (fun _ => for_each f l')
  end.

(** What [get_recipe] returns: the selected columns of the recipe, its
    categories and its ingredients. *)
Record recipe_meta : Type := mk_meta {
  m_id : Z;
  m_title : string;
  m_instructions : string;
  m_views : Z;
  m_created_by : string;
  m_created_at : Z;
  m_prep_time : Z }.

Record recipe_data : Type := mk_data {
  meta : recipe_meta;
  data_categories : list (Z * string);
  data_ingredients : list (string * string) }.

(** What the UPDATE statements do to a row they select.  [updated_at] is
    ON UPDATE CURRENT_TIMESTAMP: it is set on the rows a statement changes. *)

Definition user_logged_in (now : Z) (u : user_row) : user_row :=
  mk_user (u_id u) (u_username u) (u_password_hash u) (u_role u)
    (u_created_at u) (Some now) (u_recipe_count u).

Definition user_count_add (d : Z) (u : user_row) : user_row :=
  mk_user (u_id u) (u_username u) (u_password_hash u) (u_role u)
    (u_created_at u) (u_last_login u) (u_recipe_count u + d).

Definition category_count_add (d : Z) (c : category_row) : category_row :=
  mk_category (c_id c) (c_name c) (c_recipe_count c + d).

Definition recipe_edited (now : Z) (title instructions : string)
    (prep_time : Z) (r : recipe_row) : recipe_row :=
  mk_recipe (r_id r) title instructions (r_views r) prep_time
    (r_created_by r) (r_created_at r) (Some now) (r_status r).

Definition recipe_deleted (now : Z) (r : recipe_row) : recipe_row :=
  mk_recipe (r_id r) (r_title r) (r_instructions r) (r_views r)
    (r_prep_time r) (r_created_by r) (r_created_at r) (Some now) Deleted.

Definition recipe_viewed (now : Z) (r : recipe_row) : recipe_row :=
  mk_recipe (r_id r) (r_title r) (r_instructions r) (r_views r + 1)
    (r_prep_time r) (r_created_by r) (r_created_at r) (Some now) (r_status r).

Definition view_again (now : Z) (v : view_row) : view_row :=
  mk_view (v_username v) (v_recipe_id v) (v_view_count v + 1) now.

Definition meta_of (r : recipe_row) : recipe_meta :=
  mk_meta (r_id r) (r_title r) (r_instructions r) (r_views r)
    (r_created_by r) (r_created_at r) (r_prep_time r).

(** The character class the specification gives for usernames,
    [A-Za-z0-9_-], to compare with the one the validator applies. *)
Definition spec_username_class (c : ascii) : bool :=
  Py.isalnum_ascii c || Ascii.eqb c "_" || Ascii.eqb c "-".

(** A stand-in for the digest in the examples.  The theorems hold for every
    digest function. *)
Definition example_digest (s : string) : string := String "#" s.

(** [s] is empty or begins with a character that is not a space. *)
Definition no_space_ahead (s : string) : Prop :=
  match s with
  | EmptyString => True
  | String c _ => Py.isspace c = false
  end.

Definition role_eqb (a b : role) : bool :=
  match a, b with
  | RoleUser, RoleUser | RoleAdmin, RoleAdmin => true
  | _, _ => false
  end.

Definition CREATE_ADMIN_PASSPHRASE : string := "CREATE_ADMIN_2025".

(** What a dialog ends with: the message box it shows, or the window it
    opens. *)
Inductive login_outcome : Type :=
| LoginInputError
| LoginFailed
| LoginAccessDenied
| LoginOpened (username : string) (user_role : role)
| LoginError (e : exn).

Inductive register_outcome : Type :=
| RegisterInputError
| RegisterMismatch
| RegisterCancelled
| RegisterAccessDenied
| RegisterSuccess
| RegisterFailed
| RegisterError (e : exn).

Inductive save_outcome : Type :=
| SaveSuccess (title : string)
| SaveFailed
| SaveError (e : exn).

(** The loop of [save_recipe] and of [save_changes] over the rows of the
    form: a row whose name is blank is skipped, a row that is not valid
    raises, the others are collected, validated. *)
Fixpoint collect_ingredients (ingredients_list : list (string * string))
  : res (list (string * string)) :=
  match ingredients_list with
  | [] => Ok []
  | (ing_entry, qty_entry) :: rest =>
      let ing := Py.strip ing_entry in
      let qty := Py.strip qty_entry in
      if Py.falsy ing then collect_ingredients rest
      else
        match Validator.validate_ingredient ing qty with
        | Raise e => Raise e
        | Ok v =>
            match collect_ingredients rest with
            | Ok l => Ok (v :: l)
            | Raise e => Raise e
            end
        end
  end.

Section Store.

Local Open Scope db_scope.

(** [a = b] on a string column, under the collation of the column. *)
Variable sql_eq : string -> string -> bool.

(** [sha256(s)], the hexadecimal digest. *)
Variable sha256 : string -> string.

(** *** The statements, one definition per SQL text *)

Definition recipe_exists (rid : Z) (st : db) : bool :=
  existsb (fun r => r_id r =? rid) (recipes st).

Definition category_exists (cid : Z) (st : db) : bool :=
  existsb (fun c => c_id c =? cid) (categories st).

(** SELECT id FROM users WHERE username=%s; fetchone *)
Definition select_user_id (username : string) : M (option Z) :=
  fun st =>
    (Ok (option_map u_id
           (find (fun u => sql_eq (u_username u) username) (users st))), st).

(** INSERT INTO users (username, password_hash, role); lastrowid.
    [username] is UNIQUE. *)
Definition insert_user (now : Z) (username password_hash : string)
    (r : role) : M Z :=
  fun st =>
    if existsb (fun u => sql_eq (u_username u) username) (users st) then
      (Raise (DatabaseOperationFailed DuplicateEntry), st)
    else
      let id := Z.pos (next_user_id st) in
      (Ok id,
       mk_db (users st ++ [mk_user id username password_hash r now None 0])
         (recipes st) (categories st) (recipe_categories st)
         (recipe_ingredients st) (recipe_events st) (user_recipe_views st)
         (Pos.succ (next_user_id st)) (next_recipe_id st)
         (next_category_id st)).

(** SELECT password_hash, role FROM users WHERE username=%s; fetchone *)
Definition select_password_role (username : string)
  : M (option (string * role)) :=
  fun st =>
    (Ok (option_map (fun u => (u_password_hash u, u_role u))
           (find (fun u => sql_eq (u_username u) username) (users st))), st).

(** UPDATE users SET last_login = CURRENT_TIMESTAMP WHERE username = %s *)
Definition update_last_login (now : Z) (username : string) : M bool :=
  fun st =>
    (Ok true,
     set_users st
       (map (fun u =>
               if sql_eq (u_username u) username then user_logged_in now u
               else u) (users st))).

(** UPDATE users SET recipe_count = recipe_count + d WHERE username = %s,
    with [d] 1 or -1 *)
Definition update_user_recipe_count (username : string) (d : Z) : M bool :=
  fun st =>
    (Ok true,
     set_users st
       (map (fun u =>
               if sql_eq (u_username u) username then user_count_add d u
               else u) (users st))).

(** DELETE FROM users WHERE username=%s *)
Definition delete_from_users (username : string) : M bool :=
  fun st =>
    (Ok true,
     set_users st
       (filter (fun u => negb (sql_eq (u_username u) username)) (users st))).

(** SELECT id FROM categories WHERE name = %s; fetchone *)
Definition select_category_id_by_name (name : string) : M (option Z) :=
  fun st =>
    (Ok (option_map c_id
           (find (fun c => sql_eq (c_name c) name) (categories st))), st).

(** SELECT id FROM categories WHERE id = %s; fetchone *)
Definition select_category_id (cid : Z) : M (option Z) :=
  fun st =>
    (Ok (option_map c_id (find (fun c => c_id c =? cid) (categories st))),
     st).

(** INSERT INTO categories (name); lastrowid.  [name] is UNIQUE and
    recipe_count defaults to 0.  The statement for a name that fits the
    column ([fits_varchar]). *)
Definition insert_category (name : string) : M Z :=
  fun st =>
    if existsb (fun c => sql_eq (c_name c) name) (categories st) then
      (Raise (DatabaseOperationFailed DuplicateEntry), st)
    else
      let id := Z.pos (next_category_id st) in
      (Ok id,
       mk_db (users st) (recipes st)
         (categories st ++ [mk_category id name 0])
         (recipe_categories st) (recipe_ingredients st) (recipe_events st)
         (user_recipe_views st) (next_user_id st) (next_recipe_id st)
         (Pos.succ (next_category_id st))).

(** UPDATE categories SET recipe_count = recipe_count + 1 WHERE id = %s *)
Definition increment_category_count (cid : Z) : M bool :=
  fun st =>
    (Ok true,
     set_categories st
       (map (fun c =>
               if c_id c =? cid then category_count_add 1 c else c)
          (categories st))).

(** INSERT INTO recipes (title, instructions, created_by, prep_time);
    lastrowid.  views defaults to 0, status to 'active', updated_at to
    NULL.  The statement for instructions and an author that fit their
    columns ([fits_text], [fits_varchar]); a validated title does. *)
Definition insert_recipe (now : Z) (title instructions created_by : string)
    (prep_time : Z) : M Z :=
  fun st =>
    let id := Z.pos (next_recipe_id st) in
    (Ok id,
     mk_db (users st)
       (recipes st ++ [mk_recipe id title instructions 0 prep_time
                         created_by now None Active])
       (categories st) (recipe_categories st) (recipe_ingredients st)
       (recipe_events st) (user_recipe_views st) (next_user_id st)
       (Pos.succ (next_recipe_id st)) (next_category_id st)).

(** UPDATE recipes SET title=%s, instructions=%s, prep_time=%s,
    updated_at=CURRENT_TIMESTAMP WHERE id=%s.  The statement for
    instructions that fit the column ([fits_text]). *)
Definition update_recipe_row (now : Z) (title instructions : string)
    (prep_time rid : Z) : M bool :=
  fun st =>
    (Ok true,
     set_recipes st
       (map (fun r =>
               if r_id r =? rid
               then recipe_edited now title instructions prep_time r
               else r) (recipes st))).

(** UPDATE recipes SET status='deleted' WHERE id=%s; a row that is
    deleted already is not changed. *)
Definition mark_recipe_deleted (now : Z) (rid : Z) : M bool :=
  fun st =>
    (Ok true,
     set_recipes st
       (map (fun r =>
               if (r_id r =? rid) && status_eqb (r_status r) Active
               then recipe_deleted now r else r) (recipes st))).

(** UPDATE recipes SET views = views + 1 WHERE id=%s *)
Definition increment_recipe_views (now : Z) (rid : Z) : M bool :=
  fun st =>
    (Ok true,
     set_recipes st
       (map (fun r =>
               if r_id r =? rid then recipe_viewed now r else r)
          (recipes st))).

(** SELECT id, title, instructions, views, created_by, created_at,
    prep_time FROM recipes WHERE id=%s AND status='active'; fetchone *)
Definition select_active_recipe (rid : Z) : M (option recipe_meta) :=
  fun st =>
    (Ok (option_map meta_of
           (find (fun r => (r_id r =? rid) && status_eqb (r_status r) Active)
              (recipes st))), st).

(** SELECT id FROM recipes WHERE created_by=%s; fetchall *)
Definition select_recipe_ids_by_author (username : string) : M (list Z) :=
  fun st =>
    (Ok (map r_id
           (filter (fun r => sql_eq (r_created_by r) username) (recipes st))),
     st).

(** INSERT INTO recipe_categories (recipe_id, category_id).  The pair is
    the primary key and both columns are foreign keys. *)
Definition insert_recipe_category (rid cid : Z) : M bool :=
  fun st =>
    if existsb (fun l => (rc_recipe_id l =? rid) && (rc_category_id l =? cid))
         (recipe_categories st) then
      (Raise (DatabaseOperationFailed DuplicateEntry), st)
    else if negb (recipe_exists rid st && category_exists cid st) then
      (Raise (DatabaseOperationFailed ForeignKeyFails), st)
    else
      (Ok true,
       set_recipe_categories st (recipe_categories st ++ [mk_link rid cid])).

(** DELETE FROM recipe_categories WHERE recipe_id=%s *)
Definition delete_recipe_categories (rid : Z) : M bool :=
  fun st =>
    (Ok true,
     set_recipe_categories st
       (filter (fun l => negb (rc_recipe_id l =? rid))
          (recipe_categories st))).

(** SELECT c.id, c.name FROM categories c JOIN recipe_categories rc ON
    c.id=rc.category_id WHERE rc.recipe_id=%s; fetchall.  The statement
    has no ORDER BY; the rows are listed in the order of [categories]. *)
Definition select_recipe_categories (rid : Z) : M (list (Z * string)) :=
  fun st =>
    (Ok (map (fun c => (c_id c, c_name c))
           (filter (fun c =>
                      existsb (fun l => (rc_recipe_id l =? rid)
                                        && (rc_category_id l =? c_id c))
                        (recipe_categories st))
              (categories st))), st).

(** INSERT INTO recipe_ingredients (recipe_id, ingredient, quantity).
    recipe_id is a foreign key. *)
Definition insert_ingredient (rid : Z) (ing qty : string) : M bool :=
  fun st =>
    if negb (recipe_exists rid st) then
      (Raise (DatabaseOperationFailed ForeignKeyFails), st)
    else
      (Ok true,
       set_recipe_ingredients st
         (recipe_ingredients st ++ [mk_ingredient rid ing qty])).

(** DELETE FROM recipe_ingredients WHERE recipe_id=%s *)
Definition delete_recipe_ingredients (rid : Z) : M bool :=
  fun st =>
    (Ok true,
     set_recipe_ingredients st
       (filter (fun i => negb (i_recipe_id i =? rid))
          (recipe_ingredients st))).

(** SELECT ingredient, quantity FROM recipe_ingredients WHERE
    recipe_id=%s; fetchall *)
Definition select_ingredients (rid : Z) : M (list (string * string)) :=
  fun st =>
    (Ok (map (fun i => (i_ingredient i, i_quantity i))
           (filter (fun i => i_recipe_id i =? rid) (recipe_ingredients st))),
     st).

(** INSERT INTO recipe_events (recipe_id, username, event_type).
    recipe_id is a foreign key. *)
Definition insert_event (now : Z) (rid : Z) (username : string)
    (ty : event_type) : M bool :=
  fun st =>
    if negb (recipe_exists rid st) then
      (Raise (DatabaseOperationFailed ForeignKeyFails), st)
    else
      (Ok true,
       set_recipe_events st
         (recipe_events st ++ [mk_event (Some rid) username ty now])).

(** SELECT view_count FROM user_recipe_views WHERE username=%s AND
    recipe_id=%s; fetchone *)
Definition select_view_count (username : string) (rid : Z) : M (option Z) :=
  fun st =>
    (Ok (option_map v_view_count
           (find (fun v => sql_eq (v_username v) username
                           && (v_recipe_id v =? rid))
              (user_recipe_views st))), st).

(** UPDATE user_recipe_views SET view_count = view_count + 1,
    last_viewed=CURRENT_TIMESTAMP WHERE username=%s AND recipe_id=%s *)
Definition increment_view_count (now : Z) (username : string) (rid : Z)
  : M bool :=
  fun st =>
    (Ok true,
     set_user_recipe_views st
       (map (fun v =>
               if sql_eq (v_username v) username && (v_recipe_id v =? rid)
               then view_again now v else v) (user_recipe_views st))).

(** INSERT INTO user_recipe_views (username, recipe_id, view_count)
    VALUES (%s, %s, 1).  (username, recipe_id) is UNIQUE and recipe_id is
    a foreign key. *)
Definition insert_view (now : Z) (username : string) (rid : Z) : M bool :=
  fun st =>
    if existsb (fun v => sql_eq (v_username v) username
                         && (v_recipe_id v =? rid))
         (user_recipe_views st) then
      (Raise (DatabaseOperationFailed DuplicateEntry), st)
    else if negb (recipe_exists rid st) then
      (Raise (DatabaseOperationFailed ForeignKeyFails), st)
    else
      (Ok true,
       set_user_recipe_views st
         (user_recipe_views st ++ [mk_view username rid 1 now])).

(** DELETE FROM user_recipe_views WHERE recipe_id=%s *)
Definition delete_views_of_recipe (rid : Z) : M bool :=
  fun st =>
    (Ok true,
     set_user_recipe_views st
       (filter (fun v => negb (v_recipe_id v =? rid))
          (user_recipe_views st))).

(** *** The methods of [Database] *)

(** [log_recipe_event]: a failure to write the event is logged and not
    raised. *)
Definition log_recipe_event (now : Z) (recipe_id : Z) (username : string)
    (ty : event_type) : M unit :=
  try_except
    (insert_event now recipe_id username ty ;;; ret tt)
    (fun _ => ret tt).

Definition register_user (now : Z) (username password : string) (r : role)
  : M bool :=
  try_except
    (username <- lift (Validator.validate_username username) ;;
     password <- lift (Validator.validate_password password) ;;
     existing <- select_user_id username ;;
     match existing with
     | Some _ => raise (DatabaseError "Username already exists")
     | None =>
         result <- insert_user now username (sha256 password) r ;;
         if result =? 0 then ret false else ret true
     end)
    (fun e => raise e).

Definition login_user (now : Z) (username password : string)
  : M (option role) :=
  try_except
    (username <- lift (Validator.validate_username username) ;;
     password <- lift (Validator.validate_password password) ;;
     result <- select_password_role username ;;
     match result with
     | None => ret None
     | Some (password_hash, r) =>
         if String.eqb password_hash (sha256 password) then
           update_last_login now username ;;; ret (Some r)
         else ret None
     end)
    (fun _ => ret None).

Definition add_category (name : string) : M (option Z) :=
  try_except
    (if Py.falsy name || Py.falsy (Py.strip name) then
       raise (ValidationError "Category name cannot be empty")
     else
       let name := Py.strip name in
       existing <- select_category_id_by_name name ;;
       match existing with
       | Some id => ret (Some id)
       | None =>
           result <- insert_category name ;;
           ret (Some result)
       end)
    (fun _ => ret None).

(** [Validator.validate_prep_time(str(prep_time)) if prep_time else 0],
    for an int whose decimal is within the interpreter's limit on digits:
    beyond it [str] raises ValueError before the validator is called. *)
Definition prep_time_arg (prep_time : Z) : res Z :=
  if prep_time =? 0 then Ok 0
  else Validator.validate_prep_time_of_int prep_time.

(** One turn of the category loop of [add_recipe].  The ids are Python
    ints, as the callers pass them, so [int(cid)] is [cid]. *)
Definition add_recipe_category (rid cid : Z) : M unit :=
  try_except
    (category_check <- select_category_id cid ;;
     match category_check with
     | Some _ =>
         insert_recipe_category rid cid ;;;
         increment_category_count cid ;;;
         ret tt
     | None => ret tt
     end)
    (fun e => if is_DatabaseError e then ret tt else raise e).

(** One turn of the ingredient loop of [add_recipe] and of
    [update_recipe]. *)
Definition add_ingredient (rid : Z) (p : string * string) : M unit :=
  try_except
    (v <- lift (Validator.validate_ingredient (fst p) (snd p)) ;;
     insert_ingredient rid (fst v) (snd v) ;;;
     ret tt)
    (fun _ => ret tt).

(** [add_recipe(title, instructions, created_by, category_ids,
    ingredients, prep_time)]; [None] for an argument left at its
    default. *)
Definition add_recipe (now : Z) (title instructions created_by : string)
    (category_ids : option (list Z))
    (ingredients : option (list (string * string))) (prep_time : Z)
  : M Z :=
  try_except
    (title <- lift (Validator.validate_recipe_title title) ;;
     instructions <- lift (Validator.validate_instructions instructions) ;;
     prep_time <- lift (prep_time_arg prep_time) ;;
     rid <- insert_recipe now title instructions created_by prep_time ;;
     update_user_recipe_count created_by 1 ;;;
     log_recipe_event now rid created_by EvCreate ;;;
     match category_ids with
     | Some ((_ :: _) as cids) => for_each (add_recipe_category rid) cids
     | _ => ret tt
     end ;;;
     match ingredients with
     | Some ((_ :: _) as l) => for_each (add_ingredient rid) l
     | _ => ret tt
     end ;;;
     ret rid)
    (fun e => raise e).

(** One turn of the category loop of [update_recipe]: the link is
    written, the count of the category is not touched. *)
Definition update_recipe_category (rid cid : Z) : M unit :=
  try_except
    (category_check <- select_category_id cid ;;
     match category_check with
     | Some _ => insert_recipe_category rid cid ;;; ret tt
     | None => ret tt
     end)
    (fun e => if is_DatabaseError e then ret tt else raise e).

Definition update_recipe (now : Z) (recipe_id : Z)
    (title instructions : string) (category_ids : option (list Z))
    (ingredients : option (list (string * string))) (prep_time : Z)
  : M bool :=
  try_except
    (title <- lift (Validator.validate_recipe_title title) ;;
     instructions <- lift (Validator.validate_instructions instructions) ;;
     prep_time <- lift (prep_time_arg prep_time) ;;
     update_recipe_row now title instructions prep_time recipe_id ;;;
     match category_ids with
     | Some cids =>
         delete_recipe_categories recipe_id ;;;
         for_each (update_recipe_category recipe_id) cids
     | None => ret tt
     end ;;;
     match ingredients with
     | Some l =>
         delete_recipe_ingredients recipe_id ;;;
         for_each (add_ingredient recipe_id) l
     | None => ret tt
     end ;;;
     log_recipe_event now recipe_id "user" EvEdit ;;;
     ret true)
    (fun _ => ret false).

Definition get_recipe (rid : Z) : M (option recipe_data) :=
  try_except
    (recipe <- select_active_recipe rid ;;
     match recipe with
     | None => ret None
     | Some m =>
         cats <- select_recipe_categories rid ;;
         ingredients <- select_ingredients rid ;;
         ret (Some (mk_data m cats ingredients))
     end)
    (fun _ => ret None).

Definition delete_recipe (now : Z) (recipe_id : Z) (username : string)
  : M bool :=
  try_except
    (recipe <- get_recipe recipe_id ;;
     match recipe with
     | None => ret false
     | Some d =>
         mark_recipe_deleted now recipe_id ;;;
         update_user_recipe_count (m_created_by (meta d)) (-1) ;;;
         delete_views_of_recipe recipe_id ;;;
         log_recipe_event now recipe_id username EvDelete ;;;
         ret true
     end)
    (fun _ => ret false).

Definition increment_view (now : Z) (rid : Z) (username : string) : M unit :=
  try_except
    (increment_recipe_views now rid ;;;
     existing <- select_view_count username rid ;;
     match existing with
     | Some _ => increment_view_count now username rid
     | None => insert_view now username rid
     end ;;;
     log_recipe_event now rid username EvView)
    (fun e => if is_DatabaseError e then ret tt else raise e).

(** [RecipeApp.delete_user(username)] once the dialog is confirmed;
    [acting] is [self.username]. *)
Definition delete_user (now : Z) (acting username : string) : M unit :=
  if String.eqb username acting then ret tt
  else
    try_except
      (user_recipes <- select_recipe_ids_by_author username ;;
       for_each (fun rid => delete_recipe now rid acting ;;; ret tt)
         user_recipes ;;;
       delete_from_users username ;;;
       ret tt)
      (fun _ => ret tt).

(** *** Sequences of operations *)

(** The operations that write.  The other methods of [Database] only
    read. *)
Inductive op : Type :=
| OpRegisterUser (username password : string) (r : role)
| OpLoginUser (username password : string)
| OpAddCategory (name : string)
| OpAddRecipe (title instructions created_by : string)
    (category_ids : option (list Z))
    (ingredients : option (list (string * string))) (prep_time : Z)
| OpUpdateRecipe (recipe_id : Z) (title instructions : string)
    (category_ids : option (list Z))
    (ingredients : option (list (string * string))) (prep_time : Z)
| OpDeleteRecipe (recipe_id : Z) (username : string)
| OpGetRecipe (rid : Z)
| OpIncrementView (rid : Z) (username : string)
| OpDeleteUser (acting username : string).

(** The state after one operation issued at time [now]. *)
Definition run_op (now : Z) (o : op) (st : db) : db :=
  match o with
  | OpRegisterUser u p r => snd (register_user now u p r st)
  | OpLoginUser u p => snd (login_user now u p st)
  | OpAddCategory n => snd (add_category n st)
  | OpAddRecipe t i a cs ings p => snd (add_recipe now t i a cs ings p st)
  | OpUpdateRecipe rid t i cs ings p =>
      snd (update_recipe now rid t i cs ings p st)
  | OpDeleteRecipe rid u => snd (delete_recipe now rid u st)
  | OpGetRecipe rid => snd (get_recipe rid st)
  | OpIncrementView rid u => snd (increment_view now rid u st)
  | OpDeleteUser a u => snd (delete_user now a u st)
  end.

Fixpoint run_ops (l : list (Z * op)) (st : db) : db :=
  match l with
  | [] => st
  | (now, o) :: l' => run_ops l' (run_op now o st)
  end.

(** The states the program can reach from a new database. *)
Inductive reachable : db -> Prop :=
| reachable_empty : reachable empty_db
| reachable_step now o st : reachable st -> reachable (run_op now o st).

(** *** Properties of states and of runs *)

(** The constraints of the schema on references to recipes: the ids in
    use lie below the AUTO_INCREMENT counter, and the recipe_id of every
    link and of every ingredient is the id of a row of [recipes]. *)
Definition db_wf (st : db) : Prop :=
  Forall (fun r => r_id r < Z.pos (next_recipe_id st)) (recipes st) /\
  Forall (fun l => recipe_exists (rc_recipe_id l) st = true)
    (recipe_categories st) /\
  Forall (fun i => recipe_exists (i_recipe_id i) st = true)
    (recipe_ingredients st).

(** [c] keeps [P]: whatever [c] returns or raises, the state it leaves
    satisfies [P] again. *)
Definition preserves {A} (P : db -> Prop) (c : M A) : Prop :=
  forall st, P st -> P (snd (c st)).

(** A later version of a recipe row: the same id, the status not back
    from deleted, the views not lower. *)
Definition recipe_step (r r' : recipe_row) : Prop :=
  r_id r' = r_id r /\
  (r_status r = Deleted -> r_status r' = Deleted) /\
  r_views r <= r_views r'.

(** A later version of the table: every row is still there, at its
    place, in a later version; rows may have been added. *)
Inductive evolves : list recipe_row -> list recipe_row -> Prop :=
| evolves_nil l' : evolves [] l'
| evolves_cons r r' l l' :
    recipe_step r r' -> evolves l l' -> evolves (r :: l) (r' :: l').

(** The list a loop runs over: nothing for an argument left at [None]. *)
Definition ids_given (category_ids : option (list Z)) : list Z :=
  match category_ids with Some l => l | None => [] end.

Definition pairs_given (ingredients : option (list (string * string)))
  : list (string * string) :=
  match ingredients with Some l => l | None => [] end.

(** The state after the first three statements of [add_recipe]: the
    recipe row, the count of the author, the create event. *)
Definition recipe_created (now : Z) (t i created_by : string) (p : Z)
    (st : db) : db :=
  mk_db
    (map (fun u => if sql_eq (u_username u) created_by
                   then user_count_add 1 u else u) (users st))
    (recipes st
     ++ [mk_recipe (Z.pos (next_recipe_id st)) t i 0 p created_by now None
           Active])
    (categories st) (recipe_categories st) (recipe_ingredients st)
    (recipe_events st
     ++ [mk_event (Some (Z.pos (next_recipe_id st))) created_by EvCreate now])
    (user_recipe_views st) (next_user_id st)
    (Pos.succ (next_recipe_id st)) (next_category_id st).

(** *** The count of a category against the links *)

Definition recipe_active (rid : Z) (st : db) : bool :=
  existsb (fun r => (r_id r =? rid) && status_eqb (r_status r) Active)
    (recipes st).

(** The number of active recipes linked to the category [cid]. *)
Definition active_links (cid : Z) (st : db) : Z :=
  Z.of_nat
    (List.length
       (filter (fun l => (rc_category_id l =? cid)
                         && recipe_active (rc_recipe_id l) st)
          (recipe_categories st))).

(** Every category stores the number of its active recipes. *)
Definition category_counts_ok (st : db) : bool :=
  forallb (fun c => c_recipe_count c =? active_links (c_id c) st)
    (categories st).

(** *** States used in the examples *)

(** A category and a user. *)
Definition dessert_store : db :=
  run_op 2 (OpRegisterUser "bob" "secret1" RoleUser)
    (run_op 1 (OpAddCategory "Dessert") empty_db).

(** The same with a recipe of that user in that category. *)
Definition cake_store : db :=
  run_op 3 (OpAddRecipe "Cake" "Mix and bake" "bob" (Some [1])
              (Some [("flour", "2 cups")]) 45)
    dessert_store.

(** *** What the loops write *)

(** The pairs of [l] that [validate_ingredient] accepts, validated, in
    the order of [l]. *)
Definition validated_pairs (l : list (string * string))
  : list (string * string) :=
  flat_map (fun x =>
              match Validator.validate_ingredient (fst x) (snd x) with
              | Ok v => [v]
              | Raise _ => []
              end) l.

(** The ingredients of the recipe [rid], as pairs. *)
Definition ingredients_of (rid : Z) (st : db) : list (string * string) :=
  map (fun i => (i_ingredient i, i_quantity i))
    (filter (fun i => i_recipe_id i =? rid) (recipe_ingredients st)).

(** The recipe [rid] is linked to the category [cid]. *)
Definition linked (rid cid : Z) (st : db) : bool :=
  existsb (fun l => (rc_recipe_id l =? rid) && (rc_category_id l =? cid))
    (recipe_categories st).
(** The foreign key of [user_recipe_views]: the recipe_id of every view
    row is the id of a row of [recipes]. *)
Definition views_fk (st : db) : Prop :=
  Forall (fun v => recipe_exists (v_recipe_id v) st = true)
    (user_recipe_views st).
(** *** The dialogs and forms that call [Database] *)

(** [LoginDialog.login]; [dialog_role] is the role picked on the first
    screen, the two strings are the contents of the entries. *)
Definition login (now : Z) (dialog_role : role)
    (user_entry pass_entry : string) : M login_outcome :=
  try_except
    (let username := Py.strip user_entry in
     let password := Py.strip pass_entry in
     if Py.falsy username || Py.falsy password then ret LoginInputError
     else
       user_role <- login_user now username password ;;
       match user_role with
       | None => ret LoginFailed
       | Some r =>
           if role_eqb dialog_role RoleAdmin && negb (role_eqb r RoleAdmin)
           then ret LoginAccessDenied
           else ret (LoginOpened username r)
       end)
    (fun e => ret (LoginError e)).

(** [RegisterDialog.register]; [secret] is what the passphrase prompt
    returns when it is shown: [None] when it is cancelled. *)
Definition register (now : Z) (dialog_role : role)
    (user_entry pass_entry confirm_pass_entry : string)
    (secret : option string) : M register_outcome :=
  try_except
    (let username := Py.strip user_entry in
     let password := Py.strip pass_entry in
     let confirm_password := Py.strip confirm_pass_entry in
     if Py.falsy username || Py.falsy password then ret RegisterInputError
     else if negb (String.eqb password confirm_password) then
       ret RegisterMismatch
     else
       match
         (if role_eqb dialog_role RoleAdmin then
            match secret with
            | None => Some RegisterCancelled
            | Some s =>
                if Py.falsy s then Some RegisterCancelled
                else if negb (String.eqb s CREATE_ADMIN_PASSPHRASE)
                then Some RegisterAccessDenied
                else None
            end
          else None)
       with
       | Some stop => ret stop
       | None =>
           success <- register_user now username password dialog_role ;;
           if success then ret RegisterSuccess else ret RegisterFailed
       end)
    (fun e => ret (RegisterError e)).

(** [save_recipe] of the form for a new recipe; [username] is
    [self.username], the strings are the contents of the widgets,
    [selected_categories] the ids of the boxes ticked. *)
Definition save_recipe (max_str_digits now : Z) (username : string)
    (title_entry instructions_text prep_time_entry : string)
    (selected_categories : list Z)
    (ingredients_list : list (string * string)) : M save_outcome :=
  try_except
    (title <- lift (Validator.validate_recipe_title title_entry) ;;
     instructions <- lift (Validator.validate_instructions instructions_text) ;;
     prep_time <- lift (Validator.validate_prep_time max_str_digits
                          prep_time_entry) ;;
     ingredients <- lift (collect_ingredients ingredients_list) ;;
     match ingredients with
     | [] => raise (ValidationError "At least one ingredient is required")
     | _ :: _ =>
         recipe_id <- add_recipe now title instructions username
                        (Some selected_categories) (Some ingredients)
                        prep_time ;;
         if recipe_id =? 0 then ret SaveFailed else ret (SaveSuccess title)
     end)
    (fun e => ret (SaveError e)).

(** [save_changes] of the form that edits the recipe [recipe_id]. *)
Definition save_changes (max_str_digits now recipe_id : Z)
    (title_entry instructions_text prep_time_entry : string)
    (selected_categories : list Z)
    (ingredients_list : list (string * string)) : M save_outcome :=
  try_except
    (title <- lift (Validator.validate_recipe_title title_entry) ;;
     instructions <- lift (Validator.validate_instructions instructions_text) ;;
     prep_time <- lift (Validator.validate_prep_time max_str_digits
                          prep_time_entry) ;;
     ingredients <- lift (collect_ingredients ingredients_list) ;;
     match ingredients with
     | [] => raise (ValidationError "At least one ingredient is required")
     | _ :: _ =>
         success <- update_recipe now recipe_id title instructions
                      (Some selected_categories) (Some ingredients)
                      prep_time ;;
         if success then ret (SaveSuccess title) else ret SaveFailed
     end)
    (fun e => ret (SaveError e)).

(** The first two statements of [view_recipe_window]: the view is counted,
    then the recipe is read; [None] shows "Recipe not found". *)
Definition view_recipe_window (now : Z) (recipe_id : Z) (username : string)
  : M (option recipe_data) :=
  increment_view now recipe_id username ;;;
  get_recipe recipe_id.
(** Every value stored is one its validator returns unchanged: usernames,
    titles, instructions and ingredients; the names of the categories are
    trimmed and not empty, the preparation times at most a day. *)
Definition stored_valid (st : db) : Prop :=
  Forall (fun u => Validator.validate_username (u_username u)
                   = Ok (u_username u)) (users st) /\
  Forall (fun c => Py.falsy (c_name c) = false
                   /\ Py.strip (c_name c) = c_name c) (categories st) /\
  Forall (fun r => Validator.validate_recipe_title (r_title r)
                   = Ok (r_title r)
                   /\ Validator.validate_instructions (r_instructions r)
                      = Ok (r_instructions r)
                   /\ 0 <= r_prep_time r <= 1440) (recipes st) /\
  Forall (fun i => Validator.validate_ingredient (i_ingredient i)
                     (i_quantity i)
                   = Ok (i_ingredient i, i_quantity i))
    (recipe_ingredients st).
(** *** The count of a user against the recipes *)

(** The number of active recipes whose author is [name], under the
    collation. *)
Definition active_recipes_of (name : string) (st : db) : Z :=
  Z.of_nat
    (List.length
       (filter (fun r => status_eqb (r_status r) Active
                         && sql_eq name (r_created_by r))
          (recipes st))).

(** The ids of the recipes are distinct and below the AUTO_INCREMENT
    counter, every active recipe has an author in [users], and every user
    stores the number of their active recipes. *)
Definition user_counts_ok (st : db) : Prop :=
  NoDup (map r_id (recipes st)) /\
  Forall (fun r => r_id r < Z.pos (next_recipe_id st)) (recipes st) /\
  Forall (fun r => r_status r = Active ->
                   existsb (fun u => sql_eq (u_username u) (r_created_by r))
                     (users st) = true) (recipes st) /\
  Forall (fun u => u_recipe_count u = active_recipes_of (u_username u) st)
    (users st).

(** A recipe is added under the name of a user that exists, as the windows
    do it for the user logged in. *)
Definition author_registered (o : op) (st : db) : Prop :=
  match o with
  | OpAddRecipe _ _ created_by _ _ _ =>
      existsb (fun u => sql_eq (u_username u) created_by) (users st) = true
  | _ => True
  end.

Fixpoint authors_registered (l : list (Z * op)) (st : db) : Prop :=
  match l with
  | [] => True
  | (now, o) :: l' =>
      author_registered o st /\ authors_registered l' (run_op now o st)
  end.

(** *** Operations whose values fit the columns *)

(** Every string the operation sends to a column that no validator
    bounds fits that column: the trimmed instructions fit
    [instructions TEXT], the trimmed name of a category and the usernames
    written to [recipes], [recipe_events] and [user_recipe_views] fit
    VARCHAR(255). *)
Definition op_fits (o : op) : Prop :=
  match o with
  | OpRegisterUser _ _ _ => True
  | OpLoginUser _ _ => True
  | OpAddCategory name => fits_varchar (Py.strip name) = true
  | OpAddRecipe _ instructions created_by _ _ _ =>
      fits_text (Py.strip instructions) = true
      /\ fits_varchar created_by = true
  | OpUpdateRecipe _ _ instructions _ _ _ =>
      fits_text (Py.strip instructions) = true
  | OpDeleteRecipe _ username => fits_varchar username = true
  | OpGetRecipe _ => True
  | OpIncrementView _ username => fits_varchar username = true
  | OpDeleteUser acting _ => fits_varchar acting = true
  end.

(** ** Theorems *)

(** *** Validator *)

Lemma strip_falsy (s : string) :
  Py.falsy s = true -> Py.falsy (Py.strip s) = true.
Proof. destruct s; [reflexivity | discriminate]. Qed.

Lemma falsy_len (s : string) : Py.falsy s = true <-> Py.len s = 0.
Proof.
  unfold Py.len.
  destruct s; simpl; split; intro H; try reflexivity; try discriminate.
Qed.

Lemma falsy_or_strip (s : string) :
  Py.falsy s || Py.falsy (Py.strip s) = Py.falsy (Py.strip s).
Proof.
  destruct (Py.falsy s) eqn:E; [|reflexivity].
  simpl. symmetry. now apply strip_falsy.
Qed.

(** Claim C6, amended.  The validator returns the trimmed string exactly
    when it has 3 to 50 characters and each of them is accepted by
    [str.isalnum] or is an underscore or a hyphen, and raises
    ValidationError otherwise.  [str.isalnum] accepts more than
    [A-Za-z0-9]: among the code points below 256, the letters, the
    superscript digits and the fractions of U+00AA..U+00FF. *)
Theorem validate_username_spec (raw : string) :
  let t := Py.strip raw in
  (forall c, Validator.username_char c
             = spec_username_class c || Py.isalnum_latin1 c) /\
  exists msg,
    Validator.validate_username raw =
      if (3 <=? Py.len t) && (Py.len t <=? 50)
         && Py.all Validator.username_char t
      then Ok t else Raise (ValidationError msg).
Proof.
  intro t. split.
  - intro c. unfold Validator.username_char, spec_username_class, Py.isalnum.
    destruct (Py.isalnum_ascii c), (Py.isalnum_latin1 c),
      (Ascii.eqb c "_"), (Ascii.eqb c "-"); reflexivity.
  - unfold Validator.validate_username. rewrite falsy_or_strip. fold t.
    destruct (Py.falsy t) eqn:F.
    + apply falsy_len in F. rewrite F. simpl. eauto.
    + destruct (Py.len t <? 3) eqn:L3.
      * apply Z.ltb_lt in L3.
        replace (3 <=? Py.len t) with false by (symmetry; apply Z.leb_gt; lia).
        simpl. eauto.
      * apply Z.ltb_ge in L3.
        replace (3 <=? Py.len t) with true by (symmetry; apply Z.leb_le; lia).
        rewrite Z.gtb_ltb.
        destruct (50 <? Py.len t) eqn:L50.
        -- apply Z.ltb_lt in L50.
           replace (Py.len t <=? 50) with false
              by (symmetry; apply Z.leb_gt; lia).
           simpl. eauto.
        -- apply Z.ltb_ge in L50.
           replace (Py.len t <=? 50) with true
              by (symmetry; apply Z.leb_le; lia).
           simpl. destruct (Py.all Validator.username_char t); simpl; eauto.
Qed.

(** *** Lists *)

Lemma existsb_find {A} (f : A -> bool) (l : list A) :
  existsb f l = match find f l with Some _ => true | None => false end.
Proof.
  induction l as [|x l IH]; simpl; [reflexivity|].
  destruct (f x); [reflexivity | exact IH].
Qed.

Lemma find_app_none {A} (f : A -> bool) (l1 l2 : list A) :
  find f l1 = None -> find f (l1 ++ l2) = find f l2.
Proof.
  induction l1 as [|x l1 IH]; simpl; [reflexivity|].
  destruct (f x); [discriminate | exact IH].
Qed.

Lemma find_app_some {A} (f : A -> bool) (l1 l2 : list A) (x : A) :
  find f l1 = Some x -> find f (l1 ++ l2) = Some x.
Proof.
  induction l1 as [|y l1 IH]; simpl; [discriminate|].
  destruct (f y); [trivial | exact IH].
Qed.

Lemma map_if_none {A} (p : A -> bool) (g : A -> A) (l : list A) :
  existsb p l = false -> map (fun x => if p x then g x else x) l = l.
Proof.
  induction l as [|x l IH]; simpl; [reflexivity|].
  destruct (p x); simpl; [discriminate|].
  intro H. now rewrite IH.
Qed.

Lemma filter_negb_none {A} (p : A -> bool) (l : list A) :
  existsb p l = false -> filter (fun x => negb (p x)) l = l.
Proof.
  induction l as [|x l IH]; simpl; [reflexivity|].
  destruct (p x); simpl; [discriminate|].
  intro H. now rewrite IH.
Qed.

Lemma existsb_map_if {A} (q p : A -> bool) (g : A -> A) (l : list A) :
  (forall x, q (g x) = q x) ->
  existsb q (map (fun x => if p x then g x else x) l) = existsb q l.
Proof.
  intro H. induction l as [|x l IH]; simpl; [reflexivity|].
  rewrite IH. destruct (p x); [now rewrite H | reflexivity].
Qed.

(** *** Category store *)

Hypothesis sql_eq_refl : forall s, sql_eq s s = true.

(** Claim C7, amended.  For a name that is not blank and whose trimmed
    form fits the column (at most 255 characters), [add_category]
    returns the id of the category of that trimmed name and changes
    nothing when there is one, and otherwise inserts it with recipe_count
    0 and returns the new id; for a blank name it returns [None] and
    changes nothing.  A second call with the same name returns what the
    first returned and changes nothing more. *)
Theorem add_category_idempotent (name : string) (st : db) :
  fits_varchar (Py.strip name) = true ->
  let n := Py.strip name in
  let id := Z.pos (next_category_id st) in
  add_category name st =
    (if Py.falsy n then (Ok None, st)
     else
       match find (fun c => sql_eq (c_name c) n) (categories st) with
       | Some c => (Ok (Some (c_id c)), st)
       | None =>
           (Ok (Some id),
            mk_db (users st) (recipes st)
              (categories st ++ [mk_category id n 0])
              (recipe_categories st) (recipe_ingredients st)
              (recipe_events st) (user_recipe_views st) (next_user_id st)
              (next_recipe_id st) (Pos.succ (next_category_id st)))
       end)
  /\ add_category name (snd (add_category name st)) = add_category name st.
Proof.
  intros _ n id. subst id.
  assert (E : forall st0,
    add_category name st0 =
      (if Py.falsy n then (Ok None, st0)
       else
         match find (fun c => sql_eq (c_name c) n) (categories st0) with
         | Some c => (Ok (Some (c_id c)), st0)
         | None =>
             (Ok (Some (Z.pos (next_category_id st0))),
              mk_db (users st0) (recipes st0)
                (categories st0
                 ++ [mk_category (Z.pos (next_category_id st0)) n 0])
                (recipe_categories st0) (recipe_ingredients st0)
                (recipe_events st0) (user_recipe_views st0)
                (next_user_id st0) (next_recipe_id st0)
                (Pos.succ (next_category_id st0)))
         end)).
  { intro st0. unfold add_category, try_except.
    rewrite falsy_or_strip. fold n.
    destruct (Py.falsy n); [reflexivity|].
    unfold bind, select_category_id_by_name, insert_category, ret.
    destruct (find _ (categories st0)) eqn:Hf; simpl; [reflexivity|].
    rewrite existsb_find, Hf. reflexivity. }
  clearbody n.
  split; [apply E|].
  rewrite (E st). destruct (Py.falsy n) eqn:F.
  - cbn [snd]. apply E.
  - destruct (find _ (categories st)) eqn:Hf.
    + cbn [snd]. rewrite E, Hf. reflexivity.
    + cbn [snd]. rewrite E. cbn [categories].
      rewrite (find_app_none _ _ _ Hf). simpl.
      rewrite sql_eq_refl. reflexivity.
Qed.

(** *** Credential store *)

(** Claim C5, amended.  For a valid username and password,
    [register_user] raises DatabaseError("Username already exists") and
    changes nothing when a row has that username; otherwise it stores the
    trimmed username, the digest of the password and the role, and
    returns [True], not the id of the new row. *)
Theorem register_user_spec (now : Z) (username password : string) (r : role)
    (st : db) (u p : string) :
  Validator.validate_username username = Ok u ->
  Validator.validate_password password = Ok p ->
  register_user now username password r st =
    if existsb (fun x => sql_eq (u_username x) u) (users st) then
      (Raise (DatabaseError "Username already exists"), st)
    else
      (Ok true,
       mk_db
         (users st
          ++ [mk_user (Z.pos (next_user_id st)) u (sha256 p) r now None 0])
         (recipes st) (categories st) (recipe_categories st)
         (recipe_ingredients st) (recipe_events st) (user_recipe_views st)
         (Pos.succ (next_user_id st)) (next_recipe_id st)
         (next_category_id st)).
Proof.
  intros Hu Hp.
  unfold register_user, try_except, bind, lift. rewrite Hu, Hp.
  unfold select_user_id, insert_user, raise, ret.
  rewrite existsb_find.
  destruct (find _ (users st)) eqn:Hf; simpl.
  - reflexivity.
  - rewrite existsb_find, Hf. reflexivity.
Qed.

(** *** View tracker *)


Lemma increment_view_run (now rid : Z) (username : string) (st : db) :
  recipe_exists rid st = true ->
  increment_view now rid username st =
    (Ok tt,
     mk_db (users st)
       (map (fun r => if r_id r =? rid then recipe_viewed now r else r)
          (recipes st))
       (categories st) (recipe_categories st) (recipe_ingredients st)
       (recipe_events st ++ [mk_event (Some rid) username EvView now])
       (if existsb (fun v => sql_eq (v_username v) username
                             && (v_recipe_id v =? rid))
             (user_recipe_views st)
        then map (fun v => if sql_eq (v_username v) username
                              && (v_recipe_id v =? rid)
                           then view_again now v else v)
               (user_recipe_views st)
        else user_recipe_views st ++ [mk_view username rid 1 now])
       (next_user_id st) (next_recipe_id st) (next_category_id st)).
Proof.
  intro Hex.
  assert (Hex' : existsb (fun r => r_id r =? rid)
                   (map (fun r => if r_id r =? rid
                                  then recipe_viewed now r else r)
                      (recipes st)) = true).
  { rewrite existsb_map_if; [exact Hex | reflexivity]. }
  unfold increment_view, try_except, bind, increment_recipe_views,
    select_view_count, log_recipe_event, try_except, bind, insert_event,
    recipe_exists, ret.
  cbn [set_recipes recipes user_recipe_views].
  rewrite existsb_find.
  destruct (find _ (user_recipe_views st)) eqn:Hf; cbn [option_map].
  - unfold increment_view_count. cbn. rewrite Hex'. reflexivity.
  - unfold insert_view, recipe_exists. cbn.
    rewrite existsb_find, Hf, Hex'. cbn. rewrite Hex'. reflexivity.
Qed.


(** *** Recipe store: reading and soft deletion *)

Lemma find_recipe_exists (rid : Z) (p : recipe_row -> bool) (st : db)
    (r : recipe_row) :
  find (fun x => (r_id x =? rid) && p x) (recipes st) = Some r ->
  recipe_exists rid st = true.
Proof.
  intro H. apply find_some in H. destruct H as [Hin Hr].
  apply andb_prop in Hr. unfold recipe_exists.
  apply existsb_exists. exists r. tauto.
Qed.

Lemma get_recipe_run (rid : Z) (st : db) :
  get_recipe rid st =
    (Ok (option_map
           (fun r => mk_data (meta_of r)
                       (map (fun c => (c_id c, c_name c))
                          (filter (fun c =>
                             existsb (fun l => (rc_recipe_id l =? rid)
                                               && (rc_category_id l =? c_id c))
                               (recipe_categories st)) (categories st)))
                       (map (fun i => (i_ingredient i, i_quantity i))
                          (filter (fun i => i_recipe_id i =? rid)
                             (recipe_ingredients st))))
           (find (fun r => (r_id r =? rid) && status_eqb (r_status r) Active)
              (recipes st))), st).
Proof.
  unfold get_recipe, try_except, bind, select_active_recipe.
  destruct (find _ (recipes st)); reflexivity.
Qed.

Lemma find_active_deleted (now rid : Z) (l : list recipe_row) :
  find (fun r => (r_id r =? rid) && status_eqb (r_status r) Active)
    (map (fun r => if (r_id r =? rid) && status_eqb (r_status r) Active
                   then recipe_deleted now r else r) l) = None.
Proof.
  induction l as [|r l IH]; cbn [map find]; [reflexivity|].
  destruct ((r_id r =? rid) && status_eqb (r_status r) Active) eqn:E.
  - cbn [recipe_deleted r_id r_status status_eqb].
    rewrite andb_false_r. exact IH.
  - rewrite E. exact IH.
Qed.

(** Claim C3.  When no active recipe has the id, [get_recipe] returns
    [None] and [delete_recipe] returns [False] and changes nothing.
    Otherwise [delete_recipe] returns [True]; the status of the recipe
    becomes deleted, the recipe_count of the users whose name is the
    author of the row becomes recipe_count - 1 and no other count
    changes, the view rows of the recipe are deleted and a delete event
    of the acting user is appended; afterwards [get_recipe] returns
    [None] and [delete_recipe] returns [False]. *)
Theorem delete_recipe_spec (now rid : Z) (username : string) (st : db) :
  match find (fun r => (r_id r =? rid) && status_eqb (r_status r) Active)
          (recipes st) with
  | None =>
      get_recipe rid st = (Ok None, st) /\
      delete_recipe now rid username st = (Ok false, st)
  | Some r =>
      let st' :=
        mk_db
          (map (fun u => if sql_eq (u_username u) (r_created_by r)
                         then mk_user (u_id u) (u_username u)
                                (u_password_hash u) (u_role u)
                                (u_created_at u) (u_last_login u)
                                (u_recipe_count u - 1)
                         else u) (users st))
          (map (fun x => if (r_id x =? rid)
                            && status_eqb (r_status x) Active
                         then mk_recipe (r_id x) (r_title x)
                                (r_instructions x) (r_views x)
                                (r_prep_time x) (r_created_by x)
                                (r_created_at x) (Some now) Deleted
                         else x) (recipes st))
          (categories st) (recipe_categories st) (recipe_ingredients st)
          (recipe_events st ++ [mk_event (Some rid) username EvDelete now])
          (filter (fun v => negb (v_recipe_id v =? rid))
             (user_recipe_views st))
          (next_user_id st) (next_recipe_id st) (next_category_id st) in
      delete_recipe now rid username st = (Ok true, st') /\
      map u_recipe_count (users st')
      = map (fun u => if sql_eq (u_username u) (r_created_by r)
                      then u_recipe_count u - 1 else u_recipe_count u)
          (users st) /\
      get_recipe rid st' = (Ok None, st') /\
      (forall now' username',
          delete_recipe now' rid username' st' = (Ok false, st'))
  end.
Proof.
  destruct (find _ (recipes st)) as [r|] eqn:Hf.
  - assert (Hex := find_recipe_exists rid _ st r Hf).
    assert (Hex' : existsb (fun x => r_id x =? rid)
              (map (fun x => if (r_id x =? rid)
                                && status_eqb (r_status x) Active
                             then recipe_deleted now x else x)
                 (recipes st)) = true).
    { rewrite existsb_map_if; [exact Hex | reflexivity]. }
    assert (Hd := find_active_deleted now rid (recipes st)).
    unfold recipe_deleted in Hd.
    cbv zeta. repeat split.
    + unfold delete_recipe, try_except at 1, bind at 1.
      rewrite get_recipe_run, Hf. cbn [option_map].
      unfold bind, mark_recipe_deleted, update_user_recipe_count,
        delete_views_of_recipe, log_recipe_event, try_except, bind,
        insert_event, recipe_exists, ret.
      cbn. rewrite Hex'. reflexivity.
    + cbn [users]. rewrite map_map. apply map_ext. intro u.
      now destruct (sql_eq (u_username u) (r_created_by r)).
    + rewrite get_recipe_run. cbn [recipes]. now rewrite Hd.
    + intros now' username'.
      unfold delete_recipe, try_except at 1, bind at 1.
      rewrite get_recipe_run. cbn [recipes]. now rewrite Hd.
  - split.
    + now rewrite get_recipe_run, Hf.
    + unfold delete_recipe, try_except at 1, bind at 1.
      now rewrite get_recipe_run, Hf.
Qed.

(** *** Composing statements *)

Section Preserves.

Variable P : db -> Prop.

Lemma preserves_ret {A} (a : A) : preserves P (ret a).
Proof. intros st H. exact H. Qed.

Lemma preserves_raise {A} (e : exn) : preserves P (@raise A e).
Proof. intros st H. exact H. Qed.

Lemma preserves_lift {A} (r : res A) : preserves P (lift r).
Proof. intros st H. exact H. Qed.

Lemma preserves_bind {A B} (c : M A) (k : A -> M B) :
  preserves P c -> (forall a, preserves P (k a)) -> preserves P (bind c k).
Proof.
  intros Hc Hk st H. unfold bind. specialize (Hc st H).
  destruct (c st) as [[a|e] st']; cbn [snd] in *.
  - now apply Hk.
  - exact Hc.
Qed.

Lemma preserves_try_except {A} (c : M A) (h : exn -> M A) :
  preserves P c -> (forall e, preserves P (h e)) ->
  preserves P (try_except c h).
Proof.
  intros Hc Hh st H. unfold try_except. specialize (Hc st H).
  destruct (c st) as [[a|e] st']; cbn [snd] in *.
  - exact Hc.
  - now apply Hh.
Qed.

Lemma preserves_for_each {A} (f : A -> M unit) (l : list A) :
  (forall x, preserves P (f x)) -> preserves P (for_each f l).
Proof.
  intro Hf. induction l as [|x l IH]; cbn [for_each].
  - apply preserves_ret.
  - apply preserves_bind; [apply Hf | intros _; exact IH].
Qed.

End Preserves.

(** Splits a method into its statements. *)
Ltac split_method :=
  repeat first
    [ apply preserves_ret | apply preserves_raise | apply preserves_lift
    | apply preserves_bind; [| intro]
    | apply preserves_try_except; [| intro]
    | apply preserves_for_each; intro
    | match goal with
      | |- preserves _ (match ?x with _ => _ end) => destruct x
      end ].

(** A statement that writes none of the tables [P] reads. *)
Ltac frame_statement :=
  let st := fresh "st" in
  let H := fresh "H" in
  intros st H;
  cbv beta delta
    [select_user_id insert_user select_password_role update_last_login
     update_user_recipe_count delete_from_users select_category_id_by_name
     select_category_id insert_category increment_category_count
     insert_recipe update_recipe_row mark_recipe_deleted
     increment_recipe_views select_active_recipe
     select_recipe_ids_by_author insert_recipe_category
     delete_recipe_categories select_recipe_categories insert_ingredient
     delete_recipe_ingredients select_ingredients insert_event
     select_view_count increment_view_count insert_view
     delete_views_of_recipe];
  repeat match goal with
         | |- context [if ?c then _ else _] => destruct c
         end;
  exact H.

(** *** Recipes are never removed, restored or un-viewed *)

Lemma recipe_step_refl (r : recipe_row) : recipe_step r r.
Proof. unfold recipe_step. repeat split; auto; lia. Qed.

Lemma recipe_step_trans (a b c : recipe_row) :
  recipe_step a b -> recipe_step b c -> recipe_step a c.
Proof.
  unfold recipe_step. intros (I1 & S1 & V1) (I2 & S2 & V2).
  repeat split; [congruence | auto | lia].
Qed.

Lemma evolves_refl (l : list recipe_row) : evolves l l.
Proof.
  induction l; constructor; [apply recipe_step_refl | assumption].
Qed.

Lemma evolves_trans (l1 l2 l3 : list recipe_row) :
  evolves l1 l2 -> evolves l2 l3 -> evolves l1 l3.
Proof.
  intro H. revert l3. induction H as [|r r' l l' Hr Hl IH]; intros l3 H3.
  - constructor.
  - inversion H3; subst. constructor.
    + eapply recipe_step_trans; eassumption.
    + now apply IH.
Qed.

Lemma evolves_app (l extra : list recipe_row) : evolves l (l ++ extra).
Proof.
  induction l; cbn; constructor; [apply recipe_step_refl | assumption].
Qed.

Lemma evolves_map (f : recipe_row -> recipe_row) (l : list recipe_row) :
  (forall r, recipe_step r (f r)) -> evolves l (map f l).
Proof. intro H. induction l; cbn; constructor; auto. Qed.

Lemma evolves_nth (l l' : list recipe_row) (n : nat) (r : recipe_row) :
  evolves l l' -> nth_error l n = Some r ->
  exists r', nth_error l' n = Some r' /\ recipe_step r r'.
Proof.
  intro H. revert n. induction H as [|a a' l l' Ha Hl IH]; intros n Hn.
  - destruct n; discriminate.
  - destruct n as [|n]; cbn in *.
    + injection Hn as <-. eauto.
    + now apply IH.
Qed.

Section Evolves.

Variable l0 : list recipe_row.

Let later (st : db) : Prop := evolves l0 (recipes st).

Lemma later_step (st : db) (l : list recipe_row) :
  later st -> evolves (recipes st) l -> evolves l0 l.
Proof. apply evolves_trans. Qed.

Lemma later_insert_recipe now t i a p :
  preserves later (insert_recipe now t i a p).
Proof.
  intros st H. eapply later_step; [exact H|]. apply evolves_app.
Qed.

Lemma later_update_recipe_row now t i p rid :
  preserves later (update_recipe_row now t i p rid).
Proof.
  intros st H. eapply later_step; [exact H|]. apply evolves_map.
  intro r. destruct (r_id r =? rid); [|apply recipe_step_refl].
  unfold recipe_step. cbn. repeat split; auto; lia.
Qed.

Lemma later_mark_recipe_deleted now rid :
  preserves later (mark_recipe_deleted now rid).
Proof.
  intros st H. eapply later_step; [exact H|]. apply evolves_map.
  intro r. destruct (_ && _); [|apply recipe_step_refl].
  unfold recipe_step. cbn. repeat split; auto; lia.
Qed.

Lemma later_increment_recipe_views now rid :
  preserves later (increment_recipe_views now rid).
Proof.
  intros st H. eapply later_step; [exact H|]. apply evolves_map.
  intro r. destruct (r_id r =? rid); [|apply recipe_step_refl].
  unfold recipe_step. cbn. repeat split; auto; lia.
Qed.

Ltac later_statement :=
  first [ apply later_insert_recipe | apply later_update_recipe_row
        | apply later_mark_recipe_deleted
        | apply later_increment_recipe_views
        | frame_statement ].

Ltac later_method := split_method; try later_statement.

Lemma later_log_recipe_event now rid u ty :
  preserves later (log_recipe_event now rid u ty).
Proof. unfold log_recipe_event. later_method. Qed.

Lemma later_get_recipe rid : preserves later (get_recipe rid).
Proof. unfold get_recipe. later_method. Qed.

Lemma later_delete_recipe now rid u :
  preserves later (delete_recipe now rid u).
Proof.
  unfold delete_recipe. later_method;
    first [apply later_get_recipe | apply later_log_recipe_event].
Qed.

Lemma later_run_op now o : forall st, later st -> later (run_op now o st).
Proof.
  destruct o; cbn [run_op];
    match goal with
    | |- forall st, later st -> later (snd (?c st)) =>
        change (preserves later c)
    end.
  - unfold register_user. later_method.
  - unfold login_user. later_method.
  - unfold add_category. later_method.
  - unfold add_recipe. later_method.
  - unfold update_recipe. later_method.
  - apply later_delete_recipe.
  - apply later_get_recipe.
  - unfold increment_view. later_method.
  - unfold delete_user. later_method.
Qed.

End Evolves.

(** The table after a sequence of operations is a later version of the
    table before. *)
Lemma evolves_run_ops (ops : list (Z * op)) (st : db) :
  evolves (recipes st) (recipes (run_ops ops st)).
Proof.
  assert (G : forall l0 st0, evolves l0 (recipes st0) ->
              evolves l0 (recipes (run_ops ops st0))).
  { induction ops as [|[now o] ops IH]; intros l0 st0 H; cbn [run_ops].
    - exact H.
    - apply IH. now apply later_run_op. }
  apply G, evolves_refl.
Qed.

(** *** The references to recipes stay valid *)

Lemma recipe_exists_map (rid : Z) (p : recipe_row -> bool)
    (g : recipe_row -> recipe_row) (l : list recipe_row) :
  (forall r, r_id (g r) = r_id r) ->
  existsb (fun r => r_id r =? rid) (map (fun r => if p r then g r else r) l)
  = existsb (fun r => r_id r =? rid) l.
Proof.
  intro H. apply existsb_map_if. intro r. now rewrite H.
Qed.

Lemma wf_map_recipes (st : db) (p : recipe_row -> bool)
    (g : recipe_row -> recipe_row) :
  (forall r, r_id (g r) = r_id r) ->
  db_wf st ->
  db_wf (set_recipes st (map (fun r => if p r then g r else r) (recipes st))).
Proof.
  intros Hg (H1 & H2 & H3). unfold db_wf, recipe_exists.
  cbn [set_recipes recipes recipe_categories recipe_ingredients
       next_recipe_id].
  repeat split.
  - apply Forall_map. eapply Forall_impl; [|exact H1].
    intros r Hr. cbv beta in *. destruct (p r); [rewrite Hg|]; exact Hr.
  - eapply Forall_impl; [|exact H2].
    intros l Hl. cbv beta. now rewrite recipe_exists_map.
  - eapply Forall_impl; [|exact H3].
    intros i Hi. cbv beta. now rewrite recipe_exists_map.
Qed.

Lemma wf_insert_recipe now t i a p :
  preserves db_wf (insert_recipe now t i a p).
Proof.
  intros st (H1 & H2 & H3). unfold db_wf, recipe_exists. cbn.
  repeat split.
  - apply Forall_app. split.
    + eapply Forall_impl; [|exact H1]. cbv beta. intros r Hr. lia.
    + constructor; [cbn; lia | constructor].
  - eapply Forall_impl; [|exact H2]. cbv beta. intros l Hl.
    rewrite existsb_app. unfold recipe_exists in Hl. now rewrite Hl.
  - eapply Forall_impl; [|exact H3]. cbv beta. intros x Hx.
    rewrite existsb_app. unfold recipe_exists in Hx. now rewrite Hx.
Qed.

Lemma wf_update_recipe_row now t i p rid :
  preserves db_wf (update_recipe_row now t i p rid).
Proof.
  intros st H.
  apply (wf_map_recipes st (fun r => r_id r =? rid) (recipe_edited now t i p));
    [reflexivity | exact H].
Qed.

Lemma wf_mark_recipe_deleted now rid :
  preserves db_wf (mark_recipe_deleted now rid).
Proof.
  intros st H.
  apply (wf_map_recipes st
           (fun r => (r_id r =? rid) && status_eqb (r_status r) Active)
           (recipe_deleted now)); [reflexivity | exact H].
Qed.

Lemma wf_increment_recipe_views now rid :
  preserves db_wf (increment_recipe_views now rid).
Proof.
  intros st H.
  apply (wf_map_recipes st (fun r => r_id r =? rid) (recipe_viewed now));
    [reflexivity | exact H].
Qed.

Lemma wf_insert_recipe_category rid cid :
  preserves db_wf (insert_recipe_category rid cid).
Proof.
  intros st H. unfold insert_recipe_category.
  destruct (existsb _ (recipe_categories st)); [exact H|].
  destruct (recipe_exists rid st) eqn:Hex; cbn [andb negb]; [|exact H].
  destruct (category_exists cid st); cbn [negb]; [|exact H].
  destruct H as (H1 & H2 & H3). unfold db_wf. cbn [snd].
  repeat split; try assumption.
  apply Forall_app. split; [exact H2|].
  constructor; [exact Hex | constructor].
Qed.

Lemma wf_delete_recipe_categories rid :
  preserves db_wf (delete_recipe_categories rid).
Proof.
  intros st (H1 & H2 & H3). unfold db_wf. cbn [snd delete_recipe_categories].
  repeat split; try assumption.
  apply Forall_forall. intros l Hl. apply filter_In in Hl.
  rewrite Forall_forall in H2. now apply H2.
Qed.

Lemma wf_insert_ingredient rid ing qty :
  preserves db_wf (insert_ingredient rid ing qty).
Proof.
  intros st H. unfold insert_ingredient.
  destruct (recipe_exists rid st) eqn:Hex; cbn [negb]; [|exact H].
  destruct H as (H1 & H2 & H3). unfold db_wf. cbn [snd].
  repeat split; try assumption.
  apply Forall_app. split; [exact H3|].
  constructor; [exact Hex | constructor].
Qed.

Lemma wf_delete_recipe_ingredients rid :
  preserves db_wf (delete_recipe_ingredients rid).
Proof.
  intros st (H1 & H2 & H3). unfold db_wf.
  cbn [snd delete_recipe_ingredients].
  repeat split; try assumption.
  apply Forall_forall. intros l Hl. apply filter_In in Hl.
  rewrite Forall_forall in H3. now apply H3.
Qed.

Ltac wf_statement :=
  first [ apply wf_insert_recipe | apply wf_update_recipe_row
        | apply wf_mark_recipe_deleted | apply wf_increment_recipe_views
        | apply wf_insert_recipe_category | apply wf_delete_recipe_categories
        | apply wf_insert_ingredient | apply wf_delete_recipe_ingredients
        | frame_statement ].

Ltac wf_method := split_method; try wf_statement.

Lemma wf_run_op now o st : db_wf st -> db_wf (run_op now o st).
Proof.
  revert st.
  destruct o; cbn [run_op];
    match goal with
    | |- forall st, db_wf st -> db_wf (snd (?c st)) =>
        change (preserves db_wf c)
    end.
  - unfold register_user. wf_method.
  - unfold login_user. wf_method.
  - unfold add_category. wf_method.
  - unfold add_recipe. wf_method.
  - unfold update_recipe. wf_method.
  - unfold delete_recipe. wf_method.
  - unfold get_recipe. wf_method.
  - unfold increment_view. wf_method.
  - unfold delete_user. wf_method.
Qed.

Lemma wf_empty_db : db_wf empty_db.
Proof. repeat split; constructor. Qed.

Lemma reachable_wf (st : db) : reachable st -> db_wf st.
Proof.
  induction 1; [apply wf_empty_db | now apply wf_run_op].
Qed.

(** No link and no ingredient refers to the id the next recipe gets. *)
Lemma wf_fresh_links (st : db) :
  db_wf st ->
  existsb (fun l => rc_recipe_id l =? Z.pos (next_recipe_id st))
    (recipe_categories st) = false
  /\ existsb (fun i => i_recipe_id i =? Z.pos (next_recipe_id st))
       (recipe_ingredients st) = false
  /\ recipe_exists (Z.pos (next_recipe_id st)) st = false.
Proof.
  intros (H1 & H2 & H3).
  assert (Hn : recipe_exists (Z.pos (next_recipe_id st)) st = false).
  { unfold recipe_exists.
    destruct (existsb _ (recipes st)) eqn:E; [|reflexivity].
    apply existsb_exists in E. destruct E as (r & Hin & Hr).
    rewrite Forall_forall in H1. specialize (H1 r Hin).
    apply Z.eqb_eq in Hr. lia. }
  repeat split; [| |exact Hn].
  - destruct (existsb _ (recipe_categories st)) eqn:E; [|reflexivity].
    apply existsb_exists in E. destruct E as (l & Hin & Hl).
    rewrite Forall_forall in H2. specialize (H2 l Hin).
    apply Z.eqb_eq in Hl. rewrite Hl in H2. congruence.
  - destruct (existsb _ (recipe_ingredients st)) eqn:E; [|reflexivity].
    apply existsb_exists in E. destruct E as (l & Hin & Hl).
    rewrite Forall_forall in H3. specialize (H3 l Hin).
    apply Z.eqb_eq in Hl. rewrite Hl in H3. congruence.
Qed.

(** *** The loops of [add_recipe] and [update_recipe] *)

Lemma for_each_run {A} (f : A -> M unit) (l : list A) (st : db) :
  (forall x s, fst (f x s) = Ok tt) ->
  for_each f l st = (Ok tt, fold_left (fun s x => snd (f x s)) l st).
Proof.
  intro Hf. revert st. induction l as [|x l IH]; intro st; cbn.
  - reflexivity.
  - unfold bind. specialize (Hf x st).
    destruct (f x st) as [[[]|e] s]; cbn in *; [apply IH | discriminate].
Qed.

Lemma preserves_fold {A} (P : db -> Prop) (f : A -> M unit) (l : list A)
    (st : db) :
  (forall x, preserves P (f x)) -> P st ->
  P (fold_left (fun s x => snd (f x s)) l st).
Proof.
  intro Hf. revert st. induction l as [|x l IH]; intros st H; cbn.
  - exact H.
  - apply IH. now apply Hf.
Qed.

Lemma select_category_id_run (cid : Z) (st : db) :
  select_category_id cid st =
    (Ok (if category_exists cid st then Some cid else None), st).
Proof.
  unfold select_category_id, category_exists. rewrite existsb_find.
  destruct (find _ (categories st)) as [c|] eqn:Hf; cbn; [|reflexivity].
  apply find_some in Hf. destruct Hf as [_ Hc].
  apply Z.eqb_eq in Hc. now rewrite Hc.
Qed.

(** One turn of the category loop of [add_recipe] never raises; it
    writes the link and the count when the category exists, the pair is
    new and the recipe exists, and nothing otherwise. *)
Lemma add_recipe_category_run (rid cid : Z) (st : db) :
  add_recipe_category rid cid st =
    (Ok tt,
     if category_exists cid st
        && negb (existsb (fun l => (rc_recipe_id l =? rid)
                                   && (rc_category_id l =? cid))
                   (recipe_categories st))
        && recipe_exists rid st
     then
       mk_db (users st) (recipes st)
         (map (fun c => if c_id c =? cid then category_count_add 1 c else c)
            (categories st))
         (recipe_categories st ++ [mk_link rid cid])
         (recipe_ingredients st) (recipe_events st) (user_recipe_views st)
         (next_user_id st) (next_recipe_id st) (next_category_id st)
     else st).
Proof.
  unfold add_recipe_category, try_except, bind at 1.
  rewrite select_category_id_run.
  destruct (category_exists cid st) eqn:Hc; cbn [andb]; [|reflexivity].
  unfold bind, insert_recipe_category, increment_category_count, ret.
  destruct (existsb _ (recipe_categories st)); cbn [negb andb];
    [reflexivity|].
  rewrite Hc. destruct (recipe_exists rid st); reflexivity.
Qed.

(** One turn of the category loop of [update_recipe]: the same, without
    the count. *)
Lemma update_recipe_category_run (rid cid : Z) (st : db) :
  update_recipe_category rid cid st =
    (Ok tt,
     if category_exists cid st
        && negb (existsb (fun l => (rc_recipe_id l =? rid)
                                   && (rc_category_id l =? cid))
                   (recipe_categories st))
        && recipe_exists rid st
     then set_recipe_categories st (recipe_categories st ++ [mk_link rid cid])
     else st).
Proof.
  unfold update_recipe_category, try_except, bind at 1.
  rewrite select_category_id_run.
  destruct (category_exists cid st) eqn:Hc; cbn [andb]; [|reflexivity].
  unfold bind, insert_recipe_category, ret.
  destruct (existsb _ (recipe_categories st)); cbn [negb andb];
    [reflexivity|].
  rewrite Hc. destruct (recipe_exists rid st); reflexivity.
Qed.

(** One turn of the ingredient loop never raises; it writes the pair when
    it is valid and the recipe exists. *)
Lemma add_ingredient_run (rid : Z) (p : string * string) (st : db) :
  add_ingredient rid p st =
    (Ok tt,
     match Validator.validate_ingredient (fst p) (snd p) with
     | Ok v =>
         if recipe_exists rid st then
           set_recipe_ingredients st
             (recipe_ingredients st ++ [mk_ingredient rid (fst v) (snd v)])
         else st
     | Raise _ => st
     end).
Proof.
  unfold add_ingredient, try_except, bind, lift, insert_ingredient, ret.
  destruct (Validator.validate_ingredient (fst p) (snd p)) as [v|e];
    [|reflexivity].
  destruct (recipe_exists rid st); reflexivity.
Qed.

(** *** Running a method statement by statement *)

Lemma bind_run {A B} (c : M A) (k : A -> M B) (st st' : db) (a : A) :
  c st = (Ok a, st') -> bind c k st = k a st'.
Proof. intro H. unfold bind. now rewrite H. Qed.

Lemma try_except_run {A} (c : M A) (h : exn -> M A) (st st' : db) (a : A) :
  c st = (Ok a, st') -> try_except c h st = (Ok a, st').
Proof. intro H. unfold try_except. now rewrite H. Qed.

Lemma lift_run {A} (r : res A) (a : A) (st : db) :
  r = Ok a -> lift r st = (Ok a, st).
Proof. intros ->. reflexivity. Qed.

Ltac run_with H := rewrite (bind_run _ _ _ _ _ H); cbv beta.

Lemma log_recipe_event_run (now rid : Z) (username : string)
    (ty : event_type) (st : db) :
  log_recipe_event now rid username ty st =
    (Ok tt,
     if recipe_exists rid st then
       set_recipe_events st
         (recipe_events st ++ [mk_event (Some rid) username ty now])
     else st).
Proof.
  unfold log_recipe_event, try_except, bind, insert_event, ret.
  destruct (recipe_exists rid st); reflexivity.
Qed.

(** *** Recipe store: creation *)

Lemma add_recipe_run (now : Z) (title instructions created_by : string)
    (category_ids : option (list Z))
    (ingredients : option (list (string * string))) (prep_time : Z)
    (st : db) (t i : string) (p : Z) :
  Validator.validate_recipe_title title = Ok t ->
  Validator.validate_instructions instructions = Ok i ->
  prep_time_arg prep_time = Ok p ->
  let rid := Z.pos (next_recipe_id st) in
  add_recipe now title instructions created_by category_ids ingredients
    prep_time st =
    (Ok rid,
     fold_left (fun s x => snd (add_ingredient rid x s))
       (pairs_given ingredients)
       (fold_left (fun s c => snd (add_recipe_category rid c s))
          (ids_given category_ids)
          (recipe_created now t i created_by p st))).
Proof.
  intros Ht Hi Hp rid.
  unfold add_recipe. apply try_except_run.
  run_with (lift_run _ _ st Ht).
  run_with (lift_run _ _ st Hi).
  run_with (lift_run _ _ st Hp).
  erewrite bind_run by (unfold insert_recipe; reflexivity). cbv beta.
  erewrite bind_run by (unfold update_user_recipe_count; reflexivity).
  cbv beta.
  erewrite bind_run by (apply log_recipe_event_run). cbv beta.
  match goal with
  | |- bind _ _ ?s = _ =>
      replace s with (recipe_created now t i created_by p st)
  end.
  2:{ unfold recipe_exists, set_users. cbn [recipes].
      rewrite existsb_app. cbn [existsb r_id].
      now rewrite Z.eqb_refl, orb_true_r. }
  fold rid.
  set (st1 := recipe_created now t i created_by p st).
  assert (Hc : (match category_ids with
                | Some ((_ :: _) as cids) =>
                    for_each (add_recipe_category rid) cids
                | _ => ret tt
                end) st1
               = (Ok tt,
                  fold_left (fun s c => snd (add_recipe_category rid c s))
                    (ids_given category_ids) st1)).
  { destruct category_ids as [[|c cs]|]; try reflexivity.
    apply for_each_run. intros x s. now rewrite add_recipe_category_run. }
  run_with Hc.
  set (st2 := fold_left _ (ids_given category_ids) st1).
  assert (Hg : (match ingredients with
                | Some ((_ :: _) as l) => for_each (add_ingredient rid) l
                | _ => ret tt
                end) st2
               = (Ok tt,
                  fold_left (fun s x => snd (add_ingredient rid x s))
                    (pairs_given ingredients) st2)).
  { destruct ingredients as [[|x xs]|]; try reflexivity.
    apply for_each_run. intros x0 s. now rewrite add_ingredient_run. }
  run_with Hg. reflexivity.
Qed.

Lemma existsb_and_false {A} (p q : A -> bool) (l : list A) :
  existsb p l = false -> existsb (fun x => p x && q x) l = false.
Proof.
  induction l as [|x l IH]; cbn; [reflexivity|].
  destruct (p x); cbn; [discriminate | exact IH].
Qed.

Lemma filter_none {A} (p : A -> bool) (l : list A) :
  existsb p l = false -> filter p l = [].
Proof.
  induction l as [|x l IH]; cbn; [reflexivity|].
  destruct (p x); cbn; [discriminate | exact IH].
Qed.

Lemma find_none_and {A} (p q : A -> bool) (l : list A) :
  existsb p l = false -> find (fun x => p x && q x) l = None.
Proof.
  induction l as [|x l IH]; cbn; [reflexivity|].
  destruct (p x); cbn; [discriminate | exact IH].
Qed.

(** The category loop of [add_recipe] over one existing and one missing
    id, in either order, for a recipe that has no link yet. *)
Lemma add_recipe_categories_pair (rid good bad : Z) (cids : list Z)
    (st : db) :
  category_exists good st = true ->
  category_exists bad st = false ->
  recipe_exists rid st = true ->
  existsb (fun l => rc_recipe_id l =? rid) (recipe_categories st) = false ->
  cids = [good; bad] \/ cids = [bad; good] ->
  fold_left (fun s c => snd (add_recipe_category rid c s)) cids st =
    mk_db (users st) (recipes st)
      (map (fun c => if c_id c =? good then category_count_add 1 c else c)
         (categories st))
      (recipe_categories st ++ [mk_link rid good])
      (recipe_ingredients st) (recipe_events st) (user_recipe_views st)
      (next_user_id st) (next_recipe_id st) (next_category_id st).
Proof.
  intros Hgood Hbad Hrec Hfresh Hcids.
  assert (Hnew : existsb (fun l => (rc_recipe_id l =? rid)
                                   && (rc_category_id l =? good))
                   (recipe_categories st) = false)
    by now apply existsb_and_false.
  assert (Hstep : add_recipe_category rid good st =
            (Ok tt,
             mk_db (users st) (recipes st)
               (map (fun c => if c_id c =? good
                              then category_count_add 1 c else c)
                  (categories st))
               (recipe_categories st ++ [mk_link rid good])
               (recipe_ingredients st) (recipe_events st)
               (user_recipe_views st) (next_user_id st) (next_recipe_id st)
               (next_category_id st))).
  { rewrite add_recipe_category_run, Hgood, Hnew, Hrec. reflexivity. }
  destruct Hcids as [-> | ->]; cbn [fold_left].
  - rewrite Hstep. cbn [snd].
    rewrite add_recipe_category_run. unfold category_exists at 1.
    cbn [categories]. rewrite existsb_map_if by reflexivity.
    unfold category_exists in Hbad. rewrite Hbad. reflexivity.
  - rewrite (add_recipe_category_run rid bad st), Hbad. cbn [andb snd].
    now rewrite Hstep.
Qed.

(** The ingredient loop over one valid and one invalid pair, in either
    order. *)
Lemma add_ingredients_pair (rid : Z) (v w : string * string)
    (ings : list (string * string)) (a q : string) (e : exn) (st : db) :
  Validator.validate_ingredient (fst v) (snd v) = Ok (a, q) ->
  Validator.validate_ingredient (fst w) (snd w) = Raise e ->
  recipe_exists rid st = true ->
  ings = [v; w] \/ ings = [w; v] ->
  fold_left (fun s x => snd (add_ingredient rid x s)) ings st =
    set_recipe_ingredients st
      (recipe_ingredients st ++ [mk_ingredient rid a q]).
Proof.
  intros Hv Hw Hrec Hings.
  destruct Hings as [-> | ->]; cbn [fold_left];
    rewrite !add_ingredient_run, ?Hv, ?Hw; cbn [snd fst];
    rewrite ?Hv, ?Hw; unfold recipe_exists in *;
    cbn [set_recipe_ingredients recipes]; now rewrite Hrec.
Qed.

Lemma recipe_created_exists now t i created_by p st :
  recipe_exists (Z.pos (next_recipe_id st))
    (recipe_created now t i created_by p st) = true.
Proof.
  unfold recipe_exists, recipe_created. cbn [recipes].
  rewrite existsb_app. cbn [existsb r_id].
  now rewrite Z.eqb_refl, orb_true_r.
Qed.

(** Claim C4.  [add_recipe] with valid fields, instructions and an
    author that fit their columns, one existing and one missing category
    id, and one valid and one invalid ingredient pair, in a database that
    satisfies the constraints of the schema: it returns the new id; the
    one link written for the recipe is the one to the existing category,
    whose recipe_count becomes recipe_count + 1 while no other category
    changes; the one ingredient written for the recipe is the valid
    one. *)
Theorem add_recipe_continue_on_error (now : Z)
    (title instructions created_by : string) (prep_time : Z) (st : db)
    (t i : string) (p : Z) (good bad : Z) (cids : list Z)
    (v w : string * string) (ings : list (string * string))
    (a q : string) (e : exn) :
  Validator.validate_recipe_title title = Ok t ->
  Validator.validate_instructions instructions = Ok i ->
  prep_time_arg prep_time = Ok p ->
  fits_text i = true ->
  fits_varchar created_by = true ->
  db_wf st ->
  category_exists good st = true ->
  category_exists bad st = false ->
  cids = [good; bad] \/ cids = [bad; good] ->
  Validator.validate_ingredient (fst v) (snd v) = Ok (a, q) ->
  Validator.validate_ingredient (fst w) (snd w) = Raise e ->
  ings = [v; w] \/ ings = [w; v] ->
  let rid := Z.pos (next_recipe_id st) in
  let out := add_recipe now title instructions created_by (Some cids)
               (Some ings) prep_time st in
  fst out = Ok rid /\
  recipes (snd out) =
    recipes st ++ [mk_recipe rid t i 0 p created_by now None Active] /\
  recipe_categories (snd out) = recipe_categories st ++ [mk_link rid good] /\
  filter (fun l => rc_recipe_id l =? rid) (recipe_categories (snd out)) =
    [mk_link rid good] /\
  categories (snd out) =
    map (fun c => if c_id c =? good
                  then mk_category (c_id c) (c_name c) (c_recipe_count c + 1)
                  else c)
      (categories st) /\
  recipe_ingredients (snd out) =
    recipe_ingredients st ++ [mk_ingredient rid a q] /\
  filter (fun x => i_recipe_id x =? rid) (recipe_ingredients (snd out)) =
    [mk_ingredient rid a q].
Proof.
  intros Ht Hi Hp _ _ Hwf Hgood Hbad Hcids Hv Hw Hings rid out.
  destruct (wf_fresh_links st Hwf) as (Hl & Hg & _). fold rid in Hl, Hg.
  subst out.
  rewrite (add_recipe_run now title instructions created_by (Some cids)
             (Some ings) prep_time st t i p Ht Hi Hp).
  cbn [fst snd ids_given pairs_given]. fold rid.
  assert (Hex := recipe_created_exists now t i created_by p st).
  fold rid in Hex.
  rewrite (add_recipe_categories_pair rid good bad cids
             (recipe_created now t i created_by p st) Hgood Hbad Hex Hl
             Hcids).
  match goal with
  | |- context [fold_left _ ings ?s] =>
      rewrite (add_ingredients_pair rid v w ings a q e s Hv Hw Hex Hings)
  end.
  cbn [set_recipe_ingredients recipe_created users recipes categories
       recipe_categories recipe_ingredients recipe_events user_recipe_views].
  repeat split.
  - rewrite filter_app, (filter_none _ _ Hl).
    cbn [filter rc_recipe_id app]. now rewrite Z.eqb_refl.
  - rewrite filter_app, (filter_none _ _ Hg).
    cbn [filter i_recipe_id app]. now rewrite Z.eqb_refl.
Qed.

Lemma add_ingredients_all_invalid (rid : Z) (ings : list (string * string))
    (st : db) :
  Forall (fun x => exists e,
            Validator.validate_ingredient (fst x) (snd x) = Raise e) ings ->
  fold_left (fun s x => snd (add_ingredient rid x s)) ings st = st.
Proof.
  induction 1 as [|x l [e Hx] Hl IH]; cbn [fold_left]; [reflexivity|].
  rewrite add_ingredient_run, Hx. exact IH.
Qed.

Lemma add_recipe_categories_frame (rid : Z) (cids : list Z) (st : db) :
  let st' := fold_left (fun s c => snd (add_recipe_category rid c s))
               cids st in
  recipes st' = recipes st /\
  recipe_ingredients st' = recipe_ingredients st.
Proof.
  apply (preserves_fold
           (fun s => recipes s = recipes st
                     /\ recipe_ingredients s = recipe_ingredients st)
           (add_recipe_category rid)); [|split; reflexivity].
  intro c. split_method; frame_statement.
Qed.

(** Claim C1, amended.  [add_recipe] has no check on the number of
    ingredients: with valid fields, instructions and an author that fit
    their columns, and no ingredient pair that survives validation, it
    returns the new id, and [get_recipe] of that id returns the recipe
    with no ingredient. *)
Theorem add_recipe_without_ingredients (now : Z)
    (title instructions created_by : string)
    (category_ids : option (list Z))
    (ingredients : option (list (string * string))) (prep_time : Z)
    (st : db) (t i : string) (p : Z) :
  Validator.validate_recipe_title title = Ok t ->
  Validator.validate_instructions instructions = Ok i ->
  prep_time_arg prep_time = Ok p ->
  fits_text i = true ->
  fits_varchar created_by = true ->
  db_wf st ->
  Forall (fun x => exists e,
            Validator.validate_ingredient (fst x) (snd x) = Raise e)
    (pairs_given ingredients) ->
  let rid := Z.pos (next_recipe_id st) in
  let out := add_recipe now title instructions created_by category_ids
               ingredients prep_time st in
  fst out = Ok rid /\
  exists d,
    get_recipe rid (snd out) = (Ok (Some d), snd out) /\
    meta d = mk_meta rid t i 0 created_by now p /\
    data_ingredients d = [].
Proof.
  intros Ht Hi Hp _ _ Hwf Hbad rid out.
  destruct (wf_fresh_links st Hwf) as (_ & Hg & Hn). fold rid in Hg, Hn.
  subst out.
  rewrite (add_recipe_run now title instructions created_by category_ids
             ingredients prep_time st t i p Ht Hi Hp).
  cbn [fst snd]. fold rid. split; [reflexivity|].
  rewrite (add_ingredients_all_invalid rid _ _ Hbad).
  destruct (add_recipe_categories_frame rid (ids_given category_ids)
              (recipe_created now t i created_by p st)) as [Hr Hi'].
  set (st2 := fold_left _ (ids_given category_ids) _) in *.
  rewrite get_recipe_run, Hr, Hi'. cbn [recipe_created recipes
    recipe_ingredients].
  rewrite find_app_none by (apply find_none_and; exact Hn).
  fold rid. cbn [find r_id r_status status_eqb].
  rewrite Z.eqb_refl. cbn [andb option_map].
  eexists. split; [reflexivity|]. cbn [meta data_ingredients].
  split; [reflexivity|].
  now rewrite (filter_none _ _ Hg).
Qed.

(** *** Recipe store: update *)

Lemma update_recipe_categories_frame (rid : Z) (cids : list Z) (st : db) :
  let st' := fold_left (fun s c => snd (update_recipe_category rid c s))
               cids st in
  recipes st' = recipes st /\ recipe_events st' = recipe_events st.
Proof.
  apply (preserves_fold
           (fun s => recipes s = recipes st
                     /\ recipe_events s = recipe_events st)
           (update_recipe_category rid)); [|split; reflexivity].
  intro c. split_method; frame_statement.
Qed.

Lemma add_ingredients_frame (rid : Z) (ings : list (string * string))
    (st : db) :
  let st' := fold_left (fun s x => snd (add_ingredient rid x s)) ings st in
  recipes st' = recipes st /\ recipe_events st' = recipe_events st.
Proof.
  apply (preserves_fold
           (fun s => recipes s = recipes st
                     /\ recipe_events s = recipe_events st)
           (add_ingredient rid)); [|split; reflexivity].
  intro c. split_method; frame_statement.
Qed.

(** Claim C10, amended.  With valid fields and instructions that fit
    the column [update_recipe] returns [True] for every id, sets title,
    instructions, prep_time and updated_at of the rows of that id
    whatever their status, and appends an edit event when a row of that
    id exists, deleted or not.  When no row has the id no event is
    appended: the foreign key of recipe_events rejects it and
    [log_recipe_event] drops the error. *)
Theorem update_recipe_no_target_check (now recipe_id : Z)
    (title instructions : string) (category_ids : option (list Z))
    (ingredients : option (list (string * string))) (prep_time : Z)
    (st : db) (t i : string) (p : Z) :
  Validator.validate_recipe_title title = Ok t ->
  Validator.validate_instructions instructions = Ok i ->
  prep_time_arg prep_time = Ok p ->
  fits_text i = true ->
  let out := update_recipe now recipe_id title instructions category_ids
               ingredients prep_time st in
  fst out = Ok true /\
  recipes (snd out) =
    map (fun r => if r_id r =? recipe_id
                  then mk_recipe (r_id r) t i (r_views r) p (r_created_by r)
                         (r_created_at r) (Some now) (r_status r)
                  else r) (recipes st) /\
  recipe_events (snd out) =
    (if recipe_exists recipe_id st
     then recipe_events st ++ [mk_event (Some recipe_id) "user" EvEdit now]
     else recipe_events st).
Proof.
  intros Ht Hi Hp _ out.
  set (st1 := set_recipes st
                (map (fun r => if r_id r =? recipe_id
                               then recipe_edited now t i p r else r)
                   (recipes st))).
  set (st2 := match category_ids with
              | Some l =>
                  fold_left
                    (fun s c => snd (update_recipe_category recipe_id c s)) l
                    (snd (delete_recipe_categories recipe_id st1))
              | None => st1
              end).
  set (st3 := match ingredients with
              | Some l =>
                  fold_left (fun s x => snd (add_ingredient recipe_id x s)) l
                    (snd (delete_recipe_ingredients recipe_id st2))
              | None => st2
              end).
  assert (H2 : recipes st2 = recipes st1
               /\ recipe_events st2 = recipe_events st1).
  { subst st2. destruct category_ids as [l|]; [|split; reflexivity].
    apply (update_recipe_categories_frame recipe_id l
             (snd (delete_recipe_categories recipe_id st1))). }
  assert (H3 : recipes st3 = recipes st2
               /\ recipe_events st3 = recipe_events st2).
  { subst st3. destruct ingredients as [l|]; [|split; reflexivity].
    apply (add_ingredients_frame recipe_id l
             (snd (delete_recipe_ingredients recipe_id st2))). }
  assert (Hrun : out =
            (Ok true,
             if recipe_exists recipe_id st3 then
               set_recipe_events st3
                 (recipe_events st3
                  ++ [mk_event (Some recipe_id) "user" EvEdit now])
             else st3)).
  { subst out. unfold update_recipe. apply try_except_run.
    run_with (lift_run _ _ st Ht).
    run_with (lift_run _ _ st Hi).
    run_with (lift_run _ _ st Hp).
    erewrite bind_run by (unfold update_recipe_row; reflexivity). cbv beta.
    fold st1.
    assert (Hc : (match category_ids with
                  | Some cids =>
                      bind (delete_recipe_categories recipe_id)
                        (fun _ =>
                           for_each (update_recipe_category recipe_id) cids)
                  | None => ret tt
                  end) st1 = (Ok tt, st2)).
    { subst st2. destruct category_ids as [l|]; [|reflexivity].
      erewrite bind_run by reflexivity.
      apply for_each_run. intros x s.
      now rewrite update_recipe_category_run. }
    run_with Hc.
    assert (Hg : (match ingredients with
                  | Some l =>
                      bind (delete_recipe_ingredients recipe_id)
                        (fun _ => for_each (add_ingredient recipe_id) l)
                  | None => ret tt
                  end) st2 = (Ok tt, st3)).
    { subst st3. destruct ingredients as [l|]; [|reflexivity].
      erewrite bind_run by reflexivity.
      apply for_each_run. intros x s. now rewrite add_ingredient_run. }
    run_with Hg.
    erewrite bind_run by (apply log_recipe_event_run). reflexivity. }
  assert (Hex : recipe_exists recipe_id st3 = recipe_exists recipe_id st).
  { unfold recipe_exists. destruct H2 as [E2 _], H3 as [E3 _].
    rewrite E3, E2. subst st1. cbn [set_recipes recipes].
    now apply existsb_map_if. }
  rewrite Hrun, Hex. cbn [fst snd]. destruct H2 as [E2 V2], H3 as [E3 V3].
  split; [reflexivity|].
  destruct (recipe_exists recipe_id st);
    cbn [set_recipe_events recipes recipe_events];
    rewrite ?E3, ?E2, ?V3, ?V2; split; reflexivity.
Qed.

(** *** The category counts under [add_recipe] *)

Lemma category_counts_ok_iff (st : db) :
  category_counts_ok st = true <->
  Forall (fun c => c_recipe_count c = active_links (c_id c) st)
    (categories st).
Proof.
  unfold category_counts_ok. rewrite forallb_forall, Forall_forall.
  split; intros H c Hc; specialize (H c Hc); now apply Z.eqb_eq.
Qed.

Lemma active_links_created now t i created_by p (cid : Z) (st : db) :
  db_wf st ->
  active_links cid (recipe_created now t i created_by p st)
  = active_links cid st.
Proof.
  intro Hwf. destruct (wf_fresh_links st Hwf) as (Hl & _ & _).
  unfold active_links. cbn [recipe_created recipe_categories].
  do 2 f_equal. apply filter_ext_in. intros l Hin.
  f_equal. unfold recipe_active, recipe_created. cbn [recipes].
  rewrite existsb_app. cbn [existsb r_id r_status status_eqb].
  rewrite orb_false_r, andb_true_r.
  assert (Hne : (Z.pos (next_recipe_id st) =? rc_recipe_id l) = false).
  { destruct (Z.pos (next_recipe_id st) =? rc_recipe_id l) eqn:E;
      [|reflexivity].
    apply Z.eqb_eq in E.
    assert (Hx : existsb
                   (fun l0 => rc_recipe_id l0 =? Z.pos (next_recipe_id st))
                   (recipe_categories st) = true).
    { apply existsb_exists. exists l. split; [exact Hin|].
      apply Z.eqb_eq. congruence. }
    congruence. }
  rewrite Hne. apply orb_false_r.
Qed.

(** One turn of the category loop keeps the counts right, for a recipe
    that is active. *)
Lemma add_recipe_category_counts (rid cid : Z) (st : db) :
  recipe_active rid st = true ->
  category_counts_ok st = true ->
  category_counts_ok (snd (add_recipe_category rid cid st)) = true.
Proof.
  intros Hact Hok. rewrite add_recipe_category_run. cbn [snd].
  destruct (category_exists cid st && _ && _); [|exact Hok].
  apply category_counts_ok_iff in Hok. apply category_counts_ok_iff.
  cbn [categories]. apply Forall_map.
  eapply Forall_impl; [|exact Hok]. intros c Hc. cbv beta in *.
  assert (Hlinks : forall k,
    active_links k
      (mk_db (users st) (recipes st)
         (map (fun c0 => if c_id c0 =? cid
                         then category_count_add 1 c0 else c0)
            (categories st))
         (recipe_categories st ++ [mk_link rid cid])
         (recipe_ingredients st) (recipe_events st) (user_recipe_views st)
         (next_user_id st) (next_recipe_id st) (next_category_id st))
    = active_links k st + (if cid =? k then 1 else 0)).
  { intro k. unfold active_links. cbn [recipe_categories].
    rewrite filter_app, length_app, Nat2Z.inj_add.
    f_equal. cbn [filter rc_category_id rc_recipe_id].
    unfold recipe_active in *. cbn [recipes]. rewrite Hact, andb_true_r.
    destruct (cid =? k); reflexivity. }
  destruct (c_id c =? cid) eqn:E.
  - cbn [category_count_add c_id c_recipe_count]. rewrite Hlinks, Hc.
    rewrite Z.eqb_sym, E. reflexivity.
  - rewrite Hlinks, Hc. rewrite Z.eqb_sym, E. lia.
Qed.

Lemma add_recipe_invalid (now : Z) (title instructions created_by : string)
    (category_ids : option (list Z))
    (ingredients : option (list (string * string))) (prep_time : Z)
    (st : db) :
  (exists e, Validator.validate_recipe_title title = Raise e) \/
  (exists e, Validator.validate_instructions instructions = Raise e) \/
  (exists e, prep_time_arg prep_time = Raise e) ->
  snd (add_recipe now title instructions created_by category_ids ingredients
         prep_time st) = st.
Proof.
  intro H. unfold add_recipe, try_except, bind, lift, raise.
  destruct (Validator.validate_recipe_title title) as [t|e1] eqn:Ht.
  - destruct (Validator.validate_instructions instructions) as [i|e2] eqn:Hi.
    + destruct (prep_time_arg prep_time) as [p|e3] eqn:Hp.
      * destruct H as [[e H]|[[e H]|[e H]]]; discriminate H.
      * reflexivity.
    + reflexivity.
  - reflexivity.
Qed.

(** [add_recipe] keeps the count of every category equal to the number of
    its active recipes. *)
Lemma add_recipe_keeps_category_counts (now : Z)
    (title instructions created_by : string)
    (category_ids : option (list Z))
    (ingredients : option (list (string * string))) (prep_time : Z)
    (st : db) :
  db_wf st ->
  category_counts_ok st = true ->
  category_counts_ok
    (snd (add_recipe now title instructions created_by category_ids
            ingredients prep_time st)) = true.
Proof.
  intros Hwf Hok.
  destruct (Validator.validate_recipe_title title) as [t|e1] eqn:Ht;
    [|rewrite add_recipe_invalid; eauto].
  destruct (Validator.validate_instructions instructions) as [i|e2] eqn:Hi;
    [|rewrite add_recipe_invalid; eauto].
  destruct (prep_time_arg prep_time) as [p|e3] eqn:Hp;
    [|rewrite add_recipe_invalid; eauto 6].
  rewrite (add_recipe_run now title instructions created_by category_ids
             ingredients prep_time st t i p Ht Hi Hp).
  cbn [snd].
  set (rid := Z.pos (next_recipe_id st)).
  set (st1 := recipe_created now t i created_by p st).
  assert (H1 : recipe_active rid st1 = true /\ category_counts_ok st1 = true).
  { split.
    - unfold recipe_active, st1, recipe_created. cbn [recipes].
      rewrite existsb_app. cbn [existsb r_id r_status status_eqb].
      subst rid. now rewrite Z.eqb_refl, orb_true_r.
    - apply category_counts_ok_iff. apply category_counts_ok_iff in Hok.
      eapply Forall_impl; [|exact Hok]. intros c Hc. cbv beta in *.
      subst st1. now rewrite active_links_created. }
  assert (H2 : recipe_active rid
                 (fold_left (fun s c => snd (add_recipe_category rid c s))
                    (ids_given category_ids) st1) = true
               /\ category_counts_ok
                    (fold_left (fun s c => snd (add_recipe_category rid c s))
                       (ids_given category_ids) st1) = true).
  { apply (preserves_fold
             (fun s => recipe_active rid s = true
                       /\ category_counts_ok s = true)
             (add_recipe_category rid)); [|exact H1].
    intros c s [Ha Hc]. split.
    - rewrite add_recipe_category_run. cbn [snd].
      destruct (category_exists c s && _ && _); exact Ha.
    - now apply add_recipe_category_counts. }
  set (st2 := fold_left _ (ids_given category_ids) st1) in *.
  apply (preserves_fold (fun s => category_counts_ok s = true)
           (add_ingredient rid)); [|apply H2].
  intros x s Hs. rewrite add_ingredient_run. cbn [snd].
  destruct (Validator.validate_ingredient (fst x) (snd x)); [|exact Hs].
  destruct (recipe_exists rid s); exact Hs.
Qed.

(** *** Sequences of operations *)

(** Claim C9.  Over any sequence of operations, the recipe row at a
    given place of the table keeps its id, does not go back from deleted
    to active, and does not lose views. *)
Theorem recipe_status_and_views_monotone (ops : list (Z * op)) (st : db)
    (n : nat) (r : recipe_row) :
  nth_error (recipes st) n = Some r ->
  exists r',
    nth_error (recipes (run_ops ops st)) n = Some r' /\
    r_id r' = r_id r /\
    (r_status r = Deleted -> r_status r' = Deleted) /\
    r_views r <= r_views r'.
Proof.
  intro Hn.
  destruct (evolves_nth _ _ n r (evolves_run_ops ops st) Hn)
    as (r' & Hn' & Hstep).
  exists r'. split; [exact Hn' | exact Hstep].
Qed.

(** ** Further properties *)

(** *** Strings and the validator *)

Lemma lstrip_no_space_ahead (s : string) : no_space_ahead (Py.lstrip s).
Proof.
  induction s as [|c s IH]; cbn; [exact I|].
  destruct (Py.isspace c) eqn:E; [exact IH | exact E].
Qed.

Lemma lstrip_fixed (s : string) : no_space_ahead s -> Py.lstrip s = s.
Proof. destruct s as [|c s]; cbn; [reflexivity|]. now intros ->. Qed.

Lemma rstrip_no_space_ahead (s : string) :
  no_space_ahead s -> no_space_ahead (Py.rstrip s).
Proof.
  destruct s as [|c s]; cbn; [trivial|]. intro H.
  destruct (Py.rstrip s); [rewrite H|]; exact H.
Qed.

Lemma rstrip_idempotent (s : string) : Py.rstrip (Py.rstrip s) = Py.rstrip s.
Proof.
  induction s as [|c s IH]; cbn; [reflexivity|].
  destruct (Py.rstrip s) as [|d t] eqn:E.
  - destruct (Py.isspace c) eqn:Ec; cbn; [reflexivity|]. now rewrite Ec.
  - cbn [Py.rstrip] in *. rewrite IH. reflexivity.
Qed.

Lemma strip_idempotent (s : string) : Py.strip (Py.strip s) = Py.strip s.
Proof.
  unfold Py.strip.
  rewrite (lstrip_fixed (Py.rstrip (Py.lstrip s))).
  - apply rstrip_idempotent.
  - apply rstrip_no_space_ahead, lstrip_no_space_ahead.
Qed.
(** What a validator returns on success. *)

Lemma validate_recipe_title_ok (title t : string) :
  Validator.validate_recipe_title title = Ok t <->
  t = Py.strip title /\ Py.falsy t = false /\ Py.len t <= 200.
Proof.
  unfold Validator.validate_recipe_title. rewrite falsy_or_strip.
  destruct (Py.falsy (Py.strip title)) eqn:F.
  - split; [discriminate|]. intros (-> & H & _). congruence.
  - rewrite Z.gtb_ltb.
    destruct (200 <? Py.len (Py.strip title)) eqn:L.
    + apply Z.ltb_lt in L. split; [discriminate|]. intros (-> & _ & H). lia.
    + apply Z.ltb_ge in L. split.
      * intros [= <-]. auto.
      * now intros (-> & _ & _).
Qed.

Lemma validate_instructions_ok (instructions i : string) :
  Validator.validate_instructions instructions = Ok i <->
  i = Py.strip instructions /\ Py.falsy i = false /\ Py.len i <= 65535.
Proof.
  unfold Validator.validate_instructions. rewrite falsy_or_strip.
  destruct (Py.falsy (Py.strip instructions)) eqn:F.
  - split; [discriminate|]. intros (-> & H & _). congruence.
  - rewrite Z.gtb_ltb.
    destruct (65535 <? Py.len (Py.strip instructions)) eqn:L.
    + apply Z.ltb_lt in L. split; [discriminate|]. intros (-> & _ & H). lia.
    + apply Z.ltb_ge in L. split.
      * intros [= <-]. auto.
      * now intros (-> & _ & _).
Qed.

Lemma strip_or_empty (s : string) :
  (if Py.falsy s then EmptyString else Py.strip s) = Py.strip s.
Proof. destruct s; reflexivity. Qed.

Lemma validate_ingredient_ok (ingredient quantity a q : string) :
  Validator.validate_ingredient ingredient quantity = Ok (a, q) <->
  a = Py.strip ingredient /\ q = Py.strip quantity /\
  Py.falsy a = false /\ Py.len a <= 100 /\ Py.len q <= 50.
Proof.
  unfold Validator.validate_ingredient. rewrite !strip_or_empty.
  destruct (Py.falsy (Py.strip ingredient)) eqn:F.
  - split; [discriminate|]. intros (-> & _ & H & _). congruence.
  - rewrite !Z.gtb_ltb.
    destruct (100 <? Py.len (Py.strip ingredient)) eqn:L.
    + apply Z.ltb_lt in L. split; [discriminate|].
      intros (-> & _ & _ & H & _). lia.
    + apply Z.ltb_ge in L.
      destruct (50 <? Py.len (Py.strip quantity)) eqn:L2.
      * apply Z.ltb_lt in L2. split; [discriminate|].
        intros (_ & -> & _ & _ & H). lia.
      * apply Z.ltb_ge in L2. split.
        -- intros [= <- <-]. auto.
        -- now intros (-> & -> & _).
Qed.

Lemma validate_username_ok (username u : string) :
  Validator.validate_username username = Ok u <->
  u = Py.strip username /\ 3 <= Py.len u <= 50 /\
  Py.all Validator.username_char u = true.
Proof.
  unfold Validator.validate_username. rewrite falsy_or_strip.
  set (t := Py.strip username).
  destruct (Py.falsy t) eqn:F.
  - apply falsy_len in F. split; [discriminate|]. intros (-> & H & _). lia.
  - rewrite Z.gtb_ltb.
    destruct (Py.len t <? 3) eqn:L3.
    + apply Z.ltb_lt in L3. split; [discriminate|]. intros (-> & H & _). lia.
    + apply Z.ltb_ge in L3.
      destruct (50 <? Py.len t) eqn:L50.
      * apply Z.ltb_lt in L50. split; [discriminate|].
        intros (-> & H & _). lia.
      * apply Z.ltb_ge in L50.
        destruct (Py.all Validator.username_char t) eqn:A; cbn [negb].
        -- split; [intros [= <-]; auto with zarith | now intros (-> & _)].
        -- split; [discriminate|]. intros (-> & _ & H). congruence.
Qed.

Lemma validate_password_ok (password p : string) :
  Validator.validate_password password = Ok p <->
  p = password /\ 6 <= Py.len p <= 100.
Proof.
  unfold Validator.validate_password.
  destruct (Py.falsy password) eqn:F.
  - apply falsy_len in F. split; [discriminate|]. intros (-> & H). lia.
  - rewrite Z.gtb_ltb.
    destruct (Py.len password <? 6) eqn:L6.
    + apply Z.ltb_lt in L6. split; [discriminate|]. intros (-> & H). lia.
    + apply Z.ltb_ge in L6.
      destruct (100 <? Py.len password) eqn:L100.
      * apply Z.ltb_lt in L100. split; [discriminate|]. intros (-> & H). lia.
      * apply Z.ltb_ge in L100.
        split; [intros [= <-]; auto with zarith | now intros (-> & _)].
Qed.

Lemma validate_username_again (username u : string) :
  Validator.validate_username username = Ok u ->
  Validator.validate_username u = Ok u.
Proof.
  intro H. apply validate_username_ok in H.
  destruct H as (-> & H1 & H2). apply validate_username_ok.
  now rewrite strip_idempotent.
Qed.

Lemma validate_password_again (password p : string) :
  Validator.validate_password password = Ok p ->
  Validator.validate_password p = Ok p.
Proof.
  intro H. apply validate_password_ok in H.
  destruct H as (-> & H). now apply validate_password_ok.
Qed.

Lemma validate_recipe_title_again (title t : string) :
  Validator.validate_recipe_title title = Ok t ->
  Validator.validate_recipe_title t = Ok t.
Proof.
  intro H. apply validate_recipe_title_ok in H.
  destruct H as (-> & H1 & H2). apply validate_recipe_title_ok.
  now rewrite strip_idempotent.
Qed.

Lemma validate_instructions_again (instructions i : string) :
  Validator.validate_instructions instructions = Ok i ->
  Validator.validate_instructions i = Ok i.
Proof.
  intro H. apply validate_instructions_ok in H.
  destruct H as (-> & H1 & H2). apply validate_instructions_ok.
  now rewrite strip_idempotent.
Qed.

Lemma validate_ingredient_again (ingredient quantity : string)
    (v : string * string) :
  Validator.validate_ingredient ingredient quantity = Ok v ->
  Validator.validate_ingredient (fst v) (snd v) = Ok v.
Proof.
  destruct v as [a q]. intro H. apply validate_ingredient_ok in H.
  destruct H as (-> & -> & H1 & H2 & H3). apply validate_ingredient_ok.
  cbn [fst snd]. now rewrite !strip_idempotent.
Qed.

(** Property X1. What a validator returned, it returns again unchanged: the
    windows validate the fields they read and [Database] validates them once
    more. *)
Theorem validators_idempotent :
  (forall username u,
      Validator.validate_username username = Ok u ->
      Validator.validate_username u = Ok u) /\
  (forall password p,
      Validator.validate_password password = Ok p ->
      Validator.validate_password p = Ok p) /\
  (forall title t,
      Validator.validate_recipe_title title = Ok t ->
      Validator.validate_recipe_title t = Ok t) /\
  (forall instructions i,
      Validator.validate_instructions instructions = Ok i ->
      Validator.validate_instructions i = Ok i) /\
  (forall ingredient quantity a q,
      Validator.validate_ingredient ingredient quantity = Ok (a, q) ->
      Validator.validate_ingredient a q = Ok (a, q)).
Proof.
  repeat split.
  - apply validate_username_again.
  - apply validate_password_again.
  - apply validate_recipe_title_again.
  - apply validate_instructions_again.
  - intros ingredient quantity a q H.
    apply (validate_ingredient_again ingredient quantity (a, q) H).
Qed.
(** *** [int] and [str] *)

Lemma rstrip_fixed (s : string) :
  Py.all (fun c => negb (Py.isspace c)) s = true -> Py.rstrip s = s.
Proof.
  induction s as [|c s IH]; cbn; [reflexivity|].
  intro H. apply andb_prop in H. destruct H as [Hc Hs].
  rewrite (IH Hs). apply negb_true_iff in Hc.
  destruct s; [now rewrite Hc | reflexivity].
Qed.

Lemma strip_fixed (s : string) :
  Py.all (fun c => negb (Py.isspace c)) s = true -> Py.strip s = s.
Proof.
  intro H. unfold Py.strip. rewrite lstrip_fixed.
  - now apply rstrip_fixed.
  - destruct s as [|c s]; cbn in *; [exact I|].
    apply andb_prop in H. now apply negb_true_iff.
Qed.

Lemma all_impl (p q : ascii -> bool) (s : string) :
  (forall c, p c = true -> q c = true) ->
  Py.all p s = true -> Py.all q s = true.
Proof.
  intro Hpq. induction s as [|c s IH]; cbn; [reflexivity|].
  intro H. apply andb_prop in H. destruct H as [Hc Hs].
  now rewrite (Hpq c Hc), (IH Hs).
Qed.

Lemma digit_not_space (c : ascii) :
  Py.isdigit_ascii c = true -> negb (Py.isspace c) = true.
Proof.
  destruct c as [[|] [|] [|] [|] [|] [|] [|] [|]]; vm_compute;
    congruence.
Qed.

Lemma digits_of_uint (u : Decimal.uint) :
  Py.all Py.isdigit_ascii (NilEmpty.string_of_uint u) = true.
Proof. induction u; cbn; auto. Qed.

Lemma digits_of_digits (s : string) (after_digit : bool) :
  Py.all Py.isdigit_ascii s = true ->
  s <> EmptyString \/ after_digit = true ->
  Py.digits_of s after_digit = Some s.
Proof.
  revert after_digit. induction s as [|c s IH]; intros b Hall Hne.
  - cbn. destruct Hne as [H | ->]; [congruence | reflexivity].
  - cbn in *. apply andb_prop in Hall. destruct Hall as [Hc Hs].
    rewrite Hc. rewrite (IH true Hs); [reflexivity | now right].
Qed.

Lemma string_of_uint_not_empty (u : Decimal.uint) :
  u <> Decimal.Nil -> NilEmpty.string_of_uint u <> EmptyString.
Proof. destruct u; cbn; congruence. Qed.

(** [int] reads back the digits of a decimal without a sign. *)
Lemma int_of_str_uint (max_str_digits : Z) (u : Decimal.uint) :
  u <> Decimal.Nil ->
  max_str_digits <= 0
  \/ Py.len (NilEmpty.string_of_uint u) <= max_str_digits ->
  Py.int_of_str max_str_digits (NilEmpty.string_of_uint u)
  = Some (Z.of_uint u).
Proof.
  intros Hu Hmax. unfold Py.int_of_str.
  set (s := NilEmpty.string_of_uint u) in *.
  assert (Hd : Py.all Py.isdigit_ascii s = true) by apply digits_of_uint.
  assert (Hne : s <> EmptyString) by now apply string_of_uint_not_empty.
  assert (Hsign : (match s with
                   | String c r =>
                       if Ascii.eqb c "-" then (true, r)
                       else if Ascii.eqb c "+" then (false, r)
                       else (false, s)
                   | EmptyString => (false, s)
                   end) = (false, s)).
  { destruct s as [|c r]; [reflexivity|].
    cbn in Hd. apply andb_prop in Hd. destruct Hd as [Hc _].
    destruct (Ascii.eqb c "-") eqn:E1.
    - apply Ascii.eqb_eq in E1. subst c. discriminate Hc.
    - destruct (Ascii.eqb c "+") eqn:E2; [|reflexivity].
      apply Ascii.eqb_eq in E2. subst c. discriminate Hc. }
  rewrite Hsign. cbn [fst snd].
  rewrite (digits_of_digits s false Hd (or_introl Hne)).
  replace ((0 <? max_str_digits) && (max_str_digits <? Py.len s))
    with false.
  - subst s. now rewrite NilEmpty.usu.
  - symmetry. apply andb_false_iff.
    destruct Hmax; [left; apply Z.ltb_ge | right; apply Z.ltb_ge]; lia.
Qed.

Lemma int_of_str_of_int (max_str_digits : Z) (t : Z) :
  max_str_digits <= 0
  \/ Py.len (Py.str_of_int (Z.abs t)) <= max_str_digits ->
  Py.int_of_str max_str_digits (Py.str_of_int t) = Some t.
Proof.
  intro Hmax. destruct t as [|p|p].
  - destruct Hmax as [H|H]; unfold Py.int_of_str; cbn;
      [|cbn in H];
      (replace ((0 <? max_str_digits) && (max_str_digits <? 1)) with false;
       [reflexivity | symmetry; apply andb_false_iff;
                      first [left; apply Z.ltb_ge; lia
                            | right; apply Z.ltb_ge; lia]]).
  - unfold Py.str_of_int in *. cbn [Z.to_int Z.abs] in *.
    unfold NilZero.string_of_int, NilZero.string_of_uint in *.
    pose proof (Unsigned.to_uint_nonnil p) as Hn.
    destruct (Pos.to_uint p) as [| | | | | | | | | |] eqn:E;
      try congruence;
      rewrite <- E in *;
      (rewrite int_of_str_uint; [|exact Hn|exact Hmax]);
      unfold Z.of_uint; now rewrite Unsigned.of_to.
  - unfold Py.str_of_int in *. cbn [Z.to_int Z.abs] in *.
    unfold NilZero.string_of_int, NilZero.string_of_uint in *.
    pose proof (Unsigned.to_uint_nonnil p) as Hn.
    assert (Hs : forall u, u <> Decimal.Nil ->
              max_str_digits <= 0
              \/ Py.len (NilEmpty.string_of_uint u) <= max_str_digits ->
              Py.int_of_str max_str_digits
                (String "-" (NilEmpty.string_of_uint u))
              = Some (- Z.of_uint u)).
    { intros u Hu Hm. pose proof (int_of_str_uint max_str_digits u Hu Hm) as H.
      unfold Py.int_of_str in *. cbn [Ascii.eqb Bool.eqb fst snd].
      assert (Hd := digits_of_uint u).
      rewrite (digits_of_digits _ false Hd
                 (or_introl (string_of_uint_not_empty u Hu))).
      replace ((0 <? max_str_digits)
               && (max_str_digits <? Py.len (NilEmpty.string_of_uint u)))
        with false.
      - now rewrite NilEmpty.usu.
      - symmetry. apply andb_false_iff.
        destruct Hm; [left; apply Z.ltb_ge | right; apply Z.ltb_ge]; lia. }
    destruct (Pos.to_uint p) as [| | | | | | | | | |] eqn:E;
      try congruence;
      rewrite <- E in *;
      (rewrite Hs; [|exact Hn|exact Hmax]);
      unfold Z.of_uint; now rewrite Unsigned.of_to.
Qed.

Lemma str_of_int_no_space (t : Z) :
  Py.all (fun c => negb (Py.isspace c)) (Py.str_of_int t) = true
  /\ Py.falsy (Py.str_of_int t) = false.
Proof.
  assert (Hu : forall u,
            Py.all (fun c => negb (Py.isspace c))
              (NilZero.string_of_uint u) = true
            /\ Py.falsy (NilZero.string_of_uint u) = false).
  { intro u. unfold NilZero.string_of_uint.
    destruct u; try (split; reflexivity);
      (split; [apply (all_impl Py.isdigit_ascii);
               [apply digit_not_space | apply (digits_of_uint (_ u))]
              | reflexivity]). }
  destruct t as [|p|p]; unfold Py.str_of_int; cbn [Z.to_int].
  - split; reflexivity.
  - apply Hu.
  - unfold NilZero.string_of_int. destruct (Hu (Pos.to_uint p)) as [H1 H2].
    split; [cbn [Py.all]; now rewrite H1 | reflexivity].
Qed.

(** Property X2. [validate_prep_time(str(t))] of an int [t] is the range
    check on [t]: what [Database] computes for the prep_time argument. *)
Theorem validate_prep_time_str (max_str_digits : Z) (t : Z) :
  max_str_digits <= 0
  \/ Py.len (Py.str_of_int (Z.abs t)) <= max_str_digits ->
  Validator.validate_prep_time max_str_digits (Py.str_of_int t)
  = Validator.validate_prep_time_of_int t
  /\ prep_time_arg t
     = (if t =? 0 then Ok 0
        else Validator.validate_prep_time max_str_digits (Py.str_of_int t)).
Proof.
  intro Hmax.
  assert (E : Validator.validate_prep_time max_str_digits (Py.str_of_int t)
              = Validator.validate_prep_time_of_int t).
  { unfold Validator.validate_prep_time.
    destruct (str_of_int_no_space t) as [Hs Hf].
    rewrite (strip_fixed _ Hs), Hf. cbn [orb].
    now rewrite (int_of_str_of_int max_str_digits t Hmax). }
  split; [exact E|].
  unfold prep_time_arg. now rewrite E.
Qed.
(** *** Credential store: logging in *)

Lemma login_user_run (now : Z) (username password : string) (st : db) :
  login_user now username password st =
    match Validator.validate_username username,
          Validator.validate_password password with
    | Ok u, Ok p =>
        match find (fun x => sql_eq (u_username x) u) (users st) with
        | Some row =>
            if String.eqb (u_password_hash row) (sha256 p) then
              (Ok (Some (u_role row)),
               set_users st
                 (map (fun x => if sql_eq (u_username x) u
                                then user_logged_in now x else x) (users st)))
            else (Ok None, st)
        | None => (Ok None, st)
        end
    | _, _ => (Ok None, st)
    end.
Proof.
  unfold login_user, try_except, bind, lift.
  destruct (Validator.validate_username username) as [u|e]; [|reflexivity].
  destruct (Validator.validate_password password) as [p|e]; [|reflexivity].
  unfold select_password_role, update_last_login, ret.
  destruct (find _ (users st)) as [row|]; cbn [option_map]; [|reflexivity].
  destruct (String.eqb (u_password_hash row) (sha256 p)); reflexivity.
Qed.

(** Property X3. [login_user] never raises. When it returns [None] it has
    written nothing. When it returns a role, a row of [users] has the
    trimmed username, the digest of the password given and that role, and
    the only thing written is the last_login of the rows of that username. *)
Theorem login_user_checks_digest (now : Z) (username password : string)
    (st : db) :
  exists result,
    login_user now username password st
    = (Ok result,
       match result with
       | None => st
       | Some _ =>
           set_users st
             (map (fun x => if sql_eq (u_username x) (Py.strip username)
                            then user_logged_in now x else x) (users st))
       end)
    /\ match result with
       | None => True
       | Some r =>
           exists row,
             In row (users st) /\
             sql_eq (u_username row) (Py.strip username) = true /\
             u_password_hash row = sha256 password /\
             u_role row = r
       end.
Proof.
  rewrite login_user_run.
  destruct (Validator.validate_username username) as [u|e] eqn:Hu;
    [|exists None; split; [reflexivity | exact I]].
  destruct (Validator.validate_password password) as [p|e] eqn:Hp;
    [|exists None; split; [reflexivity | exact I]].
  apply validate_username_ok in Hu. destruct Hu as (-> & _).
  apply validate_password_ok in Hp. destruct Hp as (-> & _).
  destruct (find _ (users st)) as [row|] eqn:Hf;
    [|exists None; split; [reflexivity | exact I]].
  destruct (String.eqb (u_password_hash row) (sha256 password)) eqn:He;
    [|exists None; split; [reflexivity | exact I]].
  exists (Some (u_role row)). split; [reflexivity|].
  apply find_some in Hf. destruct Hf as [Hin Hm].
  apply String.eqb_eq in He. exists row. auto.
Qed.

(** Property X4. A registration that succeeds can be used to log in:
    [login_user] with the same username and password returns the role
    registered and sets the last_login of the new row. *)
Theorem register_then_login (now1 now2 : Z) (username password : string)
    (r : role) (st : db) (u p : string) :
  Validator.validate_username username = Ok u ->
  Validator.validate_password password = Ok p ->
  existsb (fun x => sql_eq (u_username x) u) (users st) = false ->
  let st1 := snd (register_user now1 username password r st) in
  fst (register_user now1 username password r st) = Ok true /\
  login_user now2 username password st1
  = (Ok (Some r),
     set_users st1
       (users st
        ++ [mk_user (Z.pos (next_user_id st)) u (sha256 p) r now1
              (Some now2) 0])).
Proof.
  intros Hu Hp Hnew st1.
  assert (Hreg : register_user now1 username password r st =
            (Ok true,
             mk_db
               (users st
                ++ [mk_user (Z.pos (next_user_id st)) u (sha256 p) r now1
                      None 0])
               (recipes st) (categories st) (recipe_categories st)
               (recipe_ingredients st) (recipe_events st)
               (user_recipe_views st) (Pos.succ (next_user_id st))
               (next_recipe_id st) (next_category_id st))).
  { unfold register_user, try_except, bind, lift. rewrite Hu, Hp.
    unfold select_user_id, insert_user, raise, ret.
    rewrite existsb_find in Hnew.
    destruct (find _ (users st)) eqn:Hf; [discriminate|]. cbn.
    rewrite existsb_find, Hf. reflexivity. }
  subst st1. rewrite Hreg. cbn [fst snd]. split; [reflexivity|].
  rewrite login_user_run, Hu, Hp. cbn [users].
  assert (Hf : find (fun x => sql_eq (u_username x) u) (users st) = None).
  { rewrite existsb_find in Hnew. now destruct (find _ (users st)). }
  rewrite (find_app_none _ _ _ Hf). cbn [find u_username].
  rewrite sql_eq_refl. cbn [u_password_hash u_role].
  rewrite String.eqb_refl. f_equal. unfold set_users. cbn [users]. f_equal.
  rewrite map_app, (map_if_none _ _ _ Hnew). cbn [map u_username].
  now rewrite sql_eq_refl.
Qed.
(** *** Recipe store: what [add_recipe] wrote can be read back *)

Lemma add_ingredients_run (rid : Z) (l : list (string * string)) (st : db) :
  recipe_exists rid st = true ->
  fold_left (fun s x => snd (add_ingredient rid x s)) l st =
    set_recipe_ingredients st
      (recipe_ingredients st
       ++ map (fun v => mk_ingredient rid (fst v) (snd v))
            (validated_pairs l)).
Proof.
  revert st. induction l as [|x l IH]; intros st Hex; cbn [fold_left].
  - cbn. rewrite app_nil_r. now destruct st.
  - rewrite add_ingredient_run. cbn [snd validated_pairs flat_map].
    destruct (Validator.validate_ingredient (fst x) (snd x)) as [v|e].
    + rewrite Hex. rewrite IH by exact Hex.
      unfold set_recipe_ingredients. cbn. now rewrite <- app_assoc.
    + now rewrite IH.
Qed.

Lemma category_keys_count_add (cid : Z) (l : list category_row) :
  map (fun c => (c_id c, c_name c))
    (map (fun c => if c_id c =? cid then category_count_add 1 c else c) l)
  = map (fun c => (c_id c, c_name c)) l.
Proof.
  rewrite map_map. apply map_ext. intro c.
  now destruct (c_id c =? cid).
Qed.

Lemma category_exists_keys (k : Z) (st st' : db) :
  map (fun c => (c_id c, c_name c)) (categories st')
  = map (fun c => (c_id c, c_name c)) (categories st) ->
  category_exists k st' = category_exists k st.
Proof.
  unfold category_exists. generalize (categories st) (categories st').
  intros l l'. revert l. induction l' as [|c' l' IH]; intros [|c l] H;
    try discriminate; [reflexivity|].
  cbn in *. injection H as H1 _ H3. rewrite H1. f_equal. now apply IH.
Qed.

(** After the category loop of [add_recipe], for a recipe that exists: the
    recipe is linked to the categories it was linked to and to the
    existing ones among [cids]; ids and names of the categories are
    unchanged. *)
Lemma add_recipe_categories_links (rid : Z) (cids : list Z) (st : db) :
  recipe_exists rid st = true ->
  let st' := fold_left (fun s c => snd (add_recipe_category rid c s))
               cids st in
  (forall k, linked rid k st'
             = linked rid k st
               || (existsb (Z.eqb k) cids && category_exists k st)) /\
  map (fun c => (c_id c, c_name c)) (categories st')
  = map (fun c => (c_id c, c_name c)) (categories st).
Proof.
  revert st. induction cids as [|c cids IH]; intros st Hex; cbn [fold_left].
  - split; [|reflexivity]. intro k. cbn. now rewrite orb_false_r.
  - set (s1 := snd (add_recipe_category rid c st)).
    assert (H1 : recipe_exists rid s1 = true
                 /\ map (fun c => (c_id c, c_name c)) (categories s1)
                    = map (fun c => (c_id c, c_name c)) (categories st)
                 /\ forall k, linked rid k s1
                              = linked rid k st
                                || ((k =? c) && category_exists c st)).
    { subst s1. rewrite add_recipe_category_run. cbn [snd].
      fold (linked rid c st). rewrite Hex, andb_true_r.
      destruct (category_exists c st) eqn:Hc; cbn [andb].
      - destruct (linked rid c st) eqn:Hl; cbn [negb].
        + repeat split; try assumption. intro k.
          destruct (k =? c) eqn:E; [|now rewrite orb_false_r].
          apply Z.eqb_eq in E. subst k. now rewrite Hl.
        + repeat split.
          * exact Hex.
          * cbn [categories]. apply category_keys_count_add.
          * intro k. unfold linked. cbn [recipe_categories].
            rewrite existsb_app. cbn [existsb rc_recipe_id rc_category_id].
            rewrite Z.eqb_refl, orb_false_r, andb_true_r. cbn [andb].
            now rewrite (Z.eqb_sym c k).
      - repeat split; try assumption. intro k.
        now rewrite andb_false_r, orb_false_r. }
    destruct H1 as (Hex1 & Hk1 & Hl1).
    destruct (IH s1 Hex1) as [Hl Hk]. cbv zeta in Hl, Hk.
    split; [|now rewrite Hk].
    intro k. rewrite Hl, Hl1, (category_exists_keys k st s1 Hk1).
    cbn [existsb].
    destruct (k =? c) eqn:E.
    + apply Z.eqb_eq in E. subst k.
      destruct (linked rid c st), (category_exists c st),
        (existsb (Z.eqb c) cids); reflexivity.
    + destruct (linked rid k st), (category_exists k st),
        (category_exists c st), (existsb (Z.eqb k) cids); reflexivity.
Qed.

Lemma filter_map_keys {A B} (key : A -> B) (q : B -> bool) (l l' : list A) :
  map key l = map key l' ->
  map key (filter (fun x => q (key x)) l)
  = map key (filter (fun x => q (key x)) l').
Proof.
  revert l'. induction l as [|x l IH]; intros [|x' l'] H; try discriminate;
    [reflexivity|].
  cbn in *. injection H as H1 H2. rewrite H1.
  destruct (q (key x')); cbn; [rewrite H1; f_equal|]; now apply IH.
Qed.

(** Property X5. [add_recipe] with valid fields, instructions and an
    author that fit their columns, and then [get_recipe] of the id
    returned: the trimmed title and instructions, no view, the author, the
    prep_time, the existing categories among those asked for, and the valid
    ingredients in the order given. *)
Theorem add_recipe_then_get_recipe (now : Z)
    (title instructions created_by : string)
    (category_ids : option (list Z))
    (ingredients : option (list (string * string))) (prep_time : Z)
    (st : db) (t i : string) (p : Z) :
  Validator.validate_recipe_title title = Ok t ->
  Validator.validate_instructions instructions = Ok i ->
  prep_time_arg prep_time = Ok p ->
  fits_text i = true ->
  fits_varchar created_by = true ->
  db_wf st ->
  let rid := Z.pos (next_recipe_id st) in
  let out := add_recipe now title instructions created_by category_ids
               ingredients prep_time st in
  fst out = Ok rid /\
  get_recipe rid (snd out)
  = (Ok (Some
           (mk_data (mk_meta rid t i 0 created_by now p)
              (map (fun c => (c_id c, c_name c))
                 (filter (fun c => existsb (Z.eqb (c_id c))
                                     (ids_given category_ids))
                    (categories st)))
              (validated_pairs (pairs_given ingredients)))),
     snd out).
Proof.
  intros Ht Hi Hp _ _ Hwf rid out.
  destruct (wf_fresh_links st Hwf) as (Hl & Hg & Hn). fold rid in Hl, Hg, Hn.
  subst out.
  rewrite (add_recipe_run now title instructions created_by category_ids
             ingredients prep_time st t i p Ht Hi Hp).
  cbn [fst snd]. fold rid. split; [reflexivity|].
  set (st1 := recipe_created now t i created_by p st).
  assert (Hex1 : recipe_exists rid st1 = true)
    by apply recipe_created_exists.
  destruct (add_recipe_categories_frame rid (ids_given category_ids) st1)
    as [Hr2 Hi2].
  destruct (add_recipe_categories_links rid (ids_given category_ids) st1 Hex1)
    as [Hl2 Hk2].
  set (st2 := fold_left _ (ids_given category_ids) st1) in *.
  cbv zeta in Hl2, Hk2.
  assert (Hex2 : recipe_exists rid st2 = true).
  { unfold recipe_exists. rewrite Hr2. exact Hex1. }
  rewrite (add_ingredients_run rid _ st2 Hex2).
  rewrite get_recipe_run.
  cbn [set_recipe_ingredients recipes categories recipe_categories
       recipe_ingredients].
  rewrite Hr2, Hi2. cbn [st1 recipe_created recipes recipe_ingredients].
  rewrite find_app_none by (apply find_none_and; exact Hn).
  fold rid. cbn [find r_id r_status status_eqb].
  rewrite Z.eqb_refl. cbn [andb option_map]. do 3 f_equal.
  f_equal.
  - rewrite (filter_ext_in
               (fun c => existsb (fun l => (rc_recipe_id l =? rid)
                                           && (rc_category_id l =? c_id c))
                           (recipe_categories st2))
               (fun c => existsb (Z.eqb (fst (c_id c, c_name c)))
                           (ids_given category_ids))).
    + rewrite (filter_map_keys (fun c => (c_id c, c_name c))
                 (fun kn => existsb (Z.eqb (fst kn)) (ids_given category_ids))
                 (categories st2) (categories st1) Hk2).
      reflexivity.
    + intros c Hc. cbn [fst].
      change (existsb _ (recipe_categories st2)) with (linked rid (c_id c) st2).
      rewrite Hl2.
      assert (E0 : linked rid (c_id c) st1 = false).
      { unfold linked. cbn [st1 recipe_created recipe_categories].
        now apply existsb_and_false. }
      assert (E1 : category_exists (c_id c) st1 = true).
      { rewrite <- (category_exists_keys (c_id c) st1 st2 Hk2).
        unfold category_exists. apply existsb_exists. exists c.
        split; [exact Hc | apply Z.eqb_refl]. }
      now rewrite E0, E1, andb_true_r.
  - rewrite filter_app, (filter_none _ _ Hg). cbn [app].
    assert (Hall : forall l : list (string * string),
              map (fun x => (i_ingredient x, i_quantity x))
                (filter (fun x => i_recipe_id x =? rid)
                   (map (fun v => mk_ingredient rid (fst v) (snd v)) l))
              = l).
    { induction l as [|[a q] l IHl]; [reflexivity|].
      cbn [map filter i_recipe_id fst snd]. rewrite Z.eqb_refl.
      cbn [map i_ingredient i_quantity]. now rewrite IHl. }
    apply Hall.
Qed.
(** *** Rejected input *)

Lemma prep_time_arg_str (max_str_digits : Z) (t : Z) :
  max_str_digits <= 0
  \/ Py.len (Py.str_of_int (Z.abs t)) <= max_str_digits ->
  prep_time_arg t
  = (if t =? 0 then Ok 0
     else Validator.validate_prep_time max_str_digits (Py.str_of_int t)).
Proof.
  intro Hmax. unfold prep_time_arg, Validator.validate_prep_time.
  destruct (str_of_int_no_space t) as [Hs Hf].
  rewrite (strip_fixed _ Hs), Hf. cbn [orb].
  now rewrite (int_of_str_of_int max_str_digits t Hmax).
Qed.

(** Property X6. A field that fails validation stops the method before its
    first statement: [register_user] and [add_recipe] raise the error of the
    validator, [update_recipe] returns [False], and nothing is written. The
    prep_time is an int whose decimal is within the limit on digits of the
    interpreter, so that [str(prep_time)] is computed and the validator is
    the one to reject it. *)
Theorem rejected_input_writes_nothing (max_str_digits now recipe_id : Z)
    (username password title instructions created_by : string) (r : role)
    (category_ids : option (list Z))
    (ingredients : option (list (string * string))) (prep_time : Z)
    (st : db) :
  max_str_digits <= 0
  \/ Py.len (Py.str_of_int (Z.abs prep_time)) <= max_str_digits ->
  match Validator.validate_username username with
  | Raise e => register_user now username password r st = (Raise e, st)
  | Ok _ =>
      match Validator.validate_password password with
      | Raise e => register_user now username password r st = (Raise e, st)
      | Ok _ => True
      end
  end /\
  match Validator.validate_recipe_title title with
  | Raise e =>
      add_recipe now title instructions created_by category_ids ingredients
        prep_time st = (Raise e, st) /\
      update_recipe now recipe_id title instructions category_ids ingredients
        prep_time st = (Ok false, st)
  | Ok _ =>
      match Validator.validate_instructions instructions with
      | Raise e =>
          add_recipe now title instructions created_by category_ids
            ingredients prep_time st = (Raise e, st) /\
          update_recipe now recipe_id title instructions category_ids
            ingredients prep_time st = (Ok false, st)
      | Ok _ =>
          match (if prep_time =? 0 then Ok 0
                 else Validator.validate_prep_time max_str_digits
                        (Py.str_of_int prep_time)) with
          | Raise e =>
              add_recipe now title instructions created_by category_ids
                ingredients prep_time st = (Raise e, st) /\
              update_recipe now recipe_id title instructions category_ids
                ingredients prep_time st = (Ok false, st)
          | Ok _ => True
          end
      end
  end.
Proof.
  intro Hmax. split.
  - unfold register_user, try_except, bind, lift, raise.
    destruct (Validator.validate_username username); [|reflexivity].
    destruct (Validator.validate_password password); [exact I|reflexivity].
  - rewrite <- (prep_time_arg_str max_str_digits prep_time Hmax).
    unfold add_recipe, update_recipe, try_except, bind, lift, raise, ret.
    destruct (Validator.validate_recipe_title title);
      [|split; reflexivity].
    destruct (Validator.validate_instructions instructions);
      [|split; reflexivity].
    destruct (prep_time_arg prep_time); [exact I|].
    split; reflexivity.
Qed.
(** *** Recipe store: what [update_recipe] replaces *)

Lemma update_recipe_categories_links (rid : Z) (cids : list Z) (st : db) :
  recipe_exists rid st = true ->
  let st' := fold_left (fun s c => snd (update_recipe_category rid c s))
               cids st in
  (forall k, linked rid k st'
             = linked rid k st
               || (existsb (Z.eqb k) cids && category_exists k st)) /\
  (forall r' k, r' <> rid -> linked r' k st' = linked r' k st) /\
  categories st' = categories st /\
  recipe_ingredients st' = recipe_ingredients st /\
  recipes st' = recipes st.
Proof.
  revert st. induction cids as [|c cids IH]; intros st Hex; cbn [fold_left].
  - repeat split. intro k. cbn. now rewrite orb_false_r.
  - set (s1 := snd (update_recipe_category rid c st)).
    assert (H1 : recipes s1 = recipes st
                 /\ categories s1 = categories st
                 /\ recipe_ingredients s1 = recipe_ingredients st
                 /\ (forall k, linked rid k s1
                               = linked rid k st
                                 || ((k =? c) && category_exists c st))
                 /\ (forall r' k, r' <> rid ->
                                  linked r' k s1 = linked r' k st)).
    { subst s1. rewrite update_recipe_category_run. cbn [snd].
      fold (linked rid c st). rewrite Hex, andb_true_r.
      destruct (category_exists c st) eqn:Hc; cbn [andb].
      - destruct (linked rid c st) eqn:Hl; cbn [negb].
        + repeat split. intro k.
          destruct (k =? c) eqn:E; [|now rewrite orb_false_r].
          apply Z.eqb_eq in E. subst k. now rewrite Hl.
        + repeat split.
          * intro k. unfold linked, set_recipe_categories.
            cbn [recipe_categories].
            rewrite existsb_app. cbn [existsb rc_recipe_id rc_category_id].
            rewrite Z.eqb_refl, orb_false_r, andb_true_r. cbn [andb].
            now rewrite (Z.eqb_sym c k).
          * intros r' k Hne. unfold linked, set_recipe_categories.
            cbn [recipe_categories].
            rewrite existsb_app. cbn [existsb rc_recipe_id rc_category_id].
            replace (rid =? r') with false
              by (symmetry; apply Z.eqb_neq; congruence).
            cbn [andb orb]. now rewrite orb_false_r.
      - repeat split. intro k. now rewrite andb_false_r, orb_false_r. }
    destruct H1 as (Hr1 & Hc1 & Hi1 & Hl1 & Ho1).
    assert (Hex1 : recipe_exists rid s1 = true).
    { unfold recipe_exists. now rewrite Hr1. }
    destruct (IH s1 Hex1) as (Hl & Ho & Hc & Hi & Hr).
    cbv zeta in Hl, Ho, Hc, Hi, Hr.
    repeat split; try congruence.
    + intro k. rewrite Hl, Hl1.
      replace (category_exists k s1) with (category_exists k st)
        by (unfold category_exists; now rewrite Hc1).
      cbn [existsb].
      destruct (k =? c) eqn:E.
      * apply Z.eqb_eq in E. subst k.
        destruct (linked rid c st), (category_exists c st),
          (existsb (Z.eqb c) cids); reflexivity.
      * destruct (linked rid k st), (category_exists k st),
          (category_exists c st), (existsb (Z.eqb k) cids); reflexivity.
    + intros r' k Hne. now rewrite Ho, Ho1.
Qed.

Lemma linked_after_delete (rid r' k : Z) (st : db) :
  linked r' k (snd (delete_recipe_categories rid st))
  = if r' =? rid then false else linked r' k st.
Proof.
  unfold linked, delete_recipe_categories, set_recipe_categories.
  cbn [snd recipe_categories].
  induction (recipe_categories st) as [|l ls IH]; cbn [filter existsb].
  - now destruct (r' =? rid).
  - destruct (rc_recipe_id l =? rid) eqn:E; cbn [negb existsb].
    + rewrite IH. apply Z.eqb_eq in E. rewrite E.
      destruct (r' =? rid) eqn:E2; [reflexivity|].
      rewrite (Z.eqb_sym rid r'), E2. reflexivity.
    + rewrite IH. destruct (r' =? rid) eqn:E2; [|reflexivity].
      apply Z.eqb_eq in E2. subst r'. now rewrite E.
Qed.

Lemma ingredients_of_replaced (rid r' : Z) (vp : list (string * string))
    (st : db) :
  ingredients_of r'
    (set_recipe_ingredients st
       (filter (fun i => negb (i_recipe_id i =? rid)) (recipe_ingredients st)
        ++ map (fun v => mk_ingredient rid (fst v) (snd v)) vp))
  = if r' =? rid then vp else ingredients_of r' st.
Proof.
  unfold ingredients_of, set_recipe_ingredients. cbn [recipe_ingredients].
  rewrite filter_app, map_app.
  assert (Hold : map (fun i => (i_ingredient i, i_quantity i))
                   (filter (fun i => i_recipe_id i =? r')
                      (filter (fun i => negb (i_recipe_id i =? rid))
                         (recipe_ingredients st)))
                 = if r' =? rid then []
                   else map (fun i => (i_ingredient i, i_quantity i))
                          (filter (fun i => i_recipe_id i =? r')
                             (recipe_ingredients st))).
  { induction (recipe_ingredients st) as [|x l IH]; cbn [filter map].
    - now destruct (r' =? rid).
    - destruct (i_recipe_id x =? rid) eqn:E; cbn [negb filter].
      + rewrite IH. apply Z.eqb_eq in E. rewrite E.
        destruct (r' =? rid) eqn:E2; [reflexivity|].
        rewrite (Z.eqb_sym rid r'), E2. reflexivity.
      + destruct (i_recipe_id x =? r') eqn:E1; cbn [map]; rewrite IH.
        * destruct (r' =? rid) eqn:E2; [|reflexivity].
          apply Z.eqb_eq in E1, E2. subst. rewrite Z.eqb_refl in E.
          discriminate.
        * reflexivity. }
  assert (Hnew : map (fun i => (i_ingredient i, i_quantity i))
                   (filter (fun i => i_recipe_id i =? r')
                      (map (fun v => mk_ingredient rid (fst v) (snd v)) vp))
                 = if r' =? rid then vp else []).
  { induction vp as [|[a q] l IH]; cbn [map filter i_recipe_id fst snd].
    - now destruct (r' =? rid).
    - rewrite (Z.eqb_sym rid r'). destruct (r' =? rid) eqn:E2;
        cbn [map i_ingredient i_quantity]; now rewrite IH. }
  rewrite Hold, Hnew. destruct (r' =? rid); [reflexivity|].
  now rewrite app_nil_r.
Qed.

Lemma update_recipe_effect (now recipe_id : Z)
    (title instructions : string) (category_ids : option (list Z))
    (ingredients : option (list (string * string))) (prep_time : Z)
    (st : db) (t i : string) (p : Z) :
  Validator.validate_recipe_title title = Ok t ->
  Validator.validate_instructions instructions = Ok i ->
  prep_time_arg prep_time = Ok p ->
  recipe_exists recipe_id st = true ->
  let out := update_recipe now recipe_id title instructions category_ids
               ingredients prep_time st in
  fst out = Ok true /\
  (forall r', ingredients_of r' (snd out)
              = match ingredients with
                | Some l => if r' =? recipe_id then validated_pairs l
                            else ingredients_of r' st
                | None => ingredients_of r' st
                end) /\
  (forall r' k, linked r' k (snd out)
                = match category_ids with
                  | Some l => if r' =? recipe_id
                              then existsb (Z.eqb k) l && category_exists k st
                              else linked r' k st
                  | None => linked r' k st
                  end) /\
  categories (snd out) = categories st.
Proof.
  intros Ht Hi Hp Hex out.
  set (st1 := set_recipes st
                (map (fun r => if r_id r =? recipe_id
                               then recipe_edited now t i p r else r)
                   (recipes st))).
  assert (Hex1 : recipe_exists recipe_id st1 = true).
  { unfold recipe_exists, st1, set_recipes. cbn [recipes].
    rewrite existsb_map_if; [exact Hex | reflexivity]. }
  set (st2 := match category_ids with
              | Some l =>
                  fold_left
                    (fun s c => snd (update_recipe_category recipe_id c s)) l
                    (snd (delete_recipe_categories recipe_id st1))
              | None => st1
              end).
  assert (H2 : recipes st2 = recipes st1
               /\ categories st2 = categories st
               /\ recipe_ingredients st2 = recipe_ingredients st
               /\ forall r' k,
                    linked r' k st2
                    = match category_ids with
                      | Some l =>
                          if r' =? recipe_id
                          then existsb (Z.eqb k) l && category_exists k st
                          else linked r' k st
                      | None => linked r' k st
                      end).
  { subst st2. destruct category_ids as [l|]; [|repeat split].
    set (s0 := snd (delete_recipe_categories recipe_id st1)).
    assert (Hex0 : recipe_exists recipe_id s0 = true) by exact Hex1.
    destruct (update_recipe_categories_links recipe_id l s0 Hex0)
      as (Hl & Ho & Hc & Hg & Hr). cbv zeta in Hl, Ho, Hc, Hg, Hr.
    repeat split; try assumption.
    intros r' k. destruct (r' =? recipe_id) eqn:E.
    - apply Z.eqb_eq in E. subst r'. rewrite Hl.
      unfold s0 at 1. rewrite linked_after_delete, Z.eqb_refl.
      reflexivity.
    - rewrite Ho by (apply Z.eqb_neq; exact E).
      unfold s0. rewrite linked_after_delete, E. reflexivity. }
  destruct H2 as (Hr2 & Hc2 & Hi2 & Hl2).
  assert (Hex2 : recipe_exists recipe_id st2 = true).
  { unfold recipe_exists. now rewrite Hr2. }
  set (st3 := match ingredients with
              | Some l =>
                  fold_left (fun s x => snd (add_ingredient recipe_id x s)) l
                    (snd (delete_recipe_ingredients recipe_id st2))
              | None => st2
              end).
  assert (H3 : st3 = match ingredients with
                     | Some l =>
                         set_recipe_ingredients st2
                           (filter (fun i => negb (i_recipe_id i =? recipe_id))
                              (recipe_ingredients st2)
                            ++ map (fun v => mk_ingredient recipe_id (fst v)
                                               (snd v))
                                 (validated_pairs l))
                     | None => st2
                     end).
  { subst st3. destruct ingredients as [l|]; [|reflexivity].
    rewrite add_ingredients_run by exact Hex2. reflexivity. }
  assert (Hrun : out =
            (Ok true,
             if recipe_exists recipe_id st3 then
               set_recipe_events st3
                 (recipe_events st3
                  ++ [mk_event (Some recipe_id) "user" EvEdit now])
             else st3)).
  { subst out. unfold update_recipe. apply try_except_run.
    run_with (lift_run _ _ st Ht).
    run_with (lift_run _ _ st Hi).
    run_with (lift_run _ _ st Hp).
    erewrite bind_run by (unfold update_recipe_row; reflexivity). cbv beta.
    fold st1.
    assert (Hc : (match category_ids with
                  | Some cids =>
                      bind (delete_recipe_categories recipe_id)
                        (fun _ =>
                           for_each (update_recipe_category recipe_id) cids)
                  | None => ret tt
                  end) st1 = (Ok tt, st2)).
    { subst st2. destruct category_ids as [l|]; [|reflexivity].
      erewrite bind_run by reflexivity.
      apply for_each_run. intros x s.
      now rewrite update_recipe_category_run. }
    run_with Hc.
    assert (Hg : (match ingredients with
                  | Some l =>
                      bind (delete_recipe_ingredients recipe_id)
                        (fun _ => for_each (add_ingredient recipe_id) l)
                  | None => ret tt
                  end) st2 = (Ok tt, st3)).
    { subst st3. destruct ingredients as [l|]; [|reflexivity].
      erewrite bind_run by reflexivity.
      apply for_each_run. intros x s. now rewrite add_ingredient_run. }
    run_with Hg.
    erewrite bind_run by (apply log_recipe_event_run). reflexivity. }
  rewrite Hrun. cbn [fst snd]. split; [reflexivity|].
  assert (Hfin : forall s : db,
            (if recipe_exists recipe_id st3 then
               set_recipe_events st3
                 (recipe_events st3
                  ++ [mk_event (Some recipe_id) "user" EvEdit now])
             else st3) = s ->
            recipe_ingredients s = recipe_ingredients st3
            /\ recipe_categories s = recipe_categories st3
            /\ categories s = categories st3).
  { intros s <-. destruct (recipe_exists recipe_id st3); repeat split. }
  destruct (Hfin _ eq_refl) as (Fi & Fl & Fc).
  assert (H3' : recipe_categories st3 = recipe_categories st2
                /\ categories st3 = categories st2).
  { rewrite H3. destruct ingredients; split; reflexivity. }
  destruct H3' as (Gl & Gc).
  repeat split.
  - intro r'. unfold ingredients_of at 1. rewrite Fi.
    fold (ingredients_of r' st3). rewrite H3.
    destruct ingredients as [l|].
    + rewrite ingredients_of_replaced.
      destruct (r' =? recipe_id); [reflexivity|].
      unfold ingredients_of. now rewrite Hi2.
    + unfold ingredients_of. now rewrite Hi2.
  - intros r' k. unfold linked at 1. rewrite Fl, Gl.
    apply (Hl2 r' k).
  - now rewrite Fc, Gc.
Qed.

(** Property X7. [update_recipe] with valid fields and instructions that
    fit the column, for a recipe that has a row. A list of ingredients given
    replaces the ingredients of the recipe by the valid pairs of the list,
    in order; a list of category ids given replaces its links by links to
    the existing categories of the list. An argument left at [None] leaves
    them as they are. The ingredients and the links of the other recipes and
    the table of categories, counts included, are not touched. *)
Theorem update_recipe_replaces (now recipe_id : Z)
    (title instructions : string) (category_ids : option (list Z))
    (ingredients : option (list (string * string))) (prep_time : Z)
    (st : db) (t i : string) (p : Z) :
  Validator.validate_recipe_title title = Ok t ->
  Validator.validate_instructions instructions = Ok i ->
  prep_time_arg prep_time = Ok p ->
  fits_text i = true ->
  recipe_exists recipe_id st = true ->
  let out := update_recipe now recipe_id title instructions category_ids
               ingredients prep_time st in
  fst out = Ok true /\
  (forall r', ingredients_of r' (snd out)
              = match ingredients with
                | Some l => if r' =? recipe_id then validated_pairs l
                            else ingredients_of r' st
                | None => ingredients_of r' st
                end) /\
  (forall r' k, linked r' k (snd out)
                = match category_ids with
                  | Some l => if r' =? recipe_id
                              then existsb (Z.eqb k) l && category_exists k st
                              else linked r' k st
                  | None => linked r' k st
                  end) /\
  categories (snd out) = categories st.
Proof.
  intros Ht Hi Hp _ Hex.
  exact (update_recipe_effect now recipe_id title instructions category_ids
           ingredients prep_time st t i p Ht Hi Hp Hex).
Qed.
(** *** Views of a recipe that has no row *)

Lemma fk_map_recipes (st : db) (p : recipe_row -> bool)
    (g : recipe_row -> recipe_row) :
  (forall r, r_id (g r) = r_id r) ->
  views_fk st ->
  views_fk (set_recipes st (map (fun r => if p r then g r else r)
                              (recipes st))).
Proof.
  intros Hg H. unfold views_fk, recipe_exists.
  cbn [set_recipes recipes user_recipe_views].
  eapply Forall_impl; [|exact H].
  intros v Hv. cbv beta. now rewrite recipe_exists_map.
Qed.

Lemma fk_insert_recipe now t i a p :
  preserves views_fk (insert_recipe now t i a p).
Proof.
  intros st H. unfold views_fk, recipe_exists. cbn.
  eapply Forall_impl; [|exact H]. cbv beta. intros v Hv.
  rewrite existsb_app. unfold recipe_exists in Hv. now rewrite Hv.
Qed.

Lemma fk_update_recipe_row now t i p rid :
  preserves views_fk (update_recipe_row now t i p rid).
Proof.
  intros st H.
  apply (fk_map_recipes st (fun r => r_id r =? rid) (recipe_edited now t i p));
    [reflexivity | exact H].
Qed.

Lemma fk_mark_recipe_deleted now rid :
  preserves views_fk (mark_recipe_deleted now rid).
Proof.
  intros st H.
  apply (fk_map_recipes st
           (fun r => (r_id r =? rid) && status_eqb (r_status r) Active)
           (recipe_deleted now)); [reflexivity | exact H].
Qed.

Lemma fk_increment_recipe_views now rid :
  preserves views_fk (increment_recipe_views now rid).
Proof.
  intros st H.
  apply (fk_map_recipes st (fun r => r_id r =? rid) (recipe_viewed now));
    [reflexivity | exact H].
Qed.

Lemma fk_insert_view now u rid : preserves views_fk (insert_view now u rid).
Proof.
  intros st H. unfold insert_view.
  destruct (existsb _ (user_recipe_views st)); [exact H|].
  destruct (recipe_exists rid st) eqn:Hex; cbn [negb]; [|exact H].
  unfold views_fk. cbn [snd set_user_recipe_views user_recipe_views].
  apply Forall_app. split; [exact H|].
  constructor; [exact Hex | constructor].
Qed.

Lemma fk_increment_view_count now u rid :
  preserves views_fk (increment_view_count now u rid).
Proof.
  intros st H. unfold views_fk.
  cbn [snd increment_view_count set_user_recipe_views user_recipe_views].
  apply Forall_map. eapply Forall_impl; [|exact H].
  intros v Hv. cbv beta in *. destruct (_ && _); exact Hv.
Qed.

Lemma fk_delete_views_of_recipe rid :
  preserves views_fk (delete_views_of_recipe rid).
Proof.
  intros st H. unfold views_fk.
  cbn [snd delete_views_of_recipe set_user_recipe_views user_recipe_views].
  apply Forall_forall. intros v Hv. apply filter_In in Hv.
  unfold views_fk in H. rewrite Forall_forall in H. now apply H.
Qed.

Ltac fk_statement :=
  first [ apply fk_insert_recipe | apply fk_update_recipe_row
        | apply fk_mark_recipe_deleted | apply fk_increment_recipe_views
        | apply fk_insert_view | apply fk_increment_view_count
        | apply fk_delete_views_of_recipe
        | frame_statement ].

Ltac fk_method := split_method; try fk_statement.

Lemma fk_run_op now o st : views_fk st -> views_fk (run_op now o st).
Proof.
  revert st.
  destruct o; cbn [run_op];
    match goal with
    | |- forall st, views_fk st -> views_fk (snd (?c st)) =>
        change (preserves views_fk c)
    end.
  - unfold register_user. fk_method.
  - unfold login_user. fk_method.
  - unfold add_category. fk_method.
  - unfold add_recipe. fk_method.
  - unfold update_recipe. fk_method.
  - unfold delete_recipe. fk_method.
  - unfold get_recipe. fk_method.
  - unfold increment_view. fk_method.
  - unfold delete_user. fk_method.
Qed.

Lemma reachable_views_fk (st : db) : reachable st -> views_fk st.
Proof.
  induction 1; [constructor | now apply fk_run_op].
Qed.

Lemma set_recipes_same (st : db) : set_recipes st (recipes st) = st.
Proof. now destruct st. Qed.

(** Property X8. [increment_view] for an id that no row of [recipes] has, in
    a state the program can reach: the UPDATE matches no row, the INSERT of
    the view row fails on the foreign key, the error is caught, and the call
    returns with nothing written: no view row, no event. *)
Theorem increment_view_missing_recipe (now rid : Z) (username : string)
    (st : db) :
  reachable st ->
  recipe_exists rid st = false ->
  increment_view now rid username st = (Ok tt, st).
Proof.
  intros Hr Hex. apply reachable_views_fk in Hr.
  assert (Hseen : find (fun v => sql_eq (v_username v) username
                                 && (v_recipe_id v =? rid))
                    (user_recipe_views st) = None).
  { destruct (find _ (user_recipe_views st)) as [v|] eqn:Hf; [|reflexivity].
    apply find_some in Hf. destruct Hf as [Hin Hv].
    apply andb_prop in Hv. destruct Hv as [_ Hv]. apply Z.eqb_eq in Hv.
    unfold views_fk in Hr. rewrite Forall_forall in Hr.
    specialize (Hr v Hin). rewrite Hv in Hr. congruence. }
  unfold increment_view, try_except, bind, increment_recipe_views,
    select_view_count.
  rewrite (map_if_none (fun r => r_id r =? rid) (recipe_viewed now))
    by exact Hex.
  rewrite set_recipes_same, Hseen. cbn [option_map].
  unfold insert_view. rewrite existsb_find, Hseen, Hex. reflexivity.
Qed.
(** *** Deleting a user *)

Lemma delete_recipe_run (now rid : Z) (username : string) (st : db) :
  delete_recipe now rid username st =
    match find (fun r => (r_id r =? rid) && status_eqb (r_status r) Active)
            (recipes st) with
    | None => (Ok false, st)
    | Some r =>
        (Ok true,
         mk_db
           (map (fun u => if sql_eq (u_username u) (r_created_by r)
                          then user_count_add (-1) u else u) (users st))
           (map (fun x => if (r_id x =? rid)
                             && status_eqb (r_status x) Active
                          then recipe_deleted now x else x) (recipes st))
           (categories st) (recipe_categories st) (recipe_ingredients st)
           (recipe_events st ++ [mk_event (Some rid) username EvDelete now])
           (filter (fun v => negb (v_recipe_id v =? rid))
              (user_recipe_views st))
           (next_user_id st) (next_recipe_id st) (next_category_id st))
    end.
Proof.
  destruct (find _ (recipes st)) as [r|] eqn:Hf.
  - assert (Hex := find_recipe_exists rid _ st r Hf).
    assert (Hex' : existsb (fun x => r_id x =? rid)
              (map (fun x => if (r_id x =? rid)
                                && status_eqb (r_status x) Active
                             then recipe_deleted now x else x)
                 (recipes st)) = true).
    { rewrite existsb_map_if; [exact Hex | reflexivity]. }
    unfold delete_recipe, try_except at 1, bind at 1.
    rewrite get_recipe_run, Hf. cbn [option_map].
    unfold bind, mark_recipe_deleted, update_user_recipe_count,
      delete_views_of_recipe, log_recipe_event, try_except, bind,
      insert_event, recipe_exists, ret.
    cbn. rewrite Hex'. reflexivity.
  - unfold delete_recipe, try_except at 1, bind at 1.
    now rewrite get_recipe_run, Hf.
Qed.

Lemma find_active_mark (now rid x : Z) (l : list recipe_row) :
  find (fun r => (r_id r =? rid) && status_eqb (r_status r) Active) l = None ->
  find (fun r => (r_id r =? rid) && status_eqb (r_status r) Active)
    (map (fun r => if (r_id r =? x) && status_eqb (r_status r) Active
                   then recipe_deleted now r else r) l) = None.
Proof.
  induction l as [|r l IH]; cbn [map find]; [reflexivity|].
  destruct ((r_id r =? rid) && status_eqb (r_status r) Active) eqn:E;
    [discriminate|].
  intro H. specialize (IH H).
  destruct ((r_id r =? x) && status_eqb (r_status r) Active).
  - cbn [recipe_deleted r_id r_status status_eqb].
    rewrite andb_false_r. exact IH.
  - rewrite E. exact IH.
Qed.

Lemma existsb_filter_negb {A} (p : A -> bool) (l : list A) :
  existsb p (filter (fun x => negb (p x)) l) = false.
Proof.
  induction l as [|x l IH]; cbn [filter existsb]; [reflexivity|].
  destruct (p x) eqn:E; cbn [negb existsb]; [exact IH | now rewrite E].
Qed.

(** The loop of [delete_user] over the recipes of the user. *)
Lemma delete_recipes_run (now : Z) (acting : string) (ids : list Z)
    (st : db) :
  let f := fun rid => bind (delete_recipe now rid acting)
                        (fun _ => @ret unit tt) in
  let st' := fold_left (fun s x => snd (f x s)) ids st in
  for_each f ids st = (Ok tt, st') /\
  map u_username (users st') = map u_username (users st) /\
  map (fun r => (r_id r, r_created_by r)) (recipes st')
  = map (fun r => (r_id r, r_created_by r)) (recipes st) /\
  (forall rid,
      In rid ids \/
      find (fun r => (r_id r =? rid) && status_eqb (r_status r) Active)
        (recipes st) = None ->
      find (fun r => (r_id r =? rid) && status_eqb (r_status r) Active)
        (recipes st') = None).
Proof.
  intros f st'. split.
  { apply for_each_run. intros x s. unfold f, bind.
    rewrite delete_recipe_run. now destruct (find _ (recipes s)). }
  subst st'. revert st. induction ids as [|x ids IH]; intro st;
    cbn [fold_left].
  - repeat split. intros rid [[]|H]. exact H.
  - set (s1 := snd (f x st)).
    assert (H1 : map u_username (users s1) = map u_username (users st)
                 /\ map (fun r => (r_id r, r_created_by r)) (recipes s1)
                    = map (fun r => (r_id r, r_created_by r)) (recipes st)
                 /\ find (fun r => (r_id r =? x)
                                   && status_eqb (r_status r) Active)
                      (recipes s1) = None
                 /\ forall rid,
                      find (fun r => (r_id r =? rid)
                                     && status_eqb (r_status r) Active)
                        (recipes st) = None ->
                      find (fun r => (r_id r =? rid)
                                     && status_eqb (r_status r) Active)
                        (recipes s1) = None).
    { subst s1. unfold f, bind. rewrite delete_recipe_run.
      destruct (find _ (recipes st)) as [r|] eqn:Hf; cbn [snd ret].
      - cbn [users recipes]. repeat split.
        + rewrite map_map. apply map_ext. intro u.
          now destruct (sql_eq (u_username u) (r_created_by r)).
        + rewrite map_map. apply map_ext. intro y.
          now destruct ((r_id y =? x) && status_eqb (r_status y) Active).
        + apply find_active_deleted.
        + intros rid H. now apply find_active_mark.
      - repeat split; [exact Hf | tauto]. }
    destruct H1 as (Hu1 & Hr1 & Hx1 & Hk1).
    destruct (IH s1) as (Hu & Hr & Hd).
    repeat split; try congruence.
    intros rid [[->|Hin]|Hn]; apply Hd; auto.
Qed.

(** [delete_user] for a username other than the acting user's: the
    state it leaves, and what the loop did to it. *)
Lemma delete_user_run (now : Z) (acting username : string) (st : db) :
  String.eqb username acting = false ->
  let ids := map r_id
               (filter (fun r => sql_eq (r_created_by r) username)
                  (recipes st)) in
  let st' := fold_left
               (fun s x => snd (bind (delete_recipe now x acting)
                                  (fun _ => @ret unit tt) s)) ids st in
  delete_user now acting username st
  = (Ok tt,
     set_users st'
       (filter (fun u => negb (sql_eq (u_username u) username)) (users st')))
  /\ map u_username (users st') = map u_username (users st)
  /\ map (fun r => (r_id r, r_created_by r)) (recipes st')
     = map (fun r => (r_id r, r_created_by r)) (recipes st)
  /\ (forall r, In r (recipes st') ->
                sql_eq (r_created_by r) username = true ->
                r_status r = Deleted).
Proof.
  intros He ids st'. unfold delete_user. rewrite He.
  destruct (delete_recipes_run now acting ids st) as (Hrun & Hu & Hr & Hd).
  cbv zeta in Hrun, Hu, Hr, Hd. fold st' in Hrun, Hu, Hr, Hd.
  repeat split.
  - apply try_except_run.
    erewrite bind_run by (unfold select_recipe_ids_by_author; reflexivity).
    fold ids. run_with Hrun. reflexivity.
  - exact Hu.
  - exact Hr.
  - intros r Hin Ha.
    assert (Hid : In (r_id r) ids).
    { assert (Hp : In (r_id r, r_created_by r)
                     (map (fun r => (r_id r, r_created_by r)) (recipes st))).
      { rewrite <- Hr. apply in_map_iff. now exists r. }
      apply in_map_iff in Hp. destruct Hp as (r0 & Hp & Hin0).
      injection Hp as Hi Hc. unfold ids. apply in_map_iff.
      exists r0. split; [exact Hi|]. apply filter_In. split; [exact Hin0|].
      now rewrite Hc. }
    specialize (Hd (r_id r) (or_introl Hid)).
    eapply find_none in Hd; [|exact Hin]. cbv beta in Hd.
    rewrite Z.eqb_refl in Hd. cbn [andb] in Hd.
    destruct (r_status r); [discriminate | reflexivity].
Qed.

(** Property X9. [delete_user] never raises. Asked to delete the acting
    user, by the very same string, it does nothing. Otherwise no row of
    [users] matches the username afterwards and the other rows of [users]
    are kept; no row of [recipes] is removed or changes its author, and
    every recipe whose author matches the username is marked deleted. *)
Theorem delete_user_spec (now : Z) (acting username : string) (st : db) :
  let out := delete_user now acting username st in
  fst out = Ok tt /\
  if String.eqb username acting then snd out = st
  else
    existsb (fun u => sql_eq (u_username u) username) (users (snd out))
    = false /\
    map u_username (users (snd out))
    = map u_username
        (filter (fun u => negb (sql_eq (u_username u) username)) (users st)) /\
    map (fun r => (r_id r, r_created_by r)) (recipes (snd out))
    = map (fun r => (r_id r, r_created_by r)) (recipes st) /\
    (forall r, In r (recipes (snd out)) ->
               sql_eq (r_created_by r) username = true ->
               r_status r = Deleted).
Proof.
  intro out. subst out.
  destruct (String.eqb username acting) eqn:He.
  - unfold delete_user. rewrite He. split; reflexivity.
  - destruct (delete_user_run now acting username st He)
      as (Hout & Hu & Hr & Hd).
    cbv zeta in Hout, Hu, Hr, Hd. rewrite Hout.
    cbn [fst snd set_users users recipes].
    split; [reflexivity|]. repeat split.
    + apply (existsb_filter_negb (fun u => sql_eq (u_username u) username)).
    + apply (filter_map_keys u_username (fun n => negb (sql_eq n username))).
      exact Hu.
    + exact Hr.
    + exact Hd.
Qed.
(** *** The login and registration dialogs *)

Lemma register_user_run (now : Z) (username password : string) (r : role)
    (st : db) :
  register_user now username password r st =
    match Validator.validate_username username with
    | Raise e => (Raise e, st)
    | Ok u =>
        match Validator.validate_password password with
        | Raise e => (Raise e, st)
        | Ok p =>
            if existsb (fun x => sql_eq (u_username x) u) (users st) then
              (Raise (DatabaseError "Username already exists"), st)
            else
              (Ok true,
               mk_db
                 (users st
                  ++ [mk_user (Z.pos (next_user_id st)) u (sha256 p) r now
                        None 0])
                 (recipes st) (categories st) (recipe_categories st)
                 (recipe_ingredients st) (recipe_events st)
                 (user_recipe_views st) (Pos.succ (next_user_id st))
                 (next_recipe_id st) (next_category_id st))
        end
    end.
Proof.
  unfold register_user, try_except, bind, lift, raise.
  destruct (Validator.validate_username username) as [u|e]; [|reflexivity].
  destruct (Validator.validate_password password) as [p|e]; [|reflexivity].
  unfold select_user_id, insert_user, ret. rewrite existsb_find.
  destruct (find _ (users st)) eqn:Hf; cbn [option_map]; [reflexivity|].
  rewrite existsb_find, Hf. reflexivity.
Qed.

(** Property X10. Without the passphrase the registration dialog creates no
    admin account: the admin dialog writes nothing at all, whatever is typed
    into the prompt or when it is cancelled, and the user dialog, which does
    not ask, adds at most a row with the role user. *)
Theorem register_admin_needs_passphrase (now : Z) (dialog_role : role)
    (user_entry pass_entry confirm_pass_entry : string)
    (secret : option string) (st : db) :
  secret <> Some CREATE_ADMIN_PASSPHRASE ->
  let out := register now dialog_role user_entry pass_entry
               confirm_pass_entry secret st in
  (dialog_role = RoleAdmin -> snd out = st) /\
  (forall row, In row (users (snd out)) -> u_role row = RoleAdmin ->
               In row (users st)).
Proof.
  intros Hs out. subst out. unfold register, try_except, bind.
  destruct (Py.falsy (Py.strip user_entry) || Py.falsy (Py.strip pass_entry));
    [split; auto|].
  destruct (negb (Py.strip pass_entry =? Py.strip confirm_pass_entry)%string);
    [split; auto|].
  destruct dialog_role; cbn [role_eqb].
  - rewrite register_user_run.
    destruct (Validator.validate_username _) as [u|e]; [|split; auto].
    destruct (Validator.validate_password _) as [p|e]; [|split; auto].
    destruct (existsb _ (users st)); [split; auto|].
    cbn [snd ret users]. split; [discriminate|].
    intros row Hin Hr. apply in_app_or in Hin.
    destruct Hin as [Hin|[<-|[]]]; [exact Hin | discriminate].
  - destruct secret as [s|]; [|split; auto].
    destruct (Py.falsy s); [split; auto|].
    destruct (String.eqb s CREATE_ADMIN_PASSPHRASE) eqn:E; cbn [negb];
      [|split; auto].
    apply String.eqb_eq in E. subst s. now contradiction Hs.
Qed.

(** Property X11. When the login dialog opens the application, it does so
    under the trimmed username typed in and the role stored with a row of
    [users] that matches this username and holds the digest of the trimmed
    password; the admin dialog opens it for a stored admin only. *)
Theorem login_dialog_opens (now : Z) (dialog_role : role)
    (user_entry pass_entry : string) (st : db) (u : string) (r : role) :
  fst (login now dialog_role user_entry pass_entry st)
  = Ok (LoginOpened u r) ->
  u = Py.strip user_entry /\
  (dialog_role = RoleAdmin -> r = RoleAdmin) /\
  exists row,
    In row (users st) /\
    sql_eq (u_username row) u = true /\
    u_password_hash row = sha256 (Py.strip pass_entry) /\
    u_role row = r.
Proof.
  unfold login, try_except, bind.
  destruct (Py.falsy (Py.strip user_entry) || Py.falsy (Py.strip pass_entry));
    [discriminate|].
  rewrite login_user_run.
  destruct (Validator.validate_username _) as [u0|e] eqn:Hu; [|discriminate].
  destruct (Validator.validate_password _) as [p|e] eqn:Hp;
    [|destruct (Validator.validate_username _); discriminate].
  apply validate_username_ok in Hu. destruct Hu as (Hu & _).
  rewrite strip_idempotent in Hu. subst u0.
  apply validate_password_ok in Hp. destruct Hp as (-> & _).
  destruct (find _ (users st)) as [row|] eqn:Hf; [|discriminate].
  destruct (String.eqb (u_password_hash row) _) eqn:He; [|discriminate].
  destruct (role_eqb dialog_role RoleAdmin && negb (role_eqb (u_role row)
                                                      RoleAdmin)) eqn:Hd;
    [discriminate|].
  cbn [fst ret]. intros [= <- <-].
  apply find_some in Hf. destruct Hf as [Hin Hm].
  apply String.eqb_eq in He.
  split; [reflexivity|]. split.
  - intros ->. cbn [role_eqb andb] in Hd.
    destruct (u_role row); [discriminate | reflexivity].
  - exists row. auto.
Qed.

(** Property X12. After a registration that the dialog reports as
    successful, the login dialog of the same role, given the same username
    and password, opens the application under that role. *)
Theorem register_dialog_then_login (now1 now2 : Z) (dialog_role : role)
    (user_entry pass_entry confirm_pass_entry : string)
    (secret : option string) (st : db) :
  let out := register now1 dialog_role user_entry pass_entry
               confirm_pass_entry secret st in
  fst out = Ok RegisterSuccess ->
  fst (login now2 dialog_role user_entry pass_entry (snd out))
  = Ok (LoginOpened (Py.strip user_entry) dialog_role).
Proof.
  intros out H.
  assert (Hreg : Py.falsy (Py.strip user_entry)
                 || Py.falsy (Py.strip pass_entry) = false
                 /\ exists u p,
                      Validator.validate_username (Py.strip user_entry) = Ok u
                      /\ Validator.validate_password (Py.strip pass_entry)
                         = Ok p
                      /\ existsb (fun x => sql_eq (u_username x) u) (users st)
                         = false
                      /\ users (snd out)
                         = users st
                           ++ [mk_user (Z.pos (next_user_id st)) u (sha256 p)
                                 dialog_role now1 None 0]).
  { revert H. subst out. unfold register, try_except, bind.
    destruct (Py.falsy (Py.strip user_entry)
              || Py.falsy (Py.strip pass_entry)); [discriminate|].
    destruct (negb (Py.strip pass_entry
                    =? Py.strip confirm_pass_entry)%string); [discriminate|].
    match goal with
    | |- context [match ?g with Some stop => ret stop | None => _ end] =>
        destruct g as [stop|] eqn:Hg
    end.
    { destruct dialog_role; cbn [role_eqb] in Hg; [discriminate|].
      destruct secret as [s|]; [|injection Hg as <-; discriminate].
      destruct (Py.falsy s); [injection Hg as <-; discriminate|].
      destruct (negb _); [injection Hg as <-; discriminate | discriminate]. }
    rewrite register_user_run.
    destruct (Validator.validate_username _) as [u|e]; [|discriminate].
    destruct (Validator.validate_password _) as [p|e]; [|discriminate].
    destruct (existsb _ (users st)) eqn:Hnew; [discriminate|].
    intros _. split; [reflexivity|]. exists u, p. auto. }
  destruct Hreg as (Hblank & u & p & Hu & Hp & Hnew & Husers).
  unfold login, try_except, bind. rewrite Hblank.
  rewrite login_user_run, Hu, Hp, Husers.
  assert (Hf : find (fun x => sql_eq (u_username x) u) (users st) = None).
  { rewrite existsb_find in Hnew. now destruct (find _ (users st)). }
  rewrite (find_app_none _ _ _ Hf). cbn [find u_username].
  rewrite sql_eq_refl. cbn [u_password_hash u_role].
  rewrite String.eqb_refl.
  replace (role_eqb dialog_role RoleAdmin
           && negb (role_eqb dialog_role RoleAdmin)) with false
    by now destruct dialog_role.
  apply validate_username_ok in Hu. destruct Hu as (Hu & _).
  rewrite strip_idempotent in Hu. now subst u.
Qed.
(** *** The forms that save a recipe *)

(** The validators raise [ValidationError] and nothing else. *)

Lemma validate_recipe_title_error (title : string) (e : exn) :
  Validator.validate_recipe_title title = Raise e ->
  is_ValidationError e = true.
Proof.
  unfold Validator.validate_recipe_title.
  destruct (_ || _); [now intros [= <-]|].
  destruct (_ >? _); [now intros [= <-] | discriminate].
Qed.

Lemma validate_instructions_error (instructions : string) (e : exn) :
  Validator.validate_instructions instructions = Raise e ->
  is_ValidationError e = true.
Proof.
  unfold Validator.validate_instructions.
  destruct (_ || _); [now intros [= <-]|].
  destruct (_ >? _); [now intros [= <-] | discriminate].
Qed.

Lemma validate_prep_time_error (max_str_digits : Z) (prep_time : string)
    (e : exn) :
  Validator.validate_prep_time max_str_digits prep_time = Raise e ->
  is_ValidationError e = true.
Proof.
  unfold Validator.validate_prep_time.
  destruct (_ || _); [now intros [= <-]|].
  destruct (Py.int_of_str _ _); [|now intros [= <-]].
  destruct (_ <=? _); [now intros [= <-]|].
  destruct (_ >? _); [now intros [= <-] | discriminate].
Qed.

Lemma validate_ingredient_error (ingredient quantity : string) (e : exn) :
  Validator.validate_ingredient ingredient quantity = Raise e ->
  is_ValidationError e = true.
Proof.
  unfold Validator.validate_ingredient.
  destruct (Py.falsy _); [now intros [= <-]|].
  destruct (_ >? _); [now intros [= <-]|].
  destruct (_ >? _); [now intros [= <-] | discriminate].
Qed.

Lemma collect_ingredients_error (l : list (string * string)) (e : exn) :
  collect_ingredients l = Raise e -> is_ValidationError e = true.
Proof.
  induction l as [|[ie qe] l IH]; cbn [collect_ingredients]; [discriminate|].
  destruct (Py.falsy (Py.strip ie)); [exact IH|].
  destruct (Validator.validate_ingredient _ _) as [v|e0] eqn:Hv.
  - destruct (collect_ingredients l); [discriminate|].
    intros [= <-]. now apply IH.
  - intros [= <-]. exact (validate_ingredient_error _ _ _ Hv).
Qed.

Lemma validate_prep_time_range (max_str_digits : Z) (prep_time : string)
    (p : Z) :
  Validator.validate_prep_time max_str_digits prep_time = Ok p ->
  1 <= p <= 1440 /\ prep_time_arg p = Ok p.
Proof.
  unfold Validator.validate_prep_time.
  destruct (Py.falsy prep_time || Py.falsy (Py.strip prep_time));
    [discriminate|].
  destruct (Py.int_of_str _ _) as [t|]; [|discriminate].
  destruct (t <=? 0) eqn:E0; [discriminate|].
  destruct (t >? 1440) eqn:E1; [discriminate|].
  intros [= <-]. apply Z.leb_gt in E0. rewrite Z.gtb_ltb in E1.
  apply Z.ltb_ge in E1. split; [lia|].
  unfold prep_time_arg, Validator.validate_prep_time_of_int.
  replace (t =? 0) with false by (symmetry; apply Z.eqb_neq; lia).
  replace (t <=? 0) with false by (symmetry; apply Z.leb_gt; lia).
  replace (t >? 1440) with false
    by (symmetry; rewrite Z.gtb_ltb; apply Z.ltb_ge; lia).
  reflexivity.
Qed.

Lemma collect_ingredients_valid (l c : list (string * string)) :
  collect_ingredients l = Ok c -> validated_pairs c = c.
Proof.
  revert c. induction l as [|[ie qe] l IH]; intro c; cbn [collect_ingredients].
  - now intros [= <-].
  - destruct (Py.falsy (Py.strip ie)); [apply IH|].
    destruct (Validator.validate_ingredient _ _) as [v|e] eqn:Hv;
      [|discriminate].
    destruct (collect_ingredients l) as [c'|e]; [|discriminate].
    intros [= <-]. cbn [validated_pairs flat_map].
    rewrite (validate_ingredient_again _ _ _ Hv). cbn [app].
    f_equal. now apply IH.
Qed.

Lemma add_recipe_effect (now : Z) (title instructions created_by : string)
    (category_ids : option (list Z))
    (ingredients : option (list (string * string))) (prep_time : Z)
    (st : db) (t i : string) (p : Z) :
  Validator.validate_recipe_title title = Ok t ->
  Validator.validate_instructions instructions = Ok i ->
  prep_time_arg prep_time = Ok p ->
  db_wf st ->
  let rid := Z.pos (next_recipe_id st) in
  let out := add_recipe now title instructions created_by category_ids
               ingredients prep_time st in
  fst out = Ok rid /\
  recipes (snd out)
  = recipes st ++ [mk_recipe rid t i 0 p created_by now None Active] /\
  ingredients_of rid (snd out) = validated_pairs (pairs_given ingredients) /\
  users (snd out)
  = map (fun u => if sql_eq (u_username u) created_by
                  then user_count_add 1 u else u) (users st).
Proof.
  intros Ht Hi Hp Hwf rid out.
  destruct (wf_fresh_links st Hwf) as (Hl & Hg & Hn). fold rid in Hl, Hg, Hn.
  subst out.
  rewrite (add_recipe_run now title instructions created_by category_ids
             ingredients prep_time st t i p Ht Hi Hp).
  cbn [fst snd]. fold rid. split; [reflexivity|].
  set (st1 := recipe_created now t i created_by p st).
  assert (Hex1 : recipe_exists rid st1 = true)
    by apply recipe_created_exists.
  destruct (add_recipe_categories_frame rid (ids_given category_ids) st1)
    as [Hr2 Hi2].
  set (st2 := fold_left _ (ids_given category_ids) st1) in *.
  assert (Hex2 : recipe_exists rid st2 = true).
  { unfold recipe_exists. rewrite Hr2. exact Hex1. }
  assert (Hu2 : users st2 = users st1).
  { subst st2.
    apply (preserves_fold (fun s => users s = users st1)
             (add_recipe_category rid)); [|reflexivity].
    intro c. unfold add_recipe_category. split_method; frame_statement. }
  rewrite (add_ingredients_run rid _ st2 Hex2).
  repeat split.
  - cbn [set_recipe_ingredients recipes]. rewrite Hr2. reflexivity.
  - rewrite <- (filter_negb_none (fun x => i_recipe_id x =? rid)
                  (recipe_ingredients st2))
      by (rewrite Hi2; exact Hg).
    rewrite ingredients_of_replaced, Z.eqb_refl. reflexivity.
  - cbn [set_recipe_ingredients users]. rewrite Hu2. reflexivity.
Qed.

(** Property X13. The form for a new recipe, filled with instructions
    that fit the column once trimmed and used by a user whose name fits,
    either stores the recipe or writes nothing. It stores it when title,
    instructions and preparation time are valid, every row with a name is a
    valid ingredient and there is at least one such row: the new row of
    [recipes] has the validated fields and the user as author, and its
    ingredients are the rows of the form, trimmed, in order. Otherwise it
    shows the validation error. *)
Theorem save_recipe_all_or_nothing (max_str_digits now : Z)
    (username title_entry instructions_text prep_time_entry : string)
    (selected_categories : list Z)
    (ingredients_list : list (string * string)) (st : db) :
  fits_text (Py.strip instructions_text) = true ->
  fits_varchar username = true ->
  db_wf st ->
  let rid := Z.pos (next_recipe_id st) in
  let out := save_recipe max_str_digits now username title_entry
               instructions_text prep_time_entry selected_categories
               ingredients_list st in
  match fst out with
  | Ok (SaveSuccess t) =>
      exists i p c,
        Validator.validate_recipe_title title_entry = Ok t /\
        Validator.validate_instructions instructions_text = Ok i /\
        Validator.validate_prep_time max_str_digits prep_time_entry = Ok p /\
        collect_ingredients ingredients_list = Ok c /\
        c <> [] /\
        recipes (snd out)
        = recipes st ++ [mk_recipe rid t i 0 p username now None Active] /\
        ingredients_of rid (snd out) = c
  | Ok (SaveError e) => is_ValidationError e = true /\ snd out = st
  | Ok SaveFailed => False
  | Raise _ => False
  end.
Proof.
  intros _ _ Hwf rid out. subst out.
  unfold save_recipe, try_except, bind, lift.
  destruct (Validator.validate_recipe_title title_entry) as [t|e] eqn:Ht.
  2:{ split; [exact (validate_recipe_title_error _ _ Ht) | reflexivity]. }
  destruct (Validator.validate_instructions instructions_text) as [i|e] eqn:Hi.
  2:{ split; [exact (validate_instructions_error _ _ Hi) | reflexivity]. }
  destruct (Validator.validate_prep_time max_str_digits prep_time_entry)
    as [p|e] eqn:Hp.
  2:{ split; [exact (validate_prep_time_error _ _ _ Hp) | reflexivity]. }
  destruct (collect_ingredients ingredients_list) as [c|e] eqn:Hc.
  2:{ split; [exact (collect_ingredients_error _ _ Hc) | reflexivity]. }
  destruct c as [|x c]; [cbn; split; reflexivity|].
  destruct (validate_prep_time_range _ _ _ Hp) as [_ Hp'].
  destruct (add_recipe_effect now t i username (Some selected_categories)
              (Some (x :: c)) p st t i p
              (validate_recipe_title_again _ _ Ht)
              (validate_instructions_again _ _ Hi) Hp' Hwf)
    as (Hf & Hr & Hg & _).
  cbv zeta in Hf, Hr, Hg. fold rid in Hf, Hr, Hg.
  destruct (add_recipe _ _ _ _ _ _ _ st) as [[rid'|e] st'] eqn:Hadd;
    cbn [fst snd] in Hf, Hr, Hg; [|discriminate].
  injection Hf as ->. subst rid. cbn [Z.eqb fst snd ret].
  exists i, p, (x :: c). repeat split; try assumption; try discriminate.
  cbn [pairs_given] in Hg. rewrite Hg.
  apply (collect_ingredients_valid _ _ Hc).
Qed.

(** Property X14. The form that edits a recipe, for a recipe that has a row
    and instructions that fit the column once trimmed, either replaces or
    writes nothing. When the fields are valid and a valid ingredient is
    given, the ingredients of the recipe become the rows of the form,
    trimmed, in order, and its categories the existing ones among the boxes
    ticked. Otherwise it shows the validation error. *)
Theorem save_changes_all_or_nothing (max_str_digits now recipe_id : Z)
    (title_entry instructions_text prep_time_entry : string)
    (selected_categories : list Z)
    (ingredients_list : list (string * string)) (st : db) :
  fits_text (Py.strip instructions_text) = true ->
  recipe_exists recipe_id st = true ->
  let out := save_changes max_str_digits now recipe_id title_entry
               instructions_text prep_time_entry selected_categories
               ingredients_list st in
  match fst out with
  | Ok (SaveSuccess t) =>
      exists c,
        Validator.validate_recipe_title title_entry = Ok t /\
        collect_ingredients ingredients_list = Ok c /\
        c <> [] /\
        ingredients_of recipe_id (snd out) = c /\
        (forall k, linked recipe_id k (snd out)
                   = existsb (Z.eqb k) selected_categories
                     && category_exists k st)
  | Ok (SaveError e) => is_ValidationError e = true /\ snd out = st
  | Ok SaveFailed => False
  | Raise _ => False
  end.
Proof.
  intros _ Hex out. subst out.
  unfold save_changes, try_except, bind, lift.
  destruct (Validator.validate_recipe_title title_entry) as [t|e] eqn:Ht.
  2:{ split; [exact (validate_recipe_title_error _ _ Ht) | reflexivity]. }
  destruct (Validator.validate_instructions instructions_text) as [i|e] eqn:Hi.
  2:{ split; [exact (validate_instructions_error _ _ Hi) | reflexivity]. }
  destruct (Validator.validate_prep_time max_str_digits prep_time_entry)
    as [p|e] eqn:Hp.
  2:{ split; [exact (validate_prep_time_error _ _ _ Hp) | reflexivity]. }
  destruct (collect_ingredients ingredients_list) as [c|e] eqn:Hc.
  2:{ split; [exact (collect_ingredients_error _ _ Hc) | reflexivity]. }
  destruct c as [|x c]; [cbn; split; reflexivity|].
  destruct (validate_prep_time_range _ _ _ Hp) as [_ Hp'].
  destruct (update_recipe_effect now recipe_id t i (Some selected_categories)
              (Some (x :: c)) p st t i p
              (validate_recipe_title_again _ _ Ht)
              (validate_instructions_again _ _ Hi) Hp' Hex)
    as (Hf & Hg & Hl & _).
  cbv zeta in Hf, Hg, Hl.
  destruct (update_recipe _ _ _ _ _ _ _ st) as [[b|e] st'] eqn:Hupd;
    cbn [fst snd] in Hf, Hg, Hl; [|discriminate].
  injection Hf as ->. cbn [fst snd ret].
  exists (x :: c). repeat split; try assumption; try discriminate.
  - rewrite Hg, Z.eqb_refl. apply (collect_ingredients_valid _ _ Hc).
  - intro k. now rewrite Hl, Z.eqb_refl.
Qed.
(** *** Opening a recipe *)

Lemma find_active_viewed (now rid : Z) (l : list recipe_row) :
  find (fun r => (r_id r =? rid) && status_eqb (r_status r) Active)
    (map (fun r => if r_id r =? rid then recipe_viewed now r else r) l)
  = option_map (recipe_viewed now)
      (find (fun r => (r_id r =? rid) && status_eqb (r_status r) Active) l).
Proof.
  induction l as [|r l IH]; cbn [map find]; [reflexivity|].
  destruct (r_id r =? rid) eqn:E.
  - cbn [recipe_viewed r_id r_status]. rewrite E. cbn [andb].
    destruct (status_eqb (r_status r) Active); [reflexivity | exact IH].
  - rewrite E. cbn [andb]. exact IH.
Qed.

(** Property X15. [view_recipe_window] counts the view before it reads the
    recipe. For an id that has a row, the views of the row go up by one and
    a view event is logged, whether the recipe is active or deleted. An
    active recipe is shown with the view just counted; for a deleted one the
    window reports that the recipe was not found. *)
Theorem view_recipe_window_counts_first (now rid : Z) (username : string)
    (st : db) :
  recipe_exists rid st = true ->
  let out := view_recipe_window now rid username st in
  recipes (snd out)
  = map (fun r => if r_id r =? rid then recipe_viewed now r else r)
      (recipes st) /\
  recipe_events (snd out)
  = recipe_events st ++ [mk_event (Some rid) username EvView now] /\
  match find (fun r => (r_id r =? rid) && status_eqb (r_status r) Active)
          (recipes st) with
  | Some r =>
      exists d,
        fst out = Ok (Some d) /\
        m_views (meta d) = r_views r + 1 /\
        m_title (meta d) = r_title r /\
        data_ingredients d = ingredients_of rid st
  | None => fst out = Ok None
  end.
Proof.
  intros Hex out.
  assert (Hout : out = get_recipe rid
                         (snd (increment_view now rid username st))).
  { subst out. unfold view_recipe_window, bind.
    now rewrite (increment_view_run now rid username st Hex). }
  rewrite Hout, (increment_view_run now rid username st Hex), get_recipe_run.
  cbn [fst snd recipes recipe_events].
  split; [reflexivity|]. split; [reflexivity|].
  rewrite find_active_viewed.
  destruct (find _ (recipes st)) as [r|]; cbn [option_map]; [|reflexivity].
  eexists. split; [reflexivity|]. cbn. auto.
Qed.
(** *** What is stored is valid *)

Lemma preserves_bind_lift {A B} (P : db -> Prop) (r : res A) (k : A -> M B) :
  (forall a, r = Ok a -> preserves P (k a)) ->
  preserves P (bind (lift r) k).
Proof.
  intros Hk st H. unfold bind, lift. destruct r as [a|e]; [|exact H].
  now apply Hk.
Qed.

Lemma Forall_map_if {A} (Q : A -> Prop) (p : A -> bool) (g : A -> A)
    (l : list A) :
  (forall x, Q x -> Q (g x)) ->
  Forall Q l -> Forall Q (map (fun x => if p x then g x else x) l).
Proof.
  intros Hg H. apply Forall_map. eapply Forall_impl; [|exact H].
  intros x Hx. cbv beta. destruct (p x); auto.
Qed.

Lemma Forall_filter {A} (Q : A -> Prop) (p : A -> bool) (l : list A) :
  Forall Q l -> Forall Q (filter p l).
Proof.
  intro H. apply Forall_forall. intros x Hx. apply filter_In in Hx.
  rewrite Forall_forall in H. now apply H.
Qed.

Lemma Forall_snoc {A} (Q : A -> Prop) (l : list A) (x : A) :
  Forall Q l -> Q x -> Forall Q (l ++ [x]).
Proof.
  intros H Hx. apply Forall_app. split; [exact H | now constructor].
Qed.

Lemma prep_time_arg_range (prep_time p : Z) :
  prep_time_arg prep_time = Ok p -> 0 <= p <= 1440.
Proof.
  unfold prep_time_arg, Validator.validate_prep_time_of_int.
  destruct (prep_time =? 0); [intros [= <-]; lia|].
  destruct (prep_time <=? 0) eqn:E0; [discriminate|].
  destruct (prep_time >? 1440) eqn:E1; [discriminate|].
  intros [= <-]. apply Z.leb_gt in E0. rewrite Z.gtb_ltb in E1.
  apply Z.ltb_ge in E1. lia.
Qed.

Lemma sv_insert_user now u h r :
  Validator.validate_username u = Ok u ->
  preserves stored_valid (insert_user now u h r).
Proof.
  intros Hu st (H1 & H2 & H3 & H4). unfold insert_user.
  destruct (existsb _ (users st)); [repeat split; assumption|].
  repeat split; try assumption. cbn [snd users].
  apply Forall_snoc; assumption.
Qed.

Lemma sv_update_last_login now u :
  preserves stored_valid (update_last_login now u).
Proof.
  intros st (H1 & H2 & H3 & H4). repeat split; try assumption.
  cbn [snd update_last_login set_users users].
  apply Forall_map_if; [|exact H1]. intros x Hx. exact Hx.
Qed.

Lemma sv_update_user_recipe_count u d :
  preserves stored_valid (update_user_recipe_count u d).
Proof.
  intros st (H1 & H2 & H3 & H4). repeat split; try assumption.
  cbn [snd update_user_recipe_count set_users users].
  apply Forall_map_if; [|exact H1]. intros x Hx. exact Hx.
Qed.

Lemma sv_delete_from_users u : preserves stored_valid (delete_from_users u).
Proof.
  intros st (H1 & H2 & H3 & H4). repeat split; try assumption.
  cbn [snd delete_from_users set_users users]. now apply Forall_filter.
Qed.

Lemma sv_insert_category name :
  Py.falsy (Py.strip name) = false ->
  preserves stored_valid (insert_category (Py.strip name)).
Proof.
  intros Hn st (H1 & H2 & H3 & H4). unfold insert_category.
  destruct (existsb _ (categories st)); [repeat split; assumption|].
  repeat split; try assumption. cbn [snd categories].
  apply Forall_snoc; [exact H2|]. cbn [c_name].
  split; [exact Hn | apply strip_idempotent].
Qed.

Lemma sv_increment_category_count cid :
  preserves stored_valid (increment_category_count cid).
Proof.
  intros st (H1 & H2 & H3 & H4). repeat split; try assumption.
  cbn [snd increment_category_count set_categories categories].
  apply Forall_map_if; [|exact H2]. intros x Hx. exact Hx.
Qed.

Lemma sv_insert_recipe now t i a p :
  Validator.validate_recipe_title t = Ok t ->
  Validator.validate_instructions i = Ok i ->
  0 <= p <= 1440 ->
  preserves stored_valid (insert_recipe now t i a p).
Proof.
  intros Ht Hi Hp st (H1 & H2 & H3 & H4). repeat split; try assumption.
  cbn [snd insert_recipe recipes].
  apply Forall_snoc; [exact H3|]. cbn [r_title r_instructions r_prep_time].
  auto.
Qed.

Lemma sv_update_recipe_row now t i p rid :
  Validator.validate_recipe_title t = Ok t ->
  Validator.validate_instructions i = Ok i ->
  0 <= p <= 1440 ->
  preserves stored_valid (update_recipe_row now t i p rid).
Proof.
  intros Ht Hi Hp st (H1 & H2 & H3 & H4). repeat split; try assumption.
  cbn [snd update_recipe_row set_recipes recipes].
  apply Forall_map_if; [|exact H3]. intros x _.
  cbn [recipe_edited r_title r_instructions r_prep_time]. auto.
Qed.

Lemma sv_mark_recipe_deleted now rid :
  preserves stored_valid (mark_recipe_deleted now rid).
Proof.
  intros st (H1 & H2 & H3 & H4). repeat split; try assumption.
  cbn [snd mark_recipe_deleted set_recipes recipes].
  apply Forall_map_if; [|exact H3]. intros x Hx. exact Hx.
Qed.

Lemma sv_increment_recipe_views now rid :
  preserves stored_valid (increment_recipe_views now rid).
Proof.
  intros st (H1 & H2 & H3 & H4). repeat split; try assumption.
  cbn [snd increment_recipe_views set_recipes recipes].
  apply Forall_map_if; [|exact H3]. intros x Hx. exact Hx.
Qed.

Lemma sv_insert_ingredient rid (v : string * string) :
  Validator.validate_ingredient (fst v) (snd v) = Ok v ->
  preserves stored_valid (insert_ingredient rid (fst v) (snd v)).
Proof.
  intros Hv st (H1 & H2 & H3 & H4). unfold insert_ingredient.
  destruct (negb (recipe_exists rid st)); [repeat split; assumption|].
  repeat split; try assumption.
  cbn [snd set_recipe_ingredients recipe_ingredients].
  apply Forall_snoc; [exact H4|]. cbn [i_ingredient i_quantity].
  now destruct v.
Qed.

Lemma sv_delete_recipe_ingredients rid :
  preserves stored_valid (delete_recipe_ingredients rid).
Proof.
  intros st (H1 & H2 & H3 & H4). repeat split; try assumption.
  cbn [snd delete_recipe_ingredients set_recipe_ingredients
       recipe_ingredients].
  now apply Forall_filter.
Qed.

Ltac sv_split :=
  repeat first
    [ apply preserves_ret | apply preserves_raise | apply preserves_lift
    | apply preserves_bind_lift; intros ? ?
    | apply preserves_bind; [| intro]
    | apply preserves_try_except; [| intro]
    | apply preserves_for_each; intro
    | match goal with
      | |- preserves _ (match ?x with _ => _ end) => destruct x
      end ].

Ltac sv_statement :=
  first [ apply sv_update_last_login | apply sv_update_user_recipe_count
        | apply sv_delete_from_users | apply sv_increment_category_count
        | apply sv_mark_recipe_deleted | apply sv_increment_recipe_views
        | apply sv_delete_recipe_ingredients
        | apply sv_insert_user; eapply validate_username_again; eassumption
        | apply sv_insert_recipe;
          [ eapply validate_recipe_title_again; eassumption
          | eapply validate_instructions_again; eassumption
          | eapply prep_time_arg_range; eassumption ]
        | apply sv_update_recipe_row;
          [ eapply validate_recipe_title_again; eassumption
          | eapply validate_instructions_again; eassumption
          | eapply prep_time_arg_range; eassumption ]
        | apply sv_insert_ingredient;
          eapply validate_ingredient_again; eassumption
        | frame_statement ].

Ltac sv_method := sv_split; try sv_statement.

Lemma sv_add_category name : preserves stored_valid (add_category name).
Proof.
  unfold add_category. apply preserves_try_except; [|intro; apply preserves_ret].
  destruct (Py.falsy name || Py.falsy (Py.strip name)) eqn:E;
    [apply preserves_raise|].
  apply orb_false_elim in E. destruct E as [_ E].
  sv_split; try frame_statement. now apply sv_insert_category.
Qed.

Lemma sv_run_op now o st : stored_valid st -> stored_valid (run_op now o st).
Proof.
  revert st.
  destruct o; cbn [run_op];
    match goal with
    | |- forall st, stored_valid st -> stored_valid (snd (?c st)) =>
        change (preserves stored_valid c)
    end.
  - unfold register_user. sv_method.
  - unfold login_user. sv_method.
  - apply sv_add_category.
  - unfold add_recipe, add_recipe_category, add_ingredient, log_recipe_event.
    sv_method.
  - unfold update_recipe, update_recipe_category, add_ingredient,
      log_recipe_event. sv_method.
  - unfold delete_recipe, get_recipe, log_recipe_event. sv_method.
  - unfold get_recipe. sv_method.
  - unfold increment_view, log_recipe_event. sv_method.
  - unfold delete_user, delete_recipe, get_recipe, log_recipe_event.
    sv_method.
Qed.

Lemma sv_run_ops (ops : list (Z * op)) (st : db) :
  stored_valid st -> stored_valid (run_ops ops st).
Proof.
  revert st. induction ops as [|[now o] ops IH]; intros st H; cbn [run_ops].
  - exact H.
  - apply IH. now apply sv_run_op.
Qed.

(** Property X16. After every sequence of operations on a new database in
    which the values sent to the columns fit them, each stored value is one
    its validator returns unchanged: a username of 3 to 50 letters, digits,
    underscores and hyphens; a trimmed title of 1 to 200 characters; trimmed
    instructions that are not empty; a trimmed ingredient name of 1 to 100
    characters with a trimmed quantity of at most 50. The names of the
    categories are trimmed and not empty and a preparation time lies between
    0 and 1440. *)
Theorem stored_valid_maintained (ops : list (Z * op)) :
  Forall (fun x => op_fits (snd x)) ops ->
  stored_valid (run_ops ops empty_db).
Proof.
  intros _. apply sv_run_ops. repeat split; constructor.
Qed.
(** *** Creating a recipe and deleting it again *)

Lemma user_count_back (created_by : string) (l : list user_row) :
  map (fun u => if sql_eq (u_username u) created_by
                then user_count_add (-1) u else u)
    (map (fun u => if sql_eq (u_username u) created_by
                   then user_count_add 1 u else u) l) = l.
Proof.
  rewrite map_map. rewrite <- (map_id l) at 2. apply map_ext. intro u.
  destruct (sql_eq (u_username u) created_by) eqn:E; [|now rewrite E].
  cbn [user_count_add u_username]. rewrite E. destruct u as [a b c d e f g].
  unfold user_count_add. cbn. f_equal. lia.
Qed.

(** Property X17. [add_recipe] with valid fields, instructions and an
    author that fit their columns, and then [delete_recipe] of the id
    returned: [add_recipe] adds 1 to the recipe_count of the users of the
    name of the author, the deletion succeeds, the table of users is then
    as it was before the recipe was added, counts included, and
    [get_recipe] no longer returns the recipe. The row of the recipe and
    its ingredients are still stored. *)
Theorem add_recipe_then_delete_recipe (now1 now2 : Z)
    (title instructions created_by acting : string)
    (category_ids : option (list Z))
    (ingredients : option (list (string * string))) (prep_time : Z)
    (st : db) (t i : string) (p : Z) :
  Validator.validate_recipe_title title = Ok t ->
  Validator.validate_instructions instructions = Ok i ->
  prep_time_arg prep_time = Ok p ->
  fits_text i = true ->
  fits_varchar created_by = true ->
  db_wf st ->
  let rid := Z.pos (next_recipe_id st) in
  let st1 := snd (add_recipe now1 title instructions created_by category_ids
                    ingredients prep_time st) in
  let out := delete_recipe now2 rid acting st1 in
  fst out = Ok true /\
  map u_recipe_count (users st1)
  = map (fun u => if sql_eq (u_username u) created_by
                  then u_recipe_count u + 1 else u_recipe_count u)
      (users st) /\
  users (snd out) = users st /\
  recipes (snd out)
  = recipes st
    ++ [mk_recipe rid t i 0 p created_by now1 (Some now2) Deleted] /\
  ingredients_of rid (snd out) = validated_pairs (pairs_given ingredients) /\
  get_recipe rid (snd out) = (Ok None, snd out).
Proof.
  intros Ht Hi Hp _ _ Hwf rid st1 out.
  destruct (add_recipe_effect now1 title instructions created_by category_ids
              ingredients prep_time st t i p Ht Hi Hp Hwf)
    as (_ & Hr & Hg & Hu).
  cbv zeta in Hr, Hg, Hu. fold rid st1 in Hr, Hg, Hu.
  destruct (wf_fresh_links st Hwf) as (_ & _ & Hn). fold rid in Hn.
  assert (Hf : find (fun r => (r_id r =? rid)
                              && status_eqb (r_status r) Active)
                 (recipes st1)
               = Some (mk_recipe rid t i 0 p created_by now1 None Active)).
  { rewrite Hr. rewrite find_app_none by (apply find_none_and; exact Hn).
    cbn [find r_id r_status status_eqb]. now rewrite Z.eqb_refl. }
  assert (Hout : out = delete_recipe now2 rid acting st1) by reflexivity.
  rewrite delete_recipe_run, Hf in Hout. cbn [r_created_by] in Hout.
  rewrite Hout. cbn [fst snd users recipes].
  split; [reflexivity|].
  split.
  { rewrite Hu, map_map. apply map_ext. intro u.
    now destruct (sql_eq (u_username u) created_by). }
  split; [rewrite Hu; apply user_count_back|].
  split.
  - rewrite Hr, map_app.
    rewrite (map_if_none
               (fun x => (r_id x =? rid) && status_eqb (r_status x) Active)
               (recipe_deleted now2) (recipes st)).
    + cbn [map r_id r_status status_eqb]. rewrite Z.eqb_refl. reflexivity.
    + now apply existsb_and_false.
  - split; [exact Hg|]. rewrite get_recipe_run. cbn [recipes].
    now rewrite find_active_deleted.
Qed.
(** *** The count of a user against the recipes *)

Lemma filter_length_map_if {A} (q p : A -> bool) (g : A -> A) (l : list A) :
  (forall x, q (g x) = q x) ->
  List.length (filter q (map (fun x => if p x then g x else x) l))
  = List.length (filter q l).
Proof.
  intro H. induction l as [|x l IH]; cbn [map filter]; [reflexivity|].
  replace (q (if p x then g x else x)) with (q x)
    by (destruct (p x); [now rewrite H | reflexivity]).
  destruct (q x); cbn [List.length]; now rewrite IH.
Qed.

Lemma filter_length_none {A} (q : A -> bool) (l : list A) :
  (forall x, In x l -> q x = false) -> List.length (filter q l) = 0%nat.
Proof.
  induction l as [|x l IH]; intro H; cbn [filter]; [reflexivity|].
  rewrite (H x (or_introl eq_refl)). apply IH.
  intros y Hy. apply H. now right.
Qed.

Lemma NoDup_snoc {A} (l : list A) (x : A) :
  NoDup l -> ~ In x l -> NoDup (l ++ [x]).
Proof.
  induction l as [|y l IH]; intros Hl Hx; cbn [app].
  - constructor; [intros [] | constructor].
  - inversion Hl as [|? ? Hy Hl']; subst. constructor.
    + intro Hin. apply in_app_or in Hin. destruct Hin as [Hin|[->|[]]].
      * now apply Hy.
      * apply Hx. now left.
    + apply IH; [exact Hl'|]. intro Hin. apply Hx. now right.
Qed.

Lemma existsb_filter_keep {A} (q keep : A -> bool) (l : list A) :
  (forall x, In x l -> q x = true -> keep x = true) ->
  existsb q l = true -> existsb q (filter keep l) = true.
Proof.
  intros Hk H. apply existsb_exists in H. destruct H as (x & Hin & Hq).
  apply existsb_exists. exists x. split; [|exact Hq].
  apply filter_In. split; [exact Hin | now apply Hk].
Qed.

(** A statement that rewrites rows of [recipes] and keeps id, status and
    author. *)
Lemma uc_map_recipes (st : db) (p : recipe_row -> bool)
    (g : recipe_row -> recipe_row) :
  (forall r, r_id (g r) = r_id r) ->
  (forall r, r_status (g r) = r_status r) ->
  (forall r, r_created_by (g r) = r_created_by r) ->
  user_counts_ok st ->
  user_counts_ok
    (set_recipes st (map (fun r => if p r then g r else r) (recipes st))).
Proof.
  intros Hi Hs Ha (H1 & H2 & H3 & H4). unfold user_counts_ok.
  cbn [set_recipes recipes users next_recipe_id].
  repeat split.
  - rewrite map_map.
    replace (map (fun r => r_id (if p r then g r else r)) (recipes st))
      with (map r_id (recipes st)); [exact H1|].
    apply map_ext. intro r. destruct (p r); [now rewrite Hi | reflexivity].
  - apply Forall_map. eapply Forall_impl; [|exact H2].
    intros r Hr. cbv beta. destruct (p r); [rewrite Hi|]; exact Hr.
  - apply Forall_map. eapply Forall_impl; [|exact H3].
    intros r Hr. cbv beta. destruct (p r); [rewrite Hs, Ha|]; exact Hr.
  - eapply Forall_impl; [|exact H4].
    intros u Hu. cbv beta. rewrite Hu. unfold active_recipes_of.
    cbn [recipes]. f_equal. symmetry. apply filter_length_map_if.
    intro r. now rewrite Hs, Ha.
Qed.

(** A statement that rewrites rows of [users] and keeps username and
    count. *)
Lemma uc_map_users (st : db) (p : user_row -> bool)
    (h : user_row -> user_row) :
  (forall u, u_username (h u) = u_username u) ->
  (forall u, u_recipe_count (h u) = u_recipe_count u) ->
  user_counts_ok st ->
  user_counts_ok
    (set_users st (map (fun u => if p u then h u else u) (users st))).
Proof.
  intros Hn Hc (H1 & H2 & H3 & H4). unfold user_counts_ok.
  cbn [set_users recipes users next_recipe_id].
  repeat split; try assumption.
  - eapply Forall_impl; [|exact H3].
    intros r Hr Hact. cbv beta in *.
    rewrite existsb_map_if; [now apply Hr|].
    intro u. now rewrite Hn.
  - apply Forall_map. eapply Forall_impl; [|exact H4].
    intros u Hu. cbv beta in *. unfold active_recipes_of in *.
    cbn [recipes]. destruct (p u); [rewrite Hn, Hc|]; exact Hu.
Qed.

Lemma uc_update_last_login now u :
  preserves user_counts_ok (update_last_login now u).
Proof.
  intros st H.
  apply (uc_map_users st (fun x => sql_eq (u_username x) u)
           (user_logged_in now)); [reflexivity | reflexivity | exact H].
Qed.

Lemma uc_update_recipe_row now t i p rid :
  preserves user_counts_ok (update_recipe_row now t i p rid).
Proof.
  intros st H.
  apply (uc_map_recipes st (fun r => r_id r =? rid) (recipe_edited now t i p));
    [reflexivity | reflexivity | reflexivity | exact H].
Qed.

Lemma uc_increment_recipe_views now rid :
  preserves user_counts_ok (increment_recipe_views now rid).
Proof.
  intros st H.
  apply (uc_map_recipes st (fun r => r_id r =? rid) (recipe_viewed now));
    [reflexivity | reflexivity | reflexivity | exact H].
Qed.

Ltac uc_statement :=
  first [ apply uc_update_last_login | apply uc_update_recipe_row
        | apply uc_increment_recipe_views | frame_statement ].

Ltac uc_method := split_method; try uc_statement.

(** The first three statements of [add_recipe], for an author that
    exists. *)
Lemma uc_recipe_created now t i created_by p (st : db) :
  existsb (fun u => sql_eq (u_username u) created_by) (users st) = true ->
  user_counts_ok st ->
  user_counts_ok (recipe_created now t i created_by p st).
Proof.
  intros Hreg (H1 & H2 & H3 & H4). unfold user_counts_ok, recipe_created.
  cbn [recipes users next_recipe_id].
  assert (Hex : forall a,
            existsb (fun u => sql_eq (u_username u) a)
              (map (fun u => if sql_eq (u_username u) created_by
                             then user_count_add 1 u else u) (users st))
            = existsb (fun u => sql_eq (u_username u) a) (users st)).
  { intro a. apply existsb_map_if. reflexivity. }
  repeat split.
  - rewrite map_app. cbn [map r_id]. apply NoDup_snoc; [exact H1|].
    intro Hin. apply in_map_iff in Hin. destruct Hin as (r & Hr & Hin).
    rewrite Forall_forall in H2. specialize (H2 r Hin). lia.
  - apply Forall_app. split.
    + eapply Forall_impl; [|exact H2]. intros r Hr. cbv beta in *. lia.
    + constructor; [cbn [r_id]; lia | constructor].
  - apply Forall_app. split.
    + eapply Forall_impl; [|exact H3]. intros r Hr Hact. cbv beta.
      rewrite Hex. now apply Hr.
    + constructor; [|constructor]. intros _. cbn [r_created_by].
      now rewrite Hex.
  - apply Forall_map. eapply Forall_impl; [|exact H4].
    intros u Hu. cbv beta in *. unfold active_recipes_of in *.
    cbn [recipes]. rewrite filter_app, length_app.
    cbn [filter r_status r_created_by status_eqb andb].
    destruct (sql_eq (u_username u) created_by) eqn:E.
    + cbn [user_count_add u_username u_recipe_count]. rewrite E.
      cbn [List.length]. lia.
    + rewrite E. cbn [List.length]. lia.
Qed.

Lemma uc_add_recipe now t i created_by cs ings p (st : db) :
  existsb (fun u => sql_eq (u_username u) created_by) (users st) = true ->
  user_counts_ok st ->
  user_counts_ok (snd (add_recipe now t i created_by cs ings p st)).
Proof.
  intros Hreg H.
  destruct (Validator.validate_recipe_title t) as [t'|e] eqn:Ht.
  2:{ rewrite add_recipe_invalid; [exact H|]. left. now exists e. }
  destruct (Validator.validate_instructions i) as [i'|e] eqn:Hi.
  2:{ rewrite add_recipe_invalid; [exact H|]. right. left. now exists e. }
  destruct (prep_time_arg p) as [p'|e] eqn:Hp.
  2:{ rewrite add_recipe_invalid; [exact H|]. right. right. now exists e. }
  rewrite (add_recipe_run now t i created_by cs ings p st t' i' p' Ht Hi Hp).
  cbn [snd].
  apply (preserves_fold user_counts_ok).
  { intro x. unfold add_ingredient. uc_method. }
  apply (preserves_fold user_counts_ok).
  { intro c. unfold add_recipe_category. uc_method. }
  now apply uc_recipe_created.
Qed.

(** What marking the one active recipe of an id as deleted does to the
    number of active recipes of a name. *)
Lemma active_after_delete (now rid : Z) (name : string)
    (l : list recipe_row) (r : recipe_row) :
  NoDup (map r_id l) ->
  find (fun x => (r_id x =? rid) && status_eqb (r_status x) Active) l
  = Some r ->
  Z.of_nat
    (List.length
       (filter (fun x => status_eqb (r_status x) Active
                         && sql_eq name (r_created_by x))
          (map (fun x => if (r_id x =? rid) && status_eqb (r_status x) Active
                         then recipe_deleted now x else x) l)))
  = Z.of_nat
      (List.length
         (filter (fun x => status_eqb (r_status x) Active
                           && sql_eq name (r_created_by x)) l))
    - (if sql_eq name (r_created_by r) then 1 else 0).
Proof.
  induction l as [|x l IH]; intros Hnd Hf; [discriminate|].
  cbn [map] in Hnd. inversion Hnd as [|? ? Hx Hnd']; subst.
  cbn [find map filter] in *.
  destruct ((r_id x =? rid) && status_eqb (r_status x) Active) eqn:E.
  - injection Hf as <-. apply andb_prop in E. destruct E as [Ei Es].
    apply Z.eqb_eq in Ei.
    rewrite (map_if_none
               (fun y => (r_id y =? rid) && status_eqb (r_status y) Active)
               (recipe_deleted now) l).
    2:{ apply existsb_and_false.
        destruct (existsb (fun y => r_id y =? rid) l) eqn:Ex; [|reflexivity].
        apply existsb_exists in Ex. destruct Ex as (y & Hy & Hid).
        apply Z.eqb_eq in Hid. exfalso. apply Hx. apply in_map_iff.
        exists y. split; [congruence | exact Hy]. }
    cbn [recipe_deleted r_status r_created_by status_eqb andb].
    rewrite Es. cbn [andb].
    destruct (sql_eq name (r_created_by x)); cbn [List.length]; lia.
  - specialize (IH Hnd' Hf). 
    destruct (status_eqb (r_status x) Active && sql_eq name (r_created_by x));
      cbn [List.length]; lia.
Qed.

Lemma uc_delete_recipe now rid username :
  preserves user_counts_ok (delete_recipe now rid username).
Proof.
  intros st (H1 & H2 & H3 & H4). rewrite delete_recipe_run.
  destruct (find _ (recipes st)) as [r|] eqn:Hf;
    [|repeat split; assumption].
  unfold user_counts_ok. cbn [snd recipes users next_recipe_id].
  repeat split.
  - rewrite map_map.
    replace (map (fun x => r_id (if (r_id x =? rid)
                                    && status_eqb (r_status x) Active
                                 then recipe_deleted now x else x))
               (recipes st))
      with (map r_id (recipes st)); [exact H1|].
    apply map_ext. intro x. now destruct (_ && _).
  - apply Forall_map. eapply Forall_impl; [|exact H2].
    intros x Hx. cbv beta. now destruct (_ && _).
  - apply Forall_map. eapply Forall_impl; [|exact H3].
    intros x Hx. cbv beta in *.
    destruct ((r_id x =? rid) && status_eqb (r_status x) Active);
      [discriminate|].
    intro Hact. rewrite existsb_map_if; [now apply Hx|]. reflexivity.
  - apply Forall_map. eapply Forall_impl; [|exact H4].
    intros u Hu. cbv beta in *. unfold active_recipes_of in *.
    cbn [recipes].
    replace (u_username (if sql_eq (u_username u) (r_created_by r)
                         then user_count_add (-1) u else u))
      with (u_username u) by now destruct (sql_eq _ _).
    rewrite (active_after_delete now rid (u_username u) (recipes st) r H1 Hf).
    destruct (sql_eq (u_username u) (r_created_by r));
      cbn [user_count_add u_recipe_count]; lia.
Qed.

Section UserCounts.

Hypothesis sql_eq_sym : forall a b, sql_eq a b = sql_eq b a.

Hypothesis sql_eq_trans :
  forall a b c, sql_eq a b = true -> sql_eq b c = true -> sql_eq a c = true.

Lemma uc_register_user now username password r :
  preserves user_counts_ok (register_user now username password r).
Proof.
  intros st (H1 & H2 & H3 & H4). rewrite register_user_run.
  destruct (Validator.validate_username username) as [u|e];
    [|repeat split; assumption].
  destruct (Validator.validate_password password) as [p|e];
    [|repeat split; assumption].
  destruct (existsb _ (users st)) eqn:Hnew; [repeat split; assumption|].
  unfold user_counts_ok. cbn [snd recipes users next_recipe_id].
  repeat split; try assumption.
  - eapply Forall_impl; [|exact H3]. intros x Hx Hact. cbv beta in *.
    rewrite existsb_app, (Hx Hact). reflexivity.
  - apply Forall_app. split; [exact H4|].
    constructor; [|constructor].
    cbn [u_recipe_count u_username]. unfold active_recipes_of.
    rewrite filter_length_none; [reflexivity|].
    intros x Hin. cbv beta.
    destruct (status_eqb (r_status x) Active) eqn:Es; [|reflexivity].
    cbn [andb]. destruct (sql_eq u (r_created_by x)) eqn:Eu; [|reflexivity].
    exfalso. rewrite Forall_forall in H3.
    assert (Hact : r_status x = Active) by (now destruct (r_status x)).
    specialize (H3 x Hin Hact). apply existsb_exists in H3.
    destruct H3 as (u0 & Hu0 & Hm).
    assert (Hc : existsb (fun y => sql_eq (u_username y) u) (users st)
                 = true).
    { apply existsb_exists. exists u0. split; [exact Hu0|].
      apply (sql_eq_trans _ (r_created_by x)); [exact Hm|].
      now rewrite sql_eq_sym. }
    congruence.
Qed.

Lemma uc_delete_user now acting username :
  preserves user_counts_ok (delete_user now acting username).
Proof.
  intros st H.
  destruct (String.eqb username acting) eqn:He.
  { unfold delete_user. rewrite He. exact H. }
  destruct (delete_user_run now acting username st He)
    as (Hout & _ & _ & Hd).
  cbv zeta in Hout, Hd. rewrite Hout. cbn [snd].
  set (st' := fold_left _ _ st) in *.
  assert (H' : user_counts_ok st').
  { subst st'. apply (preserves_fold user_counts_ok); [|exact H].
    intro x. apply preserves_bind; [apply uc_delete_recipe|].
    intro. apply preserves_ret. }
  destruct H' as (H1 & H2 & H3 & H4).
  unfold user_counts_ok. cbn [set_users recipes users next_recipe_id].
  repeat split; try assumption.
  - apply Forall_forall. intros x Hin Hact.
    rewrite Forall_forall in H3. specialize (H3 x Hin Hact).
    apply existsb_filter_keep; [|exact H3].
    intros u0 Hu0 Hm. destruct (sql_eq (u_username u0) username) eqn:E;
      [|reflexivity].
    exfalso.
    assert (Ha : sql_eq (r_created_by x) username = true).
    { apply (sql_eq_trans _ (u_username u0)); [|exact E].
      now rewrite sql_eq_sym. }
    rewrite (Hd x Hin Ha) in Hact. discriminate.
  - apply Forall_filter. exact H4.
Qed.

Lemma uc_run_op now o st :
  user_counts_ok st -> author_registered o st ->
  user_counts_ok (run_op now o st).
Proof.
  destruct o; cbn [run_op author_registered]; intros H Hreg.
  - now apply uc_register_user.
  - revert st H Hreg.
    match goal with
    | |- forall st, user_counts_ok st -> _ -> user_counts_ok (snd (?c st)) =>
        intros st H _; revert st H; change (preserves user_counts_ok c)
    end.
    unfold login_user. uc_method.
  - revert st H Hreg.
    match goal with
    | |- forall st, user_counts_ok st -> _ -> user_counts_ok (snd (?c st)) =>
        intros st H _; revert st H; change (preserves user_counts_ok c)
    end.
    unfold add_category. uc_method.
  - now apply uc_add_recipe.
  - revert st H Hreg.
    match goal with
    | |- forall st, user_counts_ok st -> _ -> user_counts_ok (snd (?c st)) =>
        intros st H _; revert st H; change (preserves user_counts_ok c)
    end.
    unfold update_recipe, update_recipe_category, add_ingredient,
      log_recipe_event. uc_method.
  - now apply uc_delete_recipe.
  - revert st H Hreg.
    match goal with
    | |- forall st, user_counts_ok st -> _ -> user_counts_ok (snd (?c st)) =>
        intros st H _; revert st H; change (preserves user_counts_ok c)
    end.
    unfold get_recipe. uc_method.
  - revert st H Hreg.
    match goal with
    | |- forall st, user_counts_ok st -> _ -> user_counts_ok (snd (?c st)) =>
        intros st H _; revert st H; change (preserves user_counts_ok c)
    end.
    unfold increment_view, log_recipe_event. uc_method.
  - now apply uc_delete_user.
Qed.

(** Property X18. The recipe_count of the users is maintained, unlike
    that of the categories. Take a state in which recipe ids are distinct,
    every active recipe has an author in [users] and every user stores the
    number of their active recipes; the empty database is one. After any
    sequence of operations in which recipes are added under the name of a
    user that exists at that time, the state is again of this kind: every
    user stores the number of their active recipes. The comparison of the
    collation is assumed symmetric and transitive. *)
Theorem user_counts_maintained (ops : list (Z * op)) (st : db) :
  user_counts_ok st ->
  authors_registered ops st ->
  user_counts_ok (run_ops ops st).
Proof.
  revert st. induction ops as [|[now o] ops IH]; intros st H Hreg;
    cbn [run_ops authors_registered] in *.
  - exact H.
  - destruct Hreg as [Ho Hl]. apply IH; [|exact Hl].
    now apply uc_run_op.
Qed.

End UserCounts.

End Store.

(** ** The category counts *)

(** Claim C2.  After a recipe is created in a category the count of the
    category is the number of its active recipes.  [delete_recipe] and
    [update_recipe] do not write to [categories]: after the recipe is
    deleted, or after its links are replaced by none, the count is still 1
    while no active recipe is linked. *)
Theorem category_count_not_maintained :
  let st := cake_store String.eqb example_digest in
  let deleted := run_op String.eqb example_digest 4
                   (OpDeleteRecipe 1 "bob") st in
  let unlinked := run_op String.eqb example_digest 4
                    (OpUpdateRecipe 1 "Cake" "Mix and bake" (Some []) None 45)
                    st in
  category_counts_ok st = true /\
  map c_recipe_count (categories st) = [1] /\
  fst (delete_recipe String.eqb 4 1 "bob" st) = Ok true /\
  map c_recipe_count (categories deleted) = [1] /\
  active_links 1 deleted = 0 /\
  category_counts_ok deleted = false /\
  fst (update_recipe 4 1 "Cake" "Mix and bake" (Some []) None 45 st)
    = Ok true /\
  map c_recipe_count (categories unlinked) = [1] /\
  active_links 1 unlinked = 0 /\
  category_counts_ok unlinked = false.
Proof. vm_compute. repeat split. Qed.

(** ** Concrete runs *)

(** Claim C1 as stated fails: the only ingredient pair is invalid, and
    [add_recipe] does not raise; it returns the id 1 of a recipe that
    [get_recipe] reads. *)
Lemma add_recipe_no_ingredient_check :
  let out := add_recipe String.eqb 1 "Cake" "Mix and bake" "bob" None
               (Some [(" ", "1 cup")]) 45 empty_db in
  Validator.validate_ingredient " " "1 cup"
    = Raise (ValidationError "Ingredient name cannot be empty") /\
  fst out = Ok 1 /\
  fst (get_recipe 1 (snd out))
    = Ok (Some (mk_data (mk_meta 1 "Cake" "Mix and bake" 0 "bob" 1 45) [] []))
  /\ ~ ((exists msg, fst out = Raise (ValidationError msg))
        /\ fst (get_recipe 1 (snd out)) = Ok None).
Proof.
  vm_compute. repeat split. intros [[msg H] _]. discriminate H.
Qed.

(** Claim C5 as stated fails: the second registration returns [True],
    which Python counts as 1, and the id of the new row is 2. *)
Lemma register_user_returns_true :
  let st := snd (register_user String.eqb example_digest 1 "alice" "secret1"
                   RoleUser empty_db) in
  let out := register_user String.eqb example_digest 2 "bob" "secret2"
               RoleAdmin st in
  fst out = Ok true /\
  map (fun u => (u_id u, u_username u)) (users (snd out))
    = [(1, "alice"); (2, "bob")] /\
  ~ (exists b, fst out = Ok b /\ Z.b2z b = 2).
Proof.
  vm_compute. repeat split. intros [b [H1 H2]].
  injection H1 as <-. discriminate H2.
Qed.

(** Claim C6 as stated fails: U+00E9 is outside [A-Za-z0-9_-] and the
    validator returns the username. *)
Lemma validate_username_accepts_latin1 :
  let raw := String (ascii_of_nat 233) "ric" in
  Validator.validate_username raw = Ok raw /\
  Py.strip raw = raw /\
  Py.all spec_username_class (Py.strip raw) = false /\
  ~ (Validator.validate_username raw = Ok (Py.strip raw) ->
     Py.all spec_username_class (Py.strip raw) = true).
Proof.
  vm_compute. repeat split. intro H. specialize (H eq_refl). discriminate H.
Qed.

(** Claim C7 as stated fails: no category has the trimmed name, and for a
    blank name nothing is inserted and [None] is returned, not an id. *)
Lemma add_category_blank_name :
  let out := add_category String.eqb "   " empty_db in
  out = (Ok None, empty_db) /\
  categories (snd out) = [] /\
  ~ (exists id, fst out = Ok (Some id)).
Proof.
  vm_compute. repeat split. intros [id H]. discriminate H.
Qed.

(** Claim C10 as stated fails: no recipe has the id 7, the update returns
    [True] and no event is appended. *)
Lemma update_recipe_missing_no_event :
  let st := cake_store String.eqb example_digest in
  let out := update_recipe 4 7 "Pie" "Roll and bake" (Some [1])
               (Some [("apple", "3")]) 30 st in
  recipe_exists 7 st = false /\
  out = (Ok true, st) /\
  ~ (exists e, recipe_events (snd out) = recipe_events st ++ [e]).
Proof.
  vm_compute. repeat split. intros [e H]. discriminate H.
Qed.

(** ** The theorems at concrete inputs *)

Lemma dessert_store_wf : db_wf (dessert_store String.eqb example_digest).
Proof.
  apply (reachable_wf String.eqb example_digest).
  unfold dessert_store. repeat constructor.
Qed.

Lemma add_category_idempotent_witness :
  (forall s, String.eqb s s = true) /\
  fits_varchar (Py.strip " Dessert ") = true /\
  add_category String.eqb " Dessert " empty_db
  = (Ok (Some 1),
     mk_db [] [] [mk_category 1 "Dessert" 0] [] [] [] [] 1%positive
       1%positive 2%positive) /\
  add_category String.eqb " Dessert "
    (snd (add_category String.eqb " Dessert " empty_db))
  = add_category String.eqb " Dessert " empty_db.
Proof.
  split; [exact String.eqb_refl|]. split; [reflexivity|].
  exact (add_category_idempotent String.eqb String.eqb_refl
           " Dessert " empty_db eq_refl).
Defined.

Lemma register_user_spec_witness :
  Validator.validate_username " bob " = Ok "bob" /\
  Validator.validate_password "secret1" = Ok "secret1" /\
  register_user String.eqb example_digest 1 " bob " "secret1" RoleUser
    empty_db
  = (Ok true,
     mk_db [mk_user 1 "bob" (example_digest "secret1") RoleUser 1 None 0]
       [] [] [] [] [] [] 2%positive 1%positive 1%positive).
Proof.
  split; [reflexivity|]. split; [reflexivity|].
  exact (register_user_spec String.eqb example_digest 1 " bob " "secret1"
           RoleUser empty_db "bob" "secret1" eq_refl eq_refl).
Defined.


Lemma add_recipe_continue_on_error_witness :
  let st := dessert_store String.eqb example_digest in
  let out := add_recipe String.eqb 3 "Cake" "Mix and bake" "bob"
               (Some [1; 9]) (Some [("flour", "2 cups"); (" ", "1 cup")]) 45
               st in
  fits_text "Mix and bake" = true /\
  fits_varchar "bob" = true /\
  db_wf st /\
  category_exists 1 st = true /\
  category_exists 9 st = false /\
  fst out = Ok 1 /\
  recipe_categories (snd out) = [mk_link 1 1] /\
  map c_recipe_count (categories (snd out)) = [1] /\
  recipe_ingredients (snd out) = [mk_ingredient 1 "flour" "2 cups"].
Proof.
  split; [reflexivity|]. split; [reflexivity|].
  split; [exact dessert_store_wf|].
  split; [reflexivity|]. split; [reflexivity|].
  destruct (add_recipe_continue_on_error String.eqb 3 "Cake" "Mix and bake"
              "bob" 45 (dessert_store String.eqb example_digest)
              "Cake" "Mix and bake" 45 1 9 [1; 9]
              ("flour", "2 cups") (" ", "1 cup")
              [("flour", "2 cups"); (" ", "1 cup")] "flour" "2 cups"
              (ValidationError "Ingredient name cannot be empty")
              eq_refl eq_refl eq_refl eq_refl eq_refl dessert_store_wf
              eq_refl eq_refl
              (or_introl eq_refl) eq_refl eq_refl (or_introl eq_refl))
    as (H1 & _ & H3 & _ & H5 & H6 & _).
  split; [exact H1|]. split; [exact H3|].
  split; [rewrite H5; reflexivity | exact H6].
Defined.

Lemma add_recipe_without_ingredients_witness :
  let st := dessert_store String.eqb example_digest in
  let out := add_recipe String.eqb 3 "Cake" "Mix and bake" "bob"
               (Some [1]) (Some [(" ", "1 cup")]) 45 st in
  fits_text "Mix and bake" = true /\
  fits_varchar "bob" = true /\
  db_wf st /\
  Forall (fun x => exists e,
            Validator.validate_ingredient (fst x) (snd x) = Raise e)
    [(" ", "1 cup")] /\
  fst out = Ok 1 /\
  exists d,
    get_recipe 1 (snd out) = (Ok (Some d), snd out) /\
    meta d = mk_meta 1 "Cake" "Mix and bake" 0 "bob" 3 45 /\
    data_ingredients d = [].
Proof.
  assert (Hbad : Forall (fun x => exists e,
                    Validator.validate_ingredient (fst x) (snd x) = Raise e)
                   [(" ", "1 cup")]).
  { constructor; [|constructor]. eexists. reflexivity. }
  split; [reflexivity|]. split; [reflexivity|].
  split; [exact dessert_store_wf|]. split; [exact Hbad|].
  exact (add_recipe_without_ingredients String.eqb 3 "Cake" "Mix and bake"
           "bob" (Some [1]) (Some [(" ", "1 cup")]) 45
           (dessert_store String.eqb example_digest) "Cake" "Mix and bake" 45
           eq_refl eq_refl eq_refl eq_refl eq_refl dessert_store_wf Hbad).
Defined.

Lemma update_recipe_no_target_check_witness :
  let st := snd (delete_recipe String.eqb 4 1 "bob"
                   (cake_store String.eqb example_digest)) in
  let out := update_recipe 5 1 " Pie " "Roll and bake" None None 30 st in
  Validator.validate_recipe_title " Pie " = Ok "Pie" /\
  Validator.validate_instructions "Roll and bake" = Ok "Roll and bake" /\
  prep_time_arg 30 = Ok 30 /\
  fits_text "Roll and bake" = true /\
  map r_status (recipes st) = [Deleted] /\
  fst out = Ok true /\
  map r_title (recipes (snd out)) = ["Pie"] /\
  recipe_events (snd out)
  = recipe_events st ++ [mk_event (Some 1) "user" EvEdit 5].
Proof.
  split; [reflexivity|]. split; [reflexivity|]. split; [reflexivity|].
  split; [reflexivity|]. split; [reflexivity|].
  destruct (update_recipe_no_target_check 5 1 " Pie " "Roll and bake" None
              None 30
              (snd (delete_recipe String.eqb 4 1 "bob"
                      (cake_store String.eqb example_digest)))
              "Pie" "Roll and bake" 30 eq_refl eq_refl eq_refl eq_refl)
    as (H1 & H2 & H3).
  split; [exact H1|]. split; [rewrite H2; reflexivity | exact H3].
Defined.

Lemma recipe_status_and_views_monotone_witness :
  let st := run_ops String.eqb example_digest
              [(4, OpIncrementView 1 "alice"); (5, OpDeleteRecipe 1 "bob")]
              (cake_store String.eqb example_digest) in
  let ops := [(6, OpUpdateRecipe 1 "Pie" "Roll" None None 30);
              (7, OpIncrementView 1 "alice");
              (8, OpAddRecipe "Tart" "Bake" "bob" None None 20);
              (9, OpDeleteRecipe 1 "bob")] in
  let st' := run_ops String.eqb example_digest ops st in
  nth_error (recipes st) 0
  = Some (mk_recipe 1 "Cake" "Mix and bake" 1 45 "bob" 3 (Some 5) Deleted) /\
  (exists r',
      nth_error (recipes st') 0 = Some r' /\
      r_id r' = 1 /\ r_status r' = Deleted /\ 1 <= r_views r') /\
  map r_status (recipes st') = [Deleted; Active] /\
  map r_views (recipes st') = [2; 0].
Proof.
  split; [reflexivity|]. split; [|split; reflexivity].
  destruct (recipe_status_and_views_monotone String.eqb example_digest
              [(6, OpUpdateRecipe 1 "Pie" "Roll" None None 30);
               (7, OpIncrementView 1 "alice");
               (8, OpAddRecipe "Tart" "Bake" "bob" None None 20);
               (9, OpDeleteRecipe 1 "bob")]
              (run_ops String.eqb example_digest
                 [(4, OpIncrementView 1 "alice"); (5, OpDeleteRecipe 1 "bob")]
                 (cake_store String.eqb example_digest)) 0%nat
              (mk_recipe 1 "Cake" "Mix and bake" 1 45 "bob" 3 (Some 5)
                 Deleted)
              eq_refl)
    as (r' & H1 & H2 & H3 & H4).
  exists r'. split; [exact H1|]. split; [exact H2|].
  split; [exact (H3 eq_refl) | exact H4].
Defined.

(** ** The further properties at concrete inputs *)

Lemma dessert_store_reachable :
  reachable String.eqb example_digest (dessert_store String.eqb example_digest).
Proof. unfold dessert_store. repeat constructor. Qed.

Lemma validate_prep_time_str_witness :
  (4300 <= 0 \/ Py.len (Py.str_of_int (Z.abs 45)) <= 4300) /\
  Validator.validate_prep_time 4300 (Py.str_of_int 45) = Ok 45 /\
  prep_time_arg 45 = Ok 45.
Proof.
  assert (H : 4300 <= 0 \/ Py.len (Py.str_of_int (Z.abs 45)) <= 4300).
  { right. vm_compute. discriminate. }
  split; [exact H|].
  destruct (validate_prep_time_str 4300 45 H) as [H1 H2].
  split; [rewrite H1; reflexivity | reflexivity].
Defined.

Lemma register_then_login_witness :
  let st1 := snd (register_user String.eqb example_digest 1 " bob "
                    "secret1" RoleUser empty_db) in
  (forall s, String.eqb s s = true) /\
  Validator.validate_username " bob " = Ok "bob" /\
  Validator.validate_password "secret1" = Ok "secret1" /\
  fst (login_user String.eqb example_digest 2 " bob " "secret1" st1)
  = Ok (Some RoleUser) /\
  map u_last_login
    (users (snd (login_user String.eqb example_digest 2 " bob " "secret1"
                   st1)))
  = [Some 2].
Proof.
  split; [exact String.eqb_refl|]. split; [reflexivity|].
  split; [reflexivity|].
  destruct (register_then_login String.eqb example_digest String.eqb_refl
              1 2 " bob " "secret1" RoleUser empty_db "bob" "secret1"
              eq_refl eq_refl eq_refl) as [_ H].
  cbv zeta in H. rewrite H. split; reflexivity.
Defined.

Lemma add_recipe_then_get_recipe_witness :
  let st := dessert_store String.eqb example_digest in
  let out := add_recipe String.eqb 3 " Cake " "Mix and bake" "bob"
               (Some [1; 9]) (Some [("flour", "2 cups"); (" ", "1 cup")]) 45
               st in
  fits_text "Mix and bake" = true /\
  fits_varchar "bob" = true /\
  db_wf st /\
  fst (get_recipe 1 (snd out))
  = Ok (Some (mk_data (mk_meta 1 "Cake" "Mix and bake" 0 "bob" 3 45)
                [(1, "Dessert")] [("flour", "2 cups")])).
Proof.
  split; [reflexivity|]. split; [reflexivity|].
  split; [exact dessert_store_wf|].
  destruct (add_recipe_then_get_recipe String.eqb 3 " Cake " "Mix and bake"
              "bob" (Some [1; 9])
              (Some [("flour", "2 cups"); (" ", "1 cup")]) 45
              (dessert_store String.eqb example_digest)
              "Cake" "Mix and bake" 45 eq_refl eq_refl eq_refl eq_refl
              eq_refl dessert_store_wf) as [_ H].
  exact (f_equal fst H).
Defined.

Lemma rejected_input_writes_nothing_witness :
  let st := dessert_store String.eqb example_digest in
  (4300 <= 0 \/ Py.len (Py.str_of_int (Z.abs 2000)) <= 4300) /\
  add_recipe String.eqb 3 "Cake" "Mix and bake" "bob" None None 2000 st
  = (Raise (ValidationError
              "Preparation time cannot exceed 24 hours (1440 minutes)"),
     st) /\
  update_recipe 3 1 "Cake" "Mix and bake" None None 2000 st = (Ok false, st).
Proof.
  assert (H : 4300 <= 0 \/ Py.len (Py.str_of_int (Z.abs 2000)) <= 4300).
  { right. vm_compute. discriminate. }
  split; [exact H|].
  exact (proj2 (rejected_input_writes_nothing String.eqb example_digest 4300
                  3 1 "bob" "secret1" "Cake" "Mix and bake" "bob" RoleUser
                  None None 2000 (dessert_store String.eqb example_digest)
                  H)).
Defined.

Lemma update_recipe_replaces_witness :
  let st := cake_store String.eqb example_digest in
  let out := update_recipe 5 1 "Pie" "Roll and bake" (Some [9])
               (Some [("apple", "3"); (" ", "1 cup")]) 30 st in
  fits_text "Roll and bake" = true /\
  recipe_exists 1 st = true /\
  ingredients_of 1 st = [("flour", "2 cups")] /\
  linked 1 1 st = true /\
  fst out = Ok true /\
  ingredients_of 1 (snd out) = [("apple", "3")] /\
  linked 1 1 (snd out) = false.
Proof.
  split; [reflexivity|].
  split; [reflexivity|]. split; [reflexivity|]. split; [reflexivity|].
  destruct (update_recipe_replaces 5 1 "Pie" "Roll and bake" (Some [9])
              (Some [("apple", "3"); (" ", "1 cup")]) 30
              (cake_store String.eqb example_digest)
              "Pie" "Roll and bake" 30 eq_refl eq_refl eq_refl eq_refl
              eq_refl)
    as (H1 & H2 & H3 & _).
  split; [exact H1|]. split; [rewrite H2 | rewrite H3]; reflexivity.
Defined.

Lemma increment_view_missing_recipe_witness :
  let st := dessert_store String.eqb example_digest in
  recipe_exists 7 st = false /\
  increment_view String.eqb 4 7 "bob" st = (Ok tt, st).
Proof.
  split; [reflexivity|].
  exact (increment_view_missing_recipe String.eqb example_digest 4 7 "bob"
           (dessert_store String.eqb example_digest)
           dessert_store_reachable eq_refl).
Defined.

Lemma register_admin_needs_passphrase_witness :
  let st := dessert_store String.eqb example_digest in
  Some "CREATE_ADMIN" <> Some CREATE_ADMIN_PASSPHRASE /\
  snd (register String.eqb example_digest 4 RoleAdmin "mallory" "secret1"
         "secret1" (Some "CREATE_ADMIN") st) = st.
Proof.
  assert (H : Some "CREATE_ADMIN" <> Some CREATE_ADMIN_PASSPHRASE)
    by discriminate.
  split; [exact H|].
  exact (proj1 (register_admin_needs_passphrase String.eqb example_digest 4
                  RoleAdmin "mallory" "secret1" "secret1"
                  (Some "CREATE_ADMIN")
                  (dessert_store String.eqb example_digest) H) eq_refl).
Defined.

Lemma login_dialog_opens_witness :
  let st := dessert_store String.eqb example_digest in
  fst (login String.eqb example_digest 4 RoleUser " bob " "secret1 " st)
  = Ok (LoginOpened "bob" RoleUser) /\
  exists row,
    In row (users st) /\
    String.eqb (u_username row) "bob" = true /\
    u_password_hash row = example_digest "secret1" /\
    u_role row = RoleUser.
Proof.
  split; [reflexivity|].
  exact (proj2 (proj2 (login_dialog_opens String.eqb example_digest 4
                         RoleUser " bob " "secret1 "
                         (dessert_store String.eqb example_digest)
                         "bob" RoleUser eq_refl))).
Defined.

Lemma register_dialog_then_login_witness :
  let out := register String.eqb example_digest 1 RoleAdmin " root "
               "secret1" "secret1" (Some CREATE_ADMIN_PASSPHRASE) empty_db in
  (forall s, String.eqb s s = true) /\
  fst out = Ok RegisterSuccess /\
  fst (login String.eqb example_digest 2 RoleAdmin " root " "secret1"
         (snd out))
  = Ok (LoginOpened "root" RoleAdmin).
Proof.
  split; [exact String.eqb_refl|]. split; [reflexivity|].
  exact (register_dialog_then_login String.eqb example_digest
           String.eqb_refl 1 2 RoleAdmin " root " "secret1" "secret1"
           (Some CREATE_ADMIN_PASSPHRASE) empty_db eq_refl).
Defined.

Lemma save_recipe_all_or_nothing_witness :
  let st := dessert_store String.eqb example_digest in
  let out := save_recipe String.eqb 4300 3 "bob" " Cake " "Mix and bake"
               " 45 " [1] [("flour ", "2 cups"); (" ", "1 cup")] st in
  fits_text (Py.strip "Mix and bake") = true /\
  fits_varchar "bob" = true /\
  db_wf st /\
  fst out = Ok (SaveSuccess "Cake") /\
  recipes (snd out)
  = [mk_recipe 1 "Cake" "Mix and bake" 0 45 "bob" 3 None Active] /\
  ingredients_of 1 (snd out) = [("flour", "2 cups")].
Proof.
  assert (Hf : fst (save_recipe String.eqb 4300 3 "bob" " Cake "
                      "Mix and bake" " 45 " [1]
                      [("flour ", "2 cups"); (" ", "1 cup")]
                      (dessert_store String.eqb example_digest))
               = Ok (SaveSuccess "Cake")) by (vm_compute; reflexivity).
  assert (Hi' : Validator.validate_instructions "Mix and bake"
                = Ok "Mix and bake") by (vm_compute; reflexivity).
  assert (Hp' : Validator.validate_prep_time 4300 " 45 " = Ok 45)
    by (vm_compute; reflexivity).
  assert (Hc' : collect_ingredients [("flour ", "2 cups"); (" ", "1 cup")]
                = Ok [("flour", "2 cups")]) by (vm_compute; reflexivity).
  assert (H := save_recipe_all_or_nothing String.eqb 4300 3 "bob" " Cake "
                 "Mix and bake" " 45 " [1]
                 [("flour ", "2 cups"); (" ", "1 cup")]
                 (dessert_store String.eqb example_digest)
                 eq_refl eq_refl dessert_store_wf).
  cbv zeta in H. rewrite Hf in H.
  destruct H as (i & p & c & _ & Hi & Hp & Hc & _ & Hr & Hg).
  rewrite Hi' in Hi. rewrite Hp' in Hp. rewrite Hc' in Hc.
  injection Hi as <-. injection Hp as <-. injection Hc as <-.
  split; [vm_compute; reflexivity|]. split; [vm_compute; reflexivity|].
  split; [exact dessert_store_wf|]. split; [exact Hf|].
  split; [exact Hr | exact Hg].
Defined.

Lemma save_changes_all_or_nothing_witness :
  let st := cake_store String.eqb example_digest in
  let out := save_changes 4300 5 1 " Pie " "Roll and bake " "30" [9]
               [(" apple", "3 "); (" ", "1 cup"); ("sugar", " 1 ")] st in
  fits_text (Py.strip "Roll and bake ") = true /\
  recipe_exists 1 st = true /\
  ingredients_of 1 st = [("flour", "2 cups")] /\
  linked 1 1 st = true /\
  fst out = Ok (SaveSuccess "Pie") /\
  ingredients_of 1 (snd out) = [("apple", "3"); ("sugar", "1")] /\
  linked 1 1 (snd out) = false /\
  map r_title (recipes (snd out)) = ["Pie"].
Proof.
  assert (Hf : fst (save_changes 4300 5 1 " Pie " "Roll and bake " "30" [9]
                      [(" apple", "3 "); (" ", "1 cup"); ("sugar", " 1 ")]
                      (cake_store String.eqb example_digest))
               = Ok (SaveSuccess "Pie")) by (vm_compute; reflexivity).
  assert (Hc' : collect_ingredients
                  [(" apple", "3 "); (" ", "1 cup"); ("sugar", " 1 ")]
                = Ok [("apple", "3"); ("sugar", "1")])
    by (vm_compute; reflexivity).
  assert (H := save_changes_all_or_nothing 4300 5 1 " Pie " "Roll and bake "
                 "30" [9] [(" apple", "3 "); (" ", "1 cup"); ("sugar", " 1 ")]
                 (cake_store String.eqb example_digest) eq_refl eq_refl).
  cbv zeta in H. rewrite Hf in H.
  destruct H as (c & _ & Hc & _ & Hg & Hl).
  rewrite Hc' in Hc. injection Hc as <-.
  split; [vm_compute; reflexivity|]. split; [vm_compute; reflexivity|].
  split; [vm_compute; reflexivity|]. split; [vm_compute; reflexivity|].
  split; [exact Hf|]. split; [exact Hg|].
  split; [rewrite Hl|]; vm_compute; reflexivity.
Defined.

Lemma view_recipe_window_counts_first_witness :
  let st := snd (delete_recipe String.eqb 4 1 "bob"
                   (cake_store String.eqb example_digest)) in
  let out := view_recipe_window String.eqb 5 1 "alice" st in
  recipe_exists 1 st = true /\
  map r_status (recipes st) = [Deleted] /\
  fst out = Ok None /\
  map r_views (recipes (snd out)) = [1] /\
  recipe_events (snd out)
  = recipe_events st ++ [mk_event (Some 1) "alice" EvView 5].
Proof.
  split; [reflexivity|]. split; [reflexivity|].
  destruct (view_recipe_window_counts_first String.eqb 5 1 "alice"
              (snd (delete_recipe String.eqb 4 1 "bob"
                      (cake_store String.eqb example_digest))) eq_refl)
    as (H1 & H2 & H3).
  split; [exact H3|]. split; [rewrite H1; reflexivity | exact H2].
Defined.

Lemma stored_valid_maintained_witness :
  let ops := [(1, OpAddCategory " Dessert ");
              (2, OpRegisterUser " bob " "secret1" RoleUser);
              (3, OpAddRecipe " Cake " "Mix and bake " "bob" (Some [1])
                    (Some [(" flour ", " 2 cups"); (" ", "1 cup")]) 45);
              (4, OpUpdateRecipe 1 "Pie " " Roll and bake" None None 0);
              (5, OpIncrementView 1 "bob")] in
  let st := run_ops String.eqb example_digest ops empty_db in
  Forall (fun x => op_fits (snd x)) ops /\
  stored_valid st /\
  map c_name (categories st) = ["Dessert"] /\
  map u_username (users st) = ["bob"] /\
  map (fun r => (r_title r, r_instructions r, r_prep_time r)) (recipes st)
  = [("Pie", "Roll and bake", 0)] /\
  map (fun x => (i_ingredient x, i_quantity x)) (recipe_ingredients st)
  = [("flour", "2 cups")].
Proof.
  assert (H : Forall (fun x => op_fits (snd x))
                [(1, OpAddCategory " Dessert ");
                 (2, OpRegisterUser " bob " "secret1" RoleUser);
                 (3, OpAddRecipe " Cake " "Mix and bake " "bob" (Some [1])
                       (Some [(" flour ", " 2 cups"); (" ", "1 cup")]) 45);
                 (4, OpUpdateRecipe 1 "Pie " " Roll and bake" None None 0);
                 (5, OpIncrementView 1 "bob")])
    by (repeat constructor).
  split; [exact H|].
  split; [exact (stored_valid_maintained String.eqb example_digest _ H)|].
  repeat split.
Defined.

Lemma add_recipe_then_delete_recipe_witness :
  let st := dessert_store String.eqb example_digest in
  let st1 := snd (add_recipe String.eqb 3 "Cake" "Mix and bake" "bob"
                    (Some [1]) (Some [("flour", "2 cups")]) 45 st) in
  let out := delete_recipe String.eqb 4 1 "admin" st1 in
  fits_text "Mix and bake" = true /\
  fits_varchar "bob" = true /\
  db_wf st /\
  map u_recipe_count (users st1) = [1] /\
  fst out = Ok true /\
  users (snd out) = users st /\
  ingredients_of 1 (snd out) = [("flour", "2 cups")] /\
  get_recipe 1 (snd out) = (Ok None, snd out).
Proof.
  split; [reflexivity|]. split; [reflexivity|].
  split; [exact dessert_store_wf|]. split; [reflexivity|].
  destruct (add_recipe_then_delete_recipe String.eqb 3 4 "Cake"
              "Mix and bake" "bob" "admin" (Some [1])
              (Some [("flour", "2 cups")]) 45
              (dessert_store String.eqb example_digest)
              "Cake" "Mix and bake" 45 eq_refl eq_refl eq_refl eq_refl
              eq_refl dessert_store_wf)
    as (H1 & _ & H2 & _ & H4 & H5).
  split; [exact H1|]. split; [exact H2|]. split; [exact H4 | exact H5].
Defined.

Lemma string_eqb_trans (a b c : string) :
  String.eqb a b = true -> String.eqb b c = true -> String.eqb a c = true.
Proof.
  intros H1 H2. apply String.eqb_eq in H1, H2. apply String.eqb_eq.
  congruence.
Qed.

Lemma user_counts_maintained_witness :
  let ops := [(1, OpRegisterUser "bob" "secret1" RoleUser);
              (2, OpAddRecipe "Cake" "Mix and bake" "bob" None
                    (Some [("flour", "2 cups")]) 45);
              (3, OpAddRecipe "Pie" "Roll and bake" "bob" None None 0);
              (4, OpIncrementView 1 "alice");
              (5, OpDeleteRecipe 1 "admin")] in
  let st := run_ops String.eqb example_digest ops empty_db in
  user_counts_ok String.eqb empty_db /\
  authors_registered String.eqb example_digest ops empty_db /\
  user_counts_ok String.eqb st /\
  map u_recipe_count (users st) = [1].
Proof.
  assert (H0 : user_counts_ok String.eqb empty_db)
    by (repeat split; constructor).
  assert (H1 : authors_registered String.eqb example_digest
                 [(1, OpRegisterUser "bob" "secret1" RoleUser);
                  (2, OpAddRecipe "Cake" "Mix and bake" "bob" None
                        (Some [("flour", "2 cups")]) 45);
                  (3, OpAddRecipe "Pie" "Roll and bake" "bob" None None 0);
                  (4, OpIncrementView 1 "alice");
                  (5, OpDeleteRecipe 1 "admin")] empty_db)
    by (vm_compute; repeat split; reflexivity).
  split; [exact H0|]. split; [exact H1|].
  split; [|reflexivity].
  exact (user_counts_maintained String.eqb example_digest String.eqb_sym
           string_eqb_trans _ empty_db H0 H1).
Defined.
